(** * Textenger: conversation stores and message composers

    A shallow embedding of the two chat components of the front-end,
    [RoomChatPage] (room conversations) and [DirectMessageWindow]
    (direct conversations), over a model of the hosted data client
    they call.  React state is a record, an [async] handler is cut at
    each [await] into the part that issues the request and the part
    that runs on the response, and the UI event loop is a step
    function over events. *)

From Stdlib Require Import List String Ascii NArith Bool Arith Lia.
From Stdlib Require Import Sorted Permutation.
Import ListNotations.
Open Scope string_scope.
Open Scope list_scope.

(** ** JavaScript strings *)

Module JS.

(** A JS string is a sequence of UTF-16 code units.  Texts that the
    user types are held this way; ids, column names and fixed messages,
    which are only compared and passed on, are held as [string]. *)
Definition jsstring := list N.

Definition lit (s : string) : jsstring :=
  map N_of_ascii (list_ascii_of_string s).

(** WhiteSpace and LineTerminator code points of ECMAScript, the
    characters [String.prototype.trim] strips. *)
Definition isWhiteSpace (c : N) : bool :=
  ((0x09 <=? c) && (c <=? 0x0D) || (c =? 0x20) || (c =? 0xA0)
   || (c =? 0x1680) || (0x2000 <=? c) && (c <=? 0x200A)
   || (c =? 0x2028) || (c =? 0x2029) || (c =? 0x202F)
   || (c =? 0x205F) || (c =? 0x3000) || (c =? 0xFEFF))%N.

Fixpoint trimStart (s : jsstring) : jsstring :=
  match s with
  | c :: s' => if isWhiteSpace c then trimStart s' else s
  | [] => []
  end.

Definition trimEnd (s : jsstring) : jsstring := rev (trimStart (rev s)).

Definition trim (s : jsstring) : jsstring := trimEnd (trimStart s).

(** Truthiness of a string: non-empty. *)
Definition truthy (s : jsstring) : bool :=
  match s with [] => false | _ :: _ => true end.

(** Empty or whitespace only. *)
Definition blank (s : jsstring) : bool := forallb isWhiteSpace s.

End JS.
Import JS.

(** ** The remote data client *)

Module Supabase.

Record PgError := { code : string; message : string }.

(** What every call resolves to: [{ data, error }]. *)
Record Response (A : Type) := { data : option A; error : option PgError }.
Arguments data {A} _.
Arguments error {A} _.

Definition ok {A} (x : A) : Response A := {| data := Some x; error := None |}.
Definition failed {A} (e : PgError) : Response A :=
  {| data := None; error := Some e |}.

Inductive Table := rooms | room_members | room_messages | direct_messages | profiles.

(** *** Rows *)

Module Room.
Record t := { id : string; name : jsstring; description : option jsstring;
              created_at : N; owner_id : string }.
End Room.

Module Member.
Record t := { room_id : string; user_id : string; role : string }.
End Member.

Module MessageRow.
Record t := { id : string; room_id : string; sender_id : string;
              content : jsstring; created_at : N }.
End MessageRow.

Module DirectMessage.
Record t := { id : string; content : jsstring; created_at : N;
              sender_id : string; receiver_id : string }.
End DirectMessage.

Module Profile.
Record t := { id : string; username : jsstring;
              display_name : option jsstring; avatar_url : option jsstring }.
End Profile.

(** A room message as the page holds it: the selected columns of the
    row with the sender's profile embedded ([profiles:sender_id (...)]). *)
Module RoomMessage.
Record profile := { username : jsstring; display_name : option jsstring;
                    avatar_url : option jsstring }.
Record t := { id : string; content : jsstring; created_at : N;
              sender_id : string; profiles : option profile }.
End RoomMessage.

(** *** Queries, as the builder chains write them *)

Inductive Cond :=
| eq (column value : string)
| and_ (a b : Cond)
| or_ (a b : Cond).

Inductive Columns := star | with_sender_profile | profile_columns.

Record Select := {
  from : Table;
  columns : Columns;
  where_ : list Cond;           (* conjunction of the filters *)
  order_created_at : option bool; (* [Some true]: ascending *)
  limit : option nat;
  single : bool }.

Inductive NewRow :=
| new_room (name description : jsstring) (owner_id : string)
| new_member (room_id user_id role : string)
| new_room_message (room_id sender_id : string) (content : jsstring)
| new_direct_message (sender_id receiver_id : string) (content : jsstring).

Inductive Request :=
| select_ (q : Select)
| insert_ (into : Table) (row : NewRow) (returning : bool).

Definition is_insert (r : Request) : bool :=
  match r with insert_ _ _ _ => true | select_ _ => false end.

(** *** The data store behind the client *)

(** Modelled from the spec: the client of [@/integrations/supabase/client]
    and the hosted store behind it are not among the sources.  Section 6
    gives the contract, [select(table, filter, order, limit) -> rows] and
    [insert(table, row) -> insertedRow], and the columns of the five
    tables. *)

Record DB := {
  t_rooms : list Room.t;
  t_room_members : list Member.t;
  t_room_messages : list MessageRow.t;
  t_direct_messages : list DirectMessage.t;
  t_profiles : list Profile.t }.

(** What the server decides for one request: whether it fails (network,
    row-level security), and the id and timestamp it assigns to an
    inserted row. *)
Record Outcome := { fault : option PgError; new_id : string; now : N }.

Class Row (A : Type) := {
  column : string -> A -> option string;
  created_at_of : A -> N }.

#[export] Instance Row_room : Row Room.t := {|
  column c r := if c =? "id" then Some (Room.id r)
                else if c =? "owner_id" then Some (Room.owner_id r) else None;
  created_at_of := Room.created_at |}.

#[export] Instance Row_message : Row MessageRow.t := {|
  column c r := if c =? "id" then Some (MessageRow.id r)
                else if c =? "room_id" then Some (MessageRow.room_id r)
                else if c =? "sender_id" then Some (MessageRow.sender_id r)
                else None;
  created_at_of := MessageRow.created_at |}.

#[export] Instance Row_direct : Row DirectMessage.t := {|
  column c r := if c =? "id" then Some (DirectMessage.id r)
                else if c =? "sender_id" then Some (DirectMessage.sender_id r)
                else if c =? "receiver_id" then Some (DirectMessage.receiver_id r)
                else None;
  created_at_of := DirectMessage.created_at |}.

#[export] Instance Row_profile : Row Profile.t := {|
  column c r := if c =? "id" then Some (Profile.id r) else None;
  created_at_of _ := 0%N |}.

Section Query.
Context {A : Type} `{Row A}.

Fixpoint holds (c : Cond) (r : A) : bool :=
  match c with
  | eq col v => match column col r with Some x => x =? v | None => false end
  | and_ a b => holds a r && holds b r
  | or_ a b => holds a r || holds b r
  end.

(** Stable insertion sort by [created_at]. *)
Fixpoint insert_by (x : A) (l : list A) : list A :=
  match l with
  | [] => [x]
  | y :: l' => if (created_at_of x <? created_at_of y)%N then x :: l
               else y :: insert_by x l'
  end.

Definition sort_by (l : list A) : list A := fold_right insert_by [] (rev l).

Definition apply_order (o : option bool) (l : list A) : list A :=
  match o with
  | None => l
  | Some true => sort_by l
  | Some false => rev (sort_by l)
  end.

Definition apply_limit (n : option nat) (l : list A) : list A :=
  match n with Some k => firstn k l | None => l end.

Definition run (q : Select) (table : list A) : list A :=
  apply_limit (limit q)
    (apply_order (order_created_at q)
       (filter (fun r => forallb (fun c => holds c r) (where_ q)) table)).

End Query.

(** [.single()]: exactly one row, else an error and no data. *)
Definition PGRST116 : PgError :=
  {| code := "PGRST116";
     message := "JSON object requested, multiple (or no) rows returned" |}.

Definition single_row {A} (rows : list A) : Response A :=
  match rows with [x] => ok x | _ => failed PGRST116 end.

Definition respond {A} (o : Outcome) (r : Response A) : Response A :=
  match fault o with Some e => failed e | None => r end.

Definition sender_profile (db : DB) (sender : string) : option RoomMessage.profile :=
  match find (fun p => Profile.id p =? sender) (t_profiles db) with
  | Some p => Some {| RoomMessage.username := Profile.username p;
                      RoomMessage.display_name := Profile.display_name p;
                      RoomMessage.avatar_url := Profile.avatar_url p |}
  | None => None
  end.

Definition hydrate (db : DB) (r : MessageRow.t) : RoomMessage.t :=
  {| RoomMessage.id := MessageRow.id r;
     RoomMessage.content := MessageRow.content r;
     RoomMessage.created_at := MessageRow.created_at r;
     RoomMessage.sender_id := MessageRow.sender_id r;
     RoomMessage.profiles := sender_profile db (MessageRow.sender_id r) |}.

Definition select_room_messages (q : Select) (db : DB) : list RoomMessage.t :=
  map (hydrate db) (run q (t_room_messages db)).

Definition select_direct_messages (q : Select) (db : DB) : list DirectMessage.t :=
  run q (t_direct_messages db).

Definition select_rooms (q : Select) (db : DB) : list Room.t :=
  run q (t_rooms db).

Definition select_profiles (q : Select) (db : DB) : list Profile.t :=
  run q (t_profiles db).

Definition with_rooms (f : list Room.t -> list Room.t) (db : DB) : DB :=
  {| t_rooms := f (t_rooms db); t_room_members := t_room_members db;
     t_room_messages := t_room_messages db;
     t_direct_messages := t_direct_messages db; t_profiles := t_profiles db |}.

Definition with_room_members (f : list Member.t -> list Member.t) (db : DB) : DB :=
  {| t_rooms := t_rooms db; t_room_members := f (t_room_members db);
     t_room_messages := t_room_messages db;
     t_direct_messages := t_direct_messages db; t_profiles := t_profiles db |}.

Definition with_room_messages (f : list MessageRow.t -> list MessageRow.t)
  (db : DB) : DB :=
  {| t_rooms := t_rooms db; t_room_members := t_room_members db;
     t_room_messages := f (t_room_messages db);
     t_direct_messages := t_direct_messages db; t_profiles := t_profiles db |}.

Definition with_direct_messages
  (f : list DirectMessage.t -> list DirectMessage.t) (db : DB) : DB :=
  {| t_rooms := t_rooms db; t_room_members := t_room_members db;
     t_room_messages := t_room_messages db;
     t_direct_messages := f (t_direct_messages db); t_profiles := t_profiles db |}.

(** [insert]: on a fault nothing is stored; otherwise the row is stored
    with the server's id and timestamp. *)
Definition stored (o : Outcome) (row : NewRow) (db : DB) : DB :=
  match row with
  | new_room n d owner =>
      with_rooms (fun l => l ++ [{| Room.id := new_id o; Room.name := n;
                                    Room.description := Some d;
                                    Room.created_at := now o;
                                    Room.owner_id := owner |}]) db
  | new_member r u role =>
      with_room_members (fun l => l ++ [{| Member.room_id := r; Member.user_id := u;
                                           Member.role := role |}]) db
  | new_room_message r s c =>
      with_room_messages
        (fun l => l ++ [{| MessageRow.id := new_id o; MessageRow.room_id := r;
                           MessageRow.sender_id := s; MessageRow.content := c;
                           MessageRow.created_at := now o |}]) db
  | new_direct_message s r c =>
      with_direct_messages
        (fun l => l ++ [{| DirectMessage.id := new_id o; DirectMessage.content := c;
                           DirectMessage.created_at := now o;
                           DirectMessage.sender_id := s;
                           DirectMessage.receiver_id := r |}]) db
  end.

Definition insert (o : Outcome) (row : NewRow) (db : DB) : Response unit * DB :=
  match fault o with
  | Some e => (failed e, db)
  | None => (ok tt, stored o row db)
  end.

(** [insert(...).select().single()] on [rooms]: the stored row comes back. *)
Definition insert_room (o : Outcome) (n d : jsstring) (owner : string) (db : DB)
  : Response Room.t * DB :=
  match fault o with
  | Some e => (failed e, db)
  | None => (ok {| Room.id := new_id o; Room.name := n; Room.description := Some d;
                   Room.created_at := now o; Room.owner_id := owner |},
             stored o (new_room n d owner) db)
  end.

End Supabase.
Import Supabase.

(** ** What a component runs in

    The mutable surroundings of a mounted component: its React state,
    the requests in flight (each with the continuation that awaits it),
    the data store, the realtime channels the client holds open, the
    console, the toasts shown, and every request sent so far. *)

Module Runtime.

(** Modelled from the spec: the hook of [@/hooks/useAuth] is not among
    the sources; it yields the signed-in user or null, and the
    components read nothing of the user but [user.id]. *)
Module User.
Record t := { id : string }.
End User.

Inductive Console :=
| console_log (label : string)
| console_error (label : string) (e : PgError).

Inductive Toast :=
| toast_error (msg : string)
| toast_success (msg : string).

Record Channel (L : Type) := {
  handle : nat;
  topic : string;
  table : Table;
  server_filter : option Cond;
  listener : L }.
Arguments handle {L} _.
Arguments topic {L} _.
Arguments table {L} _.
Arguments server_filter {L} _.
Arguments listener {L} _.

(** What the component asks of the realtime client. *)
Inductive ClientCall :=
| call_subscribe (topic : string) (table : Table) (row_filter : option Cond)
| call_removeChannel (handle : nat).

Record Sys (S P L : Type) := {
  ui : S;
  pending : list P;
  db : DB;
  channels : list (Channel L);
  next_handle : nat;
  console : list Console;
  toasts : list Toast;
  issued : list Request;
  calls : list ClientCall }.
Arguments ui {S P L} _.
Arguments pending {S P L} _.
Arguments db {S P L} _.
Arguments channels {S P L} _.
Arguments next_handle {S P L} _.
Arguments console {S P L} _.
Arguments toasts {S P L} _.
Arguments issued {S P L} _.
Arguments calls {S P L} _.

Section Actions.
Context {S P L : Type}.

Definition Action := Sys S P L -> Sys S P L.

Definition skip : Action := fun s => s.

Definition andThen (a b : Action) : Action := fun s => b (a s).

(** A state setter given an updater function. *)
Definition update (f : S -> S) : Action := fun s =>
  {| ui := f (ui s); pending := pending s; db := db s; channels := channels s;
     next_handle := next_handle s; console := console s; toasts := toasts s;
     issued := issued s;
     calls := calls s |}.

(** Send a request and suspend until its response: [await supabase...]. *)
Definition await (r : Request) (k : P) : Action := fun s =>
  {| ui := ui s; pending := pending s ++ [k]; db := db s; channels := channels s;
     next_handle := next_handle s; console := console s; toasts := toasts s;
     issued := issued s ++ [r];
     calls := calls s |}.

(** A request in flight is served: it leaves [pending], and the store
    is what the server made of it.  The continuation runs next. *)
Definition resume (rest : list P) (d : DB) : Action := fun s =>
  {| ui := ui s; pending := rest; db := d; channels := channels s;
     next_handle := next_handle s; console := console s; toasts := toasts s;
     issued := issued s;
     calls := calls s |}.

(** Another client's write reaches the store. *)
Definition elsewhere (f : DB -> DB) : Action := fun s =>
  {| ui := ui s; pending := pending s; db := f (db s); channels := channels s;
     next_handle := next_handle s; console := console s; toasts := toasts s;
     issued := issued s;
     calls := calls s |}.

Definition say (c : Console) : Action := fun s =>
  {| ui := ui s; pending := pending s; db := db s; channels := channels s;
     next_handle := next_handle s; console := console s ++ [c];
     toasts := toasts s; issued := issued s;
     calls := calls s |}.

Definition toast (t : Toast) : Action := fun s =>
  {| ui := ui s; pending := pending s; db := db s; channels := channels s;
     next_handle := next_handle s; console := console s;
     toasts := toasts s ++ [t]; issued := issued s;
     calls := calls s |}.

(** [supabase.channel(topic).on('postgres_changes', { event: 'INSERT',
    table, filter }, listener).subscribe()]; the new channel's handle is
    the old [next_handle].  A topic is joined once: when a channel is
    already joined under the topic, joining it again makes the client
    leave that channel (a duplicate topic is left on join), so that no
    two channels are live under one topic.  A client that instead hands
    back the joined channel refuses the new callback and throws; what
    holds of either is that the call is made and that no second channel
    is live under the topic. *)
Definition subscribe (tp : string) (tb : Table) (f : option Cond) (l : L)
  : Action := fun s =>
  {| ui := ui s; pending := pending s; db := db s;
     channels := filter (fun c => negb (topic c =? tp)) (channels s)
                 ++ [{| handle := next_handle s; topic := tp;
                        table := tb; server_filter := f;
                        listener := l |}];
     next_handle := Datatypes.S (next_handle s); console := console s;
     toasts := toasts s; issued := issued s;
     calls := calls s ++ [call_subscribe tp tb f] |}.

(** [supabase.removeChannel(channel)]. *)
Definition removeChannel (h : nat) : Action := fun s =>
  {| ui := ui s; pending := pending s; db := db s;
     channels := filter (fun c => negb (handle c =? h)%nat) (channels s);
     next_handle := next_handle s; console := console s;
     toasts := toasts s; issued := issued s;
     calls := calls s ++ [call_removeChannel h] |}.

Definition find_channel (h : nat) (s : Sys S P L) : option (Channel L) :=
  find (fun c => (handle c =? h)%nat) (channels s).

End Actions.

Definition is_some {A} (o : option A) : bool :=
  match o with Some _ => true | None => false end.

Fixpoint remove_nth {A} (i : nat) (l : list A) : list A :=
  match i, l with
  | _, [] => []
  | O, _ :: l' => l'
  | Datatypes.S i', x :: l' => x :: remove_nth i' l'
  end.

(** The catch blocks of [loadRooms] and [createRoom]: known codes map to
    fixed texts, else the raw message, else the default. *)
Definition errorMessage (default : string) (e : PgError) : string :=
  if code e =? "PGRST116" then "Access denied. Please check your permissions."
  else if code e =? "PGRST301" then "Authentication required. Please sign in again."
  else if (String.length (message e) =? 0)%nat then default
  else message e.

(** Reading [data.id] of a [null] throws a [TypeError]; it has no [code]. *)
Definition TypeError_null : PgError :=
  {| code := ""; message := "Cannot read properties of null (reading 'id')" |}.

End Runtime.
Import Runtime.

Declare Scope action_scope.
Delimit Scope action_scope with act.
Notation "a ;; b" := (andThen a b) (at level 61, right associativity) : action_scope.
Open Scope action_scope.

(** ** RoomChatPage *)

Module RoomChatPage.

Record NewRoom := { name : jsstring; description : jsstring }.

(** Identity of a row object held in [rooms]: the load that produced
    the array and the index in it.  [Object.is] on two row objects is
    equality of these. *)
Definition Ref := (nat * nat)%type.

Definition same_ref (a b : Ref) : bool :=
  (fst a =? fst b)%nat && (snd a =? snd b)%nat.

Record State := {
  user : option User.t;                    (* useAuth() *)
  rooms : list Room.t;
  rooms_gen : nat;                         (* which array [rooms] is *)
  selectedRoom : option (Ref * Room.t);
  messages : list RoomMessage.t;
  newMessage : jsstring;
  newRoom : NewRoom;
  loading : bool;
  sending : bool;
  isDialogOpen : bool }.

Definition initial (u : option User.t) : State := {|
  user := u; rooms := []; rooms_gen := 0; selectedRoom := None;
  messages := []; newMessage := []; newRoom := {| name := []; description := [] |};
  loading := true; sending := false; isDialogOpen := false |}.

Definition setUser (v : option User.t) (s : State) : State :=
  {| user := v; rooms := rooms s; rooms_gen := rooms_gen s;
     selectedRoom := selectedRoom s; messages := messages s;
     newMessage := newMessage s; newRoom := newRoom s; loading := loading s;
     sending := sending s; isDialogOpen := isDialogOpen s |}.

Definition setRooms (v : list Room.t) (s : State) : State :=
  {| user := user s; rooms := v; rooms_gen := S (rooms_gen s);
     selectedRoom := selectedRoom s; messages := messages s;
     newMessage := newMessage s; newRoom := newRoom s; loading := loading s;
     sending := sending s; isDialogOpen := isDialogOpen s |}.

Definition setSelectedRoom (v : option (Ref * Room.t)) (s : State) : State :=
  {| user := user s; rooms := rooms s; rooms_gen := rooms_gen s;
     selectedRoom := v; messages := messages s;
     newMessage := newMessage s; newRoom := newRoom s; loading := loading s;
     sending := sending s; isDialogOpen := isDialogOpen s |}.

Definition setMessages (f : list RoomMessage.t -> list RoomMessage.t)
  (s : State) : State :=
  {| user := user s; rooms := rooms s; rooms_gen := rooms_gen s;
     selectedRoom := selectedRoom s; messages := f (messages s);
     newMessage := newMessage s; newRoom := newRoom s; loading := loading s;
     sending := sending s; isDialogOpen := isDialogOpen s |}.

Definition setNewMessage (v : jsstring) (s : State) : State :=
  {| user := user s; rooms := rooms s; rooms_gen := rooms_gen s;
     selectedRoom := selectedRoom s; messages := messages s;
     newMessage := v; newRoom := newRoom s; loading := loading s;
     sending := sending s; isDialogOpen := isDialogOpen s |}.

Definition setNewRoom (v : NewRoom) (s : State) : State :=
  {| user := user s; rooms := rooms s; rooms_gen := rooms_gen s;
     selectedRoom := selectedRoom s; messages := messages s;
     newMessage := newMessage s; newRoom := v; loading := loading s;
     sending := sending s; isDialogOpen := isDialogOpen s |}.

Definition setLoading (v : bool) (s : State) : State :=
  {| user := user s; rooms := rooms s; rooms_gen := rooms_gen s;
     selectedRoom := selectedRoom s; messages := messages s;
     newMessage := newMessage s; newRoom := newRoom s; loading := v;
     sending := sending s; isDialogOpen := isDialogOpen s |}.

Definition setSending (v : bool) (s : State) : State :=
  {| user := user s; rooms := rooms s; rooms_gen := rooms_gen s;
     selectedRoom := selectedRoom s; messages := messages s;
     newMessage := newMessage s; newRoom := newRoom s; loading := loading s;
     sending := v; isDialogOpen := isDialogOpen s |}.

Definition setIsDialogOpen (v : bool) (s : State) : State :=
  {| user := user s; rooms := rooms s; rooms_gen := rooms_gen s;
     selectedRoom := selectedRoom s; messages := messages s;
     newMessage := newMessage s; newRoom := newRoom s; loading := loading s;
     sending := sending s; isDialogOpen := v |}.

(** *** The queries the page builds *)

Definition loadRooms_query : Select :=
  {| from := Supabase.rooms; columns := star; where_ := [];
     order_created_at := Some true; limit := None; single := false |}.

Definition loadMessages_query (roomId : string) : Select :=
  {| from := room_messages; columns := with_sender_profile;
     where_ := [eq "room_id" roomId];
     order_created_at := Some true; limit := Some 50; single := false |}.

Definition onInsert_query (id : string) : Select :=
  {| from := room_messages; columns := with_sender_profile;
     where_ := [eq "id" id];
     order_created_at := None; limit := None; single := true |}.

(** What is in flight: the [await] the handler is suspended at, with
    what its closure captured. *)
Inductive Pending :=
| loadRooms_select (saw_selectedRoom : bool)
| loadMessages_select (roomId : string)
| onInsert_select (id : string)
| createRoom_insert (u : User.t) (saw_selectedRoom : bool) (n d : jsstring)
| createRoom_member (u : User.t) (saw_selectedRoom : bool) (room_id : string)
| sendMessage_insert (room_id sender_id : string) (content : jsstring).

Definition request (k : Pending) : Request :=
  match k with
  | loadRooms_select _ => select_ loadRooms_query
  | loadMessages_select roomId => select_ (loadMessages_query roomId)
  | onInsert_select id => select_ (onInsert_query id)
  | createRoom_insert u _ n d =>
      insert_ Supabase.rooms (new_room n d (User.id u)) true
  | createRoom_member u _ room_id =>
      insert_ room_members (new_member room_id (User.id u) "owner") false
  | sendMessage_insert room_id sender_id content =>
      insert_ room_messages (new_room_message room_id sender_id content) false
  end.

Definition is_send (k : Pending) : bool :=
  match k with sendMessage_insert _ _ _ => true | _ => false end.

Definition Sys := Runtime.Sys State Pending unit.
Definition Action := @Runtime.Action State Pending unit.

Definition suspend (k : Pending) : Action := await (request k) k.

(** *** loadRooms *)

(** The closure of [loadRooms] reads the [selectedRoom] of the render it
    was created in. *)
Definition loadRooms_seeing (saw_selectedRoom : bool) : Action :=
  say (console_log "Loading rooms for user:") ;;
  suspend (loadRooms_select saw_selectedRoom).

Definition loadRooms : Action := fun s =>
  loadRooms_seeing (is_some (selectedRoom (ui s))) s.

Definition loadRooms_then (saw_selectedRoom : bool)
  (r : Response (list Room.t)) : Action :=
  match error r with
  | Some e =>
      say (console_error "Error loading rooms:" e) ;;
      say (console_error "Error loading rooms:" e) ;;
      toast (toast_error (errorMessage "Failed to load rooms" e))
  | None =>
      say (console_log "Rooms loaded successfully:") ;;
      match data r with
      | Some (first :: rest) => fun s =>
          (update (setRooms (first :: rest)) ;;
           if saw_selectedRoom then skip
           else update (setSelectedRoom (Some ((S (rooms_gen (ui s)), 0), first)))) s
      | Some [] => update (setRooms [])
      | None => update (setRooms [])
      end
  end ;;
  update (setLoading false).

(** *** loadMessages *)

Definition loadMessages (roomId : string) : Action :=
  suspend (loadMessages_select roomId).

Definition loadMessages_then (r : Response (list RoomMessage.t)) : Action :=
  match error r with
  | Some e =>
      say (console_error "Error loading messages:" e) ;;
      toast (toast_error "Failed to load messages")
  | None =>
      update (setMessages (fun _ => match data r with Some d => d | None => [] end))
  end.

(** *** subscribeToMessages

    The callback re-fetches the inserted row by id and appends what it
    gets; the function returns the closure that removes the channel,
    represented by the channel's handle. *)

Definition subscribeToMessages (roomId : string) (s : Sys) : nat * Sys :=
  (next_handle s,
   subscribe "room-messages" room_messages (Some (eq "room_id" roomId)) tt s).

Definition onInsert (payload_new : MessageRow.t) : Action :=
  suspend (onInsert_select (MessageRow.id payload_new)).

Definition onInsert_then (r : Response RoomMessage.t) : Action :=
  match data r with
  | Some d => update (setMessages (fun prev => prev ++ [d]))
  | None => skip
  end.

(** *** createRoom *)

Definition createRoom : Action := fun s =>
  match user (ui s) with
  | None => s
  | Some u =>
      if negb (truthy (trim (name (newRoom (ui s))))) then s
      else
        (say (console_log "Creating room with user:") ;;
         suspend (createRoom_insert u (is_some (selectedRoom (ui s)))
                    (name (newRoom (ui s))) (description (newRoom (ui s))))) s
  end.

Definition createRoom_catch (e : PgError) : Action :=
  say (console_error "Error creating room:" e) ;;
  toast (toast_error (errorMessage "Failed to create room" e)).

Definition createRoom_then_room (u : User.t) (saw_selectedRoom : bool)
  (r : Response Room.t) : Action :=
  match error r with
  | Some e =>
      say (console_error "Room creation error:" e) ;;
      createRoom_catch e
  | None =>
      say (console_log "Room created successfully:") ;;
      match data r with
      | Some d => suspend (createRoom_member u saw_selectedRoom (Room.id d))
      | None => createRoom_catch TypeError_null
      end
  end.

Definition createRoom_then_member (saw_selectedRoom : bool)
  (r : Response unit) : Action :=
  match error r with
  | Some memberError =>
      say (console_error "Error adding user to room members:" memberError)
  | None => skip
  end ;;
  update (setNewRoom {| name := []; description := [] |}) ;;
  update (setIsDialogOpen false) ;;
  loadRooms_seeing saw_selectedRoom ;;
  toast (toast_success "Room created successfully!").

(** *** sendMessage *)

Definition sendMessage : Action := fun s =>
  match user (ui s), selectedRoom (ui s) with
  | Some u, Some (_, room) =>
      if negb (truthy (trim (newMessage (ui s)))) then s
      else
        (update (setSending true) ;;
         suspend (sendMessage_insert (Room.id room) (User.id u)
                                     (trim (newMessage (ui s))))) s
  | _, _ => s
  end.

Definition sendMessage_then (r : Response unit) : Action :=
  match error r with
  | Some e =>
      say (console_error "Error sending message:" e) ;;
      toast (toast_error "Failed to send message")
  | None => update (setNewMessage [])
  end ;;
  update (setSending false).

(** *** Effects

    [useEffect(() => { if (user) loadRooms() }, [user])] and
    [useEffect(() => { if (selectedRoom) { loadMessages(selectedRoom.id);
    subscribeToMessages(selectedRoom.id) } }, [selectedRoom])].
    Neither returns a cleanup. *)

Definition useEffect_user : Action := fun s =>
  match user (ui s) with
  | Some _ => loadRooms s
  | None => s
  end.

Definition same_selected (a b : option (Ref * Room.t)) : bool :=
  match a, b with
  | None, None => true
  | Some (ra, _), Some (rb, _) => same_ref ra rb
  | _, _ => false
  end.

Definition useEffect_selectedRoom : Action := fun s =>
  match selectedRoom (ui s) with
  | Some (_, room) =>
      (loadMessages (Room.id room) ;;
       fun s' => snd (subscribeToMessages (Room.id room) s')) s
  | None => s
  end.

(** After a handler has run React renders again and runs the effects
    whose dependency changed. *)
Definition commit (before : State) : Action := fun s =>
  if same_selected (selectedRoom before) (selectedRoom (ui s)) then s
  else useEffect_selectedRoom s.

(** *** What is rendered

    Nothing but a spinner while [loading]; the composer only when a
    room is selected, with [disabled={sending}] on the input and
    [disabled={!newMessage.trim() || sending}] on the button; the
    dialog's fields only while it is open. *)

Record Composer := { input_disabled : bool; button_disabled : bool }.

Definition composer (st : State) : option Composer :=
  if loading st then None
  else match selectedRoom st with
       | Some _ =>
           Some {| input_disabled := sending st;
                   button_disabled :=
                     negb (truthy (trim (newMessage st))) || sending st |}
       | None => None
       end.

Definition input_enabled (st : State) : bool :=
  match composer st with Some c => negb (input_disabled c) | None => false end.

Definition button_enabled (st : State) : bool :=
  match composer st with Some c => negb (button_disabled c) | None => false end.

Definition dialog_shown (st : State) : bool := negb (loading st) && isDialogOpen st.

(** *** The event loop *)

Inductive Event :=
| Auth (u : option User.t)            (* useAuth() yields another user *)
| ClickRoom (i : nat)                 (* the i-th button of the room list *)
| OpenChange (open : bool)
| ChangeRoomName (v : jsstring)
| ChangeRoomDescription (v : jsstring)
| ClickCreateRoom
| ChangeMessage (v : jsstring)
| KeyPress (key : string) (shiftKey : bool)
| ClickSend
| Settle (i : nat) (o : Outcome)      (* the i-th request in flight resolves *)
| Realtime (h : nat) (row : MessageRow.t) (* INSERT pushed on channel h *)
| Elsewhere (o : Outcome) (row : NewRow).  (* another client inserts *)

(** The answer to the callback's re-fetch of one row. *)
Definition refetch (id : string) (o : Outcome) (d : DB) : Response RoomMessage.t :=
  respond o (single_row (select_room_messages (onInsert_query id) d)).

(** The answer to [loadMessages]' query. *)
Definition loaded (roomId : string) (o : Outcome) (d : DB)
  : Response (list RoomMessage.t) :=
  respond o (ok (select_room_messages (loadMessages_query roomId) d)).

Definition settle (k : Pending) (o : Outcome) (rest : list Pending) : Action :=
  fun s =>
  match k with
  | loadRooms_select saw =>
      (resume rest (db s) ;;
       loadRooms_then saw (respond o (ok (select_rooms loadRooms_query (db s))))) s
  | loadMessages_select roomId =>
      (resume rest (db s) ;; loadMessages_then (loaded roomId o (db s))) s
  | onInsert_select id =>
      (resume rest (db s) ;; onInsert_then (refetch id o (db s))) s
  | createRoom_insert u saw n d =>
      let (r, db') := insert_room o n d (User.id u) (db s) in
      (resume rest db' ;; createRoom_then_room u saw r) s
  | createRoom_member u saw room_id =>
      let (r, db') := insert o (new_member room_id (User.id u) "owner") (db s) in
      (resume rest db' ;; createRoom_then_member saw r) s
  | sendMessage_insert room_id sender_id content =>
      let (r, db') := insert o (new_room_message room_id sender_id content) (db s) in
      (resume rest db' ;; sendMessage_then r) s
  end.

(** The server pushes a row on a channel only if it passes the
    channel's filter. *)
Definition passes (c : Channel unit) (row : MessageRow.t) : bool :=
  match server_filter c with
  | Some f => holds f row
  | None => true
  end.

Definition handle_event (e : Event) : Action := fun s =>
  match e with
  | Auth u =>
      match user (ui s), u with
      | None, None => s
      | _, _ => (update (setUser u) ;; useEffect_user) s
      end
  | ClickRoom i =>
      if loading (ui s) then s
      else match nth_error (rooms (ui s)) i with
           | Some room =>
               update (setSelectedRoom (Some ((rooms_gen (ui s), i), room))) s
           | None => s
           end
  | OpenChange open =>
      if loading (ui s) then s else update (setIsDialogOpen open) s
  | ChangeRoomName v =>
      if dialog_shown (ui s)
      then update (setNewRoom {| name := v;
                                 description := description (newRoom (ui s)) |}) s
      else s
  | ChangeRoomDescription v =>
      if dialog_shown (ui s)
      then update (setNewRoom {| name := name (newRoom (ui s));
                                 description := v |}) s
      else s
  | ClickCreateRoom =>
      if dialog_shown (ui s) then createRoom s else s
  | ChangeMessage v =>
      if input_enabled (ui s) then update (setNewMessage v) s else s
  | KeyPress key shiftKey =>
      if input_enabled (ui s) && (key =? "Enter") && negb shiftKey
      then sendMessage s else s
  | ClickSend =>
      if button_enabled (ui s) then sendMessage s else s
  | Settle i o =>
      match nth_error (pending s) i with
      | Some k => settle k o (remove_nth i (pending s)) s
      | None => s
      end
  | Realtime h row =>
      match find_channel h s with
      | Some c => if passes c row then onInsert row s else s
      | None => s
      end
  | Elsewhere o row => elsewhere (stored o row) s
  end.

Definition step (e : Event) (s : Sys) : Sys :=
  commit (ui s) (handle_event e s).

Definition run (es : list Event) (s : Sys) : Sys :=
  fold_left (fun s e => step e s) es s.

(** Mounting renders once from the initial state and runs both effects. *)
Definition mount (d : DB) (u : option User.t) : Sys :=
  (useEffect_user ;; useEffect_selectedRoom)
    {| ui := initial u; pending := []; db := d; channels := []; next_handle := 0;
       console := []; toasts := []; issued := []; calls := [] |}.

End RoomChatPage.

(** ** DirectMessageWindow *)

Module DirectMessageWindow.

Record State := {
  otherUserId : string;                    (* the prop *)
  user : option User.t;                    (* useAuth() *)
  messages : list DirectMessage.t;
  newMessage : jsstring;
  otherUser : option Profile.t;
  loading : bool;
  sending : bool;
  cleanup : option nat }.  (* what the last run of the effect returned *)

Definition initial (other : string) (u : option User.t) : State := {|
  otherUserId := other; user := u; messages := []; newMessage := [];
  otherUser := None; loading := true; sending := false; cleanup := None |}.

Definition setOtherUserId (v : string) (s : State) : State :=
  {| otherUserId := v; user := user s; messages := messages s;
     newMessage := newMessage s; otherUser := otherUser s;
     loading := loading s; sending := sending s; cleanup := cleanup s |}.

Definition setUser (v : option User.t) (s : State) : State :=
  {| otherUserId := otherUserId s; user := v; messages := messages s;
     newMessage := newMessage s; otherUser := otherUser s;
     loading := loading s; sending := sending s; cleanup := cleanup s |}.

Definition setMessages (f : list DirectMessage.t -> list DirectMessage.t)
  (s : State) : State :=
  {| otherUserId := otherUserId s; user := user s; messages := f (messages s);
     newMessage := newMessage s; otherUser := otherUser s;
     loading := loading s; sending := sending s; cleanup := cleanup s |}.

Definition setNewMessage (v : jsstring) (s : State) : State :=
  {| otherUserId := otherUserId s; user := user s; messages := messages s;
     newMessage := v; otherUser := otherUser s;
     loading := loading s; sending := sending s; cleanup := cleanup s |}.

Definition setOtherUser (v : option Profile.t) (s : State) : State :=
  {| otherUserId := otherUserId s; user := user s; messages := messages s;
     newMessage := newMessage s; otherUser := v;
     loading := loading s; sending := sending s; cleanup := cleanup s |}.

Definition setLoading (v : bool) (s : State) : State :=
  {| otherUserId := otherUserId s; user := user s; messages := messages s;
     newMessage := newMessage s; otherUser := otherUser s;
     loading := v; sending := sending s; cleanup := cleanup s |}.

Definition setSending (v : bool) (s : State) : State :=
  {| otherUserId := otherUserId s; user := user s; messages := messages s;
     newMessage := newMessage s; otherUser := otherUser s;
     loading := loading s; sending := v; cleanup := cleanup s |}.

Definition setCleanup (v : option nat) (s : State) : State :=
  {| otherUserId := otherUserId s; user := user s; messages := messages s;
     newMessage := newMessage s; otherUser := otherUser s;
     loading := loading s; sending := sending s; cleanup := v |}.

(** *** The queries the window builds *)

Definition loadOtherUser_query (other : string) : Select :=
  {| from := profiles; columns := profile_columns; where_ := [eq "id" other];
     order_created_at := None; limit := None; single := true |}.

(** [or(and(sender_id.eq.self,receiver_id.eq.other),
        and(sender_id.eq.other,receiver_id.eq.self))] *)
Definition pair_filter (self other : string) : Cond :=
  or_ (and_ (eq "sender_id" self) (eq "receiver_id" other))
      (and_ (eq "sender_id" other) (eq "receiver_id" self)).

Definition loadMessages_query (self other : string) : Select :=
  {| from := direct_messages; columns := star;
     where_ := [pair_filter self other];
     order_created_at := Some true; limit := Some 50; single := false |}.

Inductive Pending :=
| loadOtherUser_select (other : string)
| loadMessages_select (self other : string)
| sendMessage_insert (sender_id receiver_id : string) (content : jsstring).

Definition request (k : Pending) : Request :=
  match k with
  | loadOtherUser_select other => select_ (loadOtherUser_query other)
  | loadMessages_select self other => select_ (loadMessages_query self other)
  | sendMessage_insert sender_id receiver_id content =>
      insert_ direct_messages (new_direct_message sender_id receiver_id content) false
  end.

Definition is_send (k : Pending) : bool :=
  match k with sendMessage_insert _ _ _ => true | _ => false end.

(** What the subscription callback closes over: [user?.id] and
    [otherUserId] of the render whose effect subscribed. *)
Record Listener := { self_id : string; peer_id : string }.

Definition Sys := Runtime.Sys State Pending Listener.
Definition Action := @Runtime.Action State Pending Listener.

Definition suspend (k : Pending) : Action := await (request k) k.

(** *** loadOtherUser *)

Definition loadOtherUser : Action := fun s =>
  suspend (loadOtherUser_select (otherUserId (ui s))) s.

Definition loadOtherUser_then (r : Response Profile.t) : Action :=
  match error r with
  | Some e =>
      say (console_error "Error loading user:" e) ;;
      toast (toast_error "Failed to load user information")
  | None => update (setOtherUser (data r))
  end.

(** *** loadMessages *)

Definition loadMessages (u : User.t) : Action := fun s =>
  suspend (loadMessages_select (User.id u) (otherUserId (ui s))) s.

Definition loadMessages_then (r : Response (list DirectMessage.t)) : Action :=
  match error r with
  | Some e =>
      say (console_error "Error loading messages:" e) ;;
      toast (toast_error "Failed to load messages")
  | None =>
      update (setMessages (fun _ => match data r with Some d => d | None => [] end))
  end ;;
  update (setLoading false).

(** *** subscribeToMessages *)

Definition subscribeToMessages (u : User.t) (s : Sys) : nat * Sys :=
  (next_handle s,
   subscribe "direct-messages" direct_messages None
     {| self_id := User.id u; peer_id := otherUserId (ui s) |} s).

Definition in_conversation (l : Listener) (newMsg : DirectMessage.t) : bool :=
  (DirectMessage.sender_id newMsg =? self_id l)
    && (DirectMessage.receiver_id newMsg =? peer_id l)
  || (DirectMessage.sender_id newMsg =? peer_id l)
       && (DirectMessage.receiver_id newMsg =? self_id l).

Definition onInsert (l : Listener) (newMsg : DirectMessage.t) : Action :=
  if in_conversation l newMsg
  then update (setMessages (fun prev => prev ++ [newMsg]))
  else skip.

(** *** sendMessage *)

Definition sendMessage : Action := fun s =>
  match user (ui s) with
  | Some u =>
      if negb (truthy (trim (newMessage (ui s)))) then s
      else
        (update (setSending true) ;;
         suspend (sendMessage_insert (User.id u) (otherUserId (ui s))
                                     (trim (newMessage (ui s))))) s
  | None => s
  end.

Definition sendMessage_then (r : Response unit) : Action :=
  match error r with
  | Some e =>
      say (console_error "Error sending message:" e) ;;
      toast (toast_error "Failed to send message")
  | None => update (setNewMessage [])
  end ;;
  update (setSending false).

(** *** The effect on [[otherUserId, user]]

    Before the effect runs again React calls what its last run
    returned, [() => { unsubscribe() }]. *)

Definition run_cleanup : Action := fun s =>
  match cleanup (ui s) with
  | Some h => (removeChannel h ;; update (setCleanup None)) s
  | None => s
  end.

Definition useEffect : Action := fun s =>
  match user (ui s) with
  | Some u =>
      if negb (otherUserId (ui s) =? "") then
        (loadOtherUser ;;
         loadMessages u ;;
         fun s' => let (unsubscribe, s'') := subscribeToMessages u s' in
                   update (setCleanup (Some unsubscribe)) s'') s
      else s
  | None => s
  end.

(** *** What is rendered *)

Record Composer := { input_disabled : bool; button_disabled : bool }.

Definition composer (st : State) : option Composer :=
  if loading st then None
  else match otherUser st with
       | Some _ =>
           Some {| input_disabled := sending st;
                   button_disabled :=
                     negb (truthy (trim (newMessage st))) || sending st |}
       | None => None
       end.

Definition input_enabled (st : State) : bool :=
  match composer st with Some c => negb (input_disabled c) | None => false end.

Definition button_enabled (st : State) : bool :=
  match composer st with Some c => negb (button_disabled c) | None => false end.

(** *** The event loop *)

Inductive Event :=
| Props (other : string)              (* rendered with another otherUserId *)
| Auth (u : option User.t)
| ChangeMessage (v : jsstring)
| KeyPress (key : string) (shiftKey : bool)
| ClickSend
| Settle (i : nat) (o : Outcome)
| Realtime (h : nat) (row : DirectMessage.t)
| Elsewhere (o : Outcome) (row : NewRow).

(** The answer to [loadMessages]' query. *)
Definition loaded (self other : string) (o : Outcome) (d : DB)
  : Response (list DirectMessage.t) :=
  respond o (ok (select_direct_messages (loadMessages_query self other) d)).

Definition settle (k : Pending) (o : Outcome) (rest : list Pending) : Action :=
  fun s =>
  match k with
  | loadOtherUser_select other =>
      (resume rest (db s) ;;
       loadOtherUser_then
         (respond o (single_row (select_profiles (loadOtherUser_query other) (db s))))) s
  | loadMessages_select self other =>
      (resume rest (db s) ;; loadMessages_then (loaded self other o (db s))) s
  | sendMessage_insert sender_id receiver_id content =>
      let (r, db') :=
        insert o (new_direct_message sender_id receiver_id content) (db s) in
      (resume rest db' ;; sendMessage_then r) s
  end.

Definition step (e : Event) : Action := fun s =>
  match e with
  | Props other =>
      if otherUserId (ui s) =? other then s
      else (update (setOtherUserId other) ;; run_cleanup ;; useEffect) s
  | Auth u =>
      match user (ui s), u with
      | None, None => s
      | _, _ => (update (setUser u) ;; run_cleanup ;; useEffect) s
      end
  | ChangeMessage v =>
      if input_enabled (ui s) then update (setNewMessage v) s else s
  | KeyPress key shiftKey =>
      if input_enabled (ui s) && (key =? "Enter") && negb shiftKey
      then sendMessage s else s
  | ClickSend =>
      if button_enabled (ui s) then sendMessage s else s
  | Settle i o =>
      match nth_error (pending s) i with
      | Some k => settle k o (remove_nth i (pending s)) s
      | None => s
      end
  | Realtime h row =>
      match find_channel h s with
      | Some c => onInsert (listener c) row s
      | None => s
      end
  | Elsewhere o row => elsewhere (stored o row) s
  end.

Definition run (es : list Event) (s : Sys) : Sys :=
  fold_left (fun s e => step e s) es s.

Definition mount (d : DB) (other : string) (u : option User.t) : Sys :=
  useEffect
    {| ui := initial other u; pending := []; db := d; channels := [];
       next_handle := 0; console := []; toasts := []; issued := []; calls := [] |}.

(** Unmounting runs the effect's cleanup; nothing is rendered after it. *)
Definition unmount : Action := run_cleanup.

End DirectMessageWindow.

(** ** Dashboard: when a direct-message window exists *)

Module Dashboard.

Record State := { activePage : string; selectedChatUserId : option string }.

Definition initial : State :=
  {| activePage := "home"; selectedChatUserId := None |}.

Definition handleMessageUser (userId : string) (s : State) : State :=
  {| activePage := "direct-messages"; selectedChatUserId := Some userId |}.

Definition shows_direct_messages (page : string) : bool :=
  negb ((page =? "home") || (page =? "browse-friends") || (page =? "profile")
        || (page =? "room-profile") || (page =? "audio-settings")
        || (page =? "room-chat")).

(** The [otherUserId] the window is rendered with, if it is rendered. *)
Definition directMessageWindow (s : State) : option string :=
  if shows_direct_messages (activePage s) then
    match selectedChatUserId s with
    | Some id => if negb (id =? "") then Some id else None
    | None => None
    end
  else None.

End Dashboard.

(** ** The properties the claims speak of *)

(** Non-decreasing by [created_at], entry to entry. *)
Definition non_decreasing {A} (created_at : A -> N) (l : list A) : Prop :=
  Sorted (fun a b => (created_at a <= created_at b)%N) l.

(** The newest entry of a sequence, its last. *)
Fixpoint latest {A} (l : list A) : option A :=
  match l with
  | [] => None
  | [x] => Some x
  | _ :: l' => latest l'
  end.

(** No id occurs twice. *)
Definition unique_ids {A} (id : A -> string) (l : list A) : Prop :=
  NoDup (map id l).

(** How many entries of a sequence carry the id [x]. *)
Definition occurrences {A} (id : A -> string) (x : string) (l : list A) : nat :=
  count_occ string_dec (map id l) x.

(** The component has asked the client for channels only, never to
    remove one. *)
Definition never_removes (log : list ClientCall) : bool :=
  forallb (fun c => match c with
                    | call_subscribe _ _ _ => true
                    | call_removeChannel _ => false
                    end) log.

(** How many requests of the log are inserts. *)
Definition inserts (log : list Request) : nat :=
  List.length (filter is_insert log).


(** How many of the requests in flight are message inserts. *)
Definition in_flight {P} (is_send : P -> bool) (l : list P) : nat :=
  List.length (filter is_send l).

(** Single flight: a message insert is in flight exactly while
    [sending] is set, and then only one. *)
Definition room_single_flight (s : RoomChatPage.Sys) : Prop :=
  in_flight RoomChatPage.is_send (pending s)
  = if RoomChatPage.sending (ui s) then 1 else 0.

Definition direct_single_flight (s : DirectMessageWindow.Sys) : Prop :=
  in_flight DirectMessageWindow.is_send (pending s)
  = if DirectMessageWindow.sending (ui s) then 1 else 0.

(** The window holds the channel its effect opened last, and no other. *)
Definition direct_one_channel (s : DirectMessageWindow.Sys) : Prop :=
  match DirectMessageWindow.cleanup (ui s) with
  | Some h => exists c, channels s = [c] /\ handle c = h
  | None => channels s = []
  end.

(** ** Concrete data for the examples *)

Module Data.

Definition alice : User.t := {| User.id := "alice" |}.
Definition bob : User.t := {| User.id := "bob" |}.

Definition served : Outcome := {| fault := None; new_id := "new"; now := 9 |}.

Definition permission_denied : PgError :=
  {| code := "42501"; message := "permission denied" |}.

Definition denied : Outcome :=
  {| fault := Some permission_denied; new_id := "new"; now := 9 |}.

Definition general : Room.t :=
  {| Room.id := "general"; Room.name := lit "General"; Room.description := None;
     Room.created_at := 1; Room.owner_id := "alice" |}.

Definition random : Room.t :=
  {| Room.id := "random"; Room.name := lit "Random"; Room.description := None;
     Room.created_at := 2; Room.owner_id := "bob" |}.

Definition row (id room sender : string) (at_ : N) : MessageRow.t :=
  {| MessageRow.id := id; MessageRow.room_id := room; MessageRow.sender_id := sender;
     MessageRow.content := lit "hi"; MessageRow.created_at := at_ |}.

Definition dm (id sender receiver : string) (at_ : N) : DirectMessage.t :=
  {| DirectMessage.id := id; DirectMessage.content := lit "hi";
     DirectMessage.created_at := at_; DirectMessage.sender_id := sender;
     DirectMessage.receiver_id := receiver |}.

Definition bob_profile : Profile.t :=
  {| Profile.id := "bob"; Profile.username := lit "bob";
     Profile.display_name := None; Profile.avatar_url := None |}.

Definition alice_profile : Profile.t :=
  {| Profile.id := "alice"; Profile.username := lit "alice";
     Profile.display_name := None; Profile.avatar_url := None |}.

(** Two rooms; in "general" a message at time 1 and one at time 3. *)
Definition db0 : DB :=
  {| t_rooms := [general; random]; t_room_members := [];
     t_room_messages := [row "m1" "general" "alice" 1; row "m3" "general" "alice" 3];
     t_direct_messages := [dm "d1" "alice" "bob" 1; dm "d3" "bob" "alice" 3];
     t_profiles := [alice_profile; bob_profile] |}.

(** The room page of alice once the rooms and the messages of
    "general", selected automatically, have loaded. *)
Definition room_loaded : RoomChatPage.Sys :=
  RoomChatPage.run [RoomChatPage.Settle 0 served; RoomChatPage.Settle 0 served]
    (RoomChatPage.mount db0 (Some alice)).

(** Alice's window on bob once his profile and the messages have loaded. *)
Definition direct_loaded : DirectMessageWindow.Sys :=
  DirectMessageWindow.run
    [DirectMessageWindow.Settle 0 served; DirectMessageWindow.Settle 0 served]
    (DirectMessageWindow.mount db0 "bob" (Some alice)).

(** The insert event for "m3", already loaded, is delivered and its
    re-fetch answered. *)
Definition room_after_duplicate : RoomChatPage.Sys :=
  RoomChatPage.run
    [RoomChatPage.Realtime 0 (row "m3" "general" "alice" 3);
     RoomChatPage.Settle 0 served]
    room_loaded.

Definition direct_after_duplicate : DirectMessageWindow.Sys :=
  DirectMessageWindow.step (DirectMessageWindow.Realtime 0 (dm "d3" "bob" "alice" 3))
    direct_loaded.

(** A row stamped 2 becomes visible after the row stamped 3 was loaded. *)
Definition stamped_2 : Outcome := {| fault := None; new_id := "m2"; now := 2 |}.

Definition room_after_late_row : RoomChatPage.Sys :=
  RoomChatPage.run
    [RoomChatPage.Elsewhere stamped_2 (new_room_message "general" "bob" (lit "hi"));
     RoomChatPage.Realtime 0 (row "m2" "general" "bob" 2);
     RoomChatPage.Settle 0 served]
    room_loaded.

Definition direct_after_late_row : DirectMessageWindow.Sys :=
  DirectMessageWindow.step (DirectMessageWindow.Realtime 0 (dm "d2" "bob" "alice" 2))
    direct_loaded.

(** A new message from bob reaches alice's window. *)
Definition direct_after_live : DirectMessageWindow.Sys :=
  DirectMessageWindow.step (DirectMessageWindow.Realtime 0 (dm "d4" "bob" "alice" 4))
    direct_loaded.

(** Alice goes from "general" to "random"; the load of "random" is denied. *)
Definition room_switch_denied : RoomChatPage.Sys :=
  RoomChatPage.run [RoomChatPage.ClickRoom 1; RoomChatPage.Settle 0 denied]
    room_loaded.

(** Alice goes from bob to carol; the load of that conversation is denied. *)
Definition direct_switch_denied : DirectMessageWindow.Sys :=
  DirectMessageWindow.run
    [DirectMessageWindow.Props "carol"; DirectMessageWindow.Settle 1 denied]
    direct_loaded.

(** Alice goes from "general" to "random". *)
Definition room_switched : RoomChatPage.Sys :=
  RoomChatPage.step (RoomChatPage.ClickRoom 1) room_loaded.

Definition direct_switched : DirectMessageWindow.Sys :=
  DirectMessageWindow.step (DirectMessageWindow.Props "carol") direct_loaded.

(** Alice has typed a text with blanks around it, and only blanks. *)
Definition room_typed : RoomChatPage.Sys :=
  RoomChatPage.step (RoomChatPage.ChangeMessage (lit "  hello ")) room_loaded.

Definition room_blank : RoomChatPage.Sys :=
  RoomChatPage.step (RoomChatPage.ChangeMessage (lit "   ")) room_loaded.

Definition direct_typed : DirectMessageWindow.Sys :=
  DirectMessageWindow.step (DirectMessageWindow.ChangeMessage (lit "  hello "))
    direct_loaded.

Definition direct_blank : DirectMessageWindow.Sys :=
  DirectMessageWindow.step (DirectMessageWindow.ChangeMessage (lit "   "))
    direct_loaded.

(** Alice has opened the dialog and typed the name of a new room. *)
Definition room_dialog : RoomChatPage.Sys :=
  RoomChatPage.run
    [RoomChatPage.OpenChange true; RoomChatPage.ChangeRoomName (lit "Lounge")]
    room_loaded.

Definition lounge_served : Outcome := {| fault := None; new_id := "lounge"; now := 7 |}.

Definition lounge : Room.t :=
  {| Room.id := "lounge"; Room.name := lit "Lounge"; Room.description := Some [];
     Room.created_at := 7; Room.owner_id := "alice" |}.

(** The insert event for "m3", already loaded, has been delivered and
    its re-fetch is in flight. *)
Definition room_duplicate_pending : RoomChatPage.Sys :=
  RoomChatPage.step (RoomChatPage.Realtime 0 (row "m3" "general" "alice" 3))
    room_loaded.

(** An insert event for a row that the re-fetch will not find. *)
Definition room_event_pending : RoomChatPage.Sys :=
  RoomChatPage.step (RoomChatPage.Realtime 0 (row "m9" "general" "bob" 9)) room_loaded.

Definition general_channel : Channel unit :=
  {| handle := 0; topic := "room-messages"; table := room_messages;
     server_filter := Some (eq "room_id" "general"); listener := tt |}.

Definition bob_channel : Channel DirectMessageWindow.Listener :=
  {| handle := 0; topic := "direct-messages"; table := direct_messages;
     server_filter := None;
     listener := {| DirectMessageWindow.self_id := "alice";
                    DirectMessageWindow.peer_id := "bob" |} |}.

(** The window is rendered again with an empty [otherUserId]; a text
    is typed in the composer, which is still shown. *)
Definition direct_no_peer : DirectMessageWindow.Sys :=
  DirectMessageWindow.run
    [DirectMessageWindow.Props ""; DirectMessageWindow.ChangeMessage (lit "hello")]
    direct_loaded.

End Data.

Module R := RoomChatPage.
Module D := DirectMessageWindow.

(** ** joinRoom *)

Module JoinRoom.

Definition joinRoom_request (roomId : string) (u : User.t) : Request :=
  insert_ room_members (new_member roomId (User.id u) "member") false.

Definition sent (r : Request) : R.Action := fun s =>
  {| ui := ui s; pending := pending s; db := db s; channels := channels s;
     next_handle := next_handle s; console := console s; toasts := toasts s;
     issued := issued s ++ [r]; calls := calls s |}.

(** What follows the [await]: the response is not looked at.  The catch
    block runs only when the awaited promise rejects, which a call that
    resolves to [{ data, error }] does not. *)
Definition joinRoom_then (r : Response unit) : R.Action :=
  toast (toast_success "Joined room successfully!") ;;
  R.loadRooms.

(** [joinRoom(roomId)] with the insert served by the store at once. *)
Definition joinRoom (roomId : string) (o : Outcome) : R.Action := fun s =>
  match R.user (ui s) with
  | None => s
  | Some u =>
      let (r, d') := insert o (new_member roomId (User.id u) "member") (db s) in
      (sent (joinRoom_request roomId u) ;;
       elsewhere (fun _ => d') ;;
       joinRoom_then r) s
  end.

End JoinRoom.

(** ** MainNavigation and what the dashboard renders *)

Module MainNavigation.

Record Button := { page : string; label : string }.

Definition discover : list Button :=
  [ {| page := "home"; label := "Home" |};
    {| page := "browse-friends"; label := "Browse Friends" |};
    {| page := "direct-messages"; label := "Direct Messages" |};
    {| page := "room-chat"; label := "Room Chat" |} ].

Definition settings : list Button :=
  [ {| page := "profile"; label := "Profile" |};
    {| page := "room-profile"; label := "Room Profile" |};
    {| page := "audio-settings"; label := "Audio Settings" |} ].

Definition buttons : list Button := discover ++ settings.

(** [activePage === '...'] in the class of a button. *)
Definition highlighted (activePage : string) (b : Button) : bool :=
  activePage =? page b.

End MainNavigation.

Module Pages.

Inductive Content :=
| HomePage
| BrowseFriendsPage
| ProfilePage
| RoomProfilePage
| AudioSettingsPage
| RoomChatPage
| DirectMessages (window : option string).

(** [renderMainContent]: the switch on [activePage]. *)
Definition renderMainContent (s : Dashboard.State) : Content :=
  let page := Dashboard.activePage s in
  if page =? "home" then HomePage
  else if page =? "browse-friends" then BrowseFriendsPage
  else if page =? "profile" then ProfilePage
  else if page =? "room-profile" then RoomProfilePage
  else if page =? "audio-settings" then AudioSettingsPage
  else if page =? "room-chat" then RoomChatPage
  else DirectMessages
         match Dashboard.selectedChatUserId s with
         | Some id => if negb (id =? "") then Some id else None
         | None => None
         end.

(** [onPageChange={setActivePage}]. *)
Definition setActivePage (page : string) (s : Dashboard.State) : Dashboard.State :=
  {| Dashboard.activePage := page;
     Dashboard.selectedChatUserId := Dashboard.selectedChatUserId s |}.

Definition click (b : MainNavigation.Button) : Dashboard.State -> Dashboard.State :=
  setActivePage (MainNavigation.page b).

Definition navigate (bs : list MainNavigation.Button) (s : Dashboard.State)
  : Dashboard.State :=
  fold_left (fun s b => click b s) bs s.

End Pages.

(** ** More properties *)

(** A text as [trim] leaves it when something is left: not empty, no
    whitespace at either end. *)
Definition trimmed (c : jsstring) : Prop :=
  c <> []
  /\ (forall x, hd_error c = Some x -> isWhiteSpace x = false)
  /\ (forall x, latest c = Some x -> isWhiteSpace x = false).

(** The text of a request that inserts a message. *)
Definition message_text (r : Request) : option jsstring :=
  match r with
  | insert_ _ (new_room_message _ _ c) _ => Some c
  | insert_ _ (new_direct_message _ _ c) _ => Some c
  | _ => None
  end.

(** Every message insert of the log carries a trimmed text. *)
Definition texts_trimmed (log : list Request) : Prop :=
  Forall (fun r => forall c, message_text r = Some c -> trimmed c) log.

Definition message_inserts (log : list Request) : nat :=
  List.length (filter (fun r => is_some (message_text r)) log).

(** The events that can send a message. *)
Definition room_send_event (e : R.Event) : bool :=
  match e with
  | R.ClickSend => true
  | R.KeyPress key shiftKey => (key =? "Enter") && negb shiftKey
  | _ => false
  end.

Definition direct_send_event (e : D.Event) : bool :=
  match e with
  | D.ClickSend => true
  | D.KeyPress key shiftKey => (key =? "Enter") && negb shiftKey
  | _ => false
  end.

(** The events that leave the conversation of the window as it is. *)
Definition same_conversation (e : D.Event) : bool :=
  match e with
  | D.Props _ | D.Auth _ => false
  | _ => true
  end.

(** [taken] is a choice of the oldest of [all]: what is left out makes
    up [all] with it, and nothing left out is older than anything taken. *)
Definition oldest_of {A} (created_at : A -> N) (taken all : list A) : Prop :=
  exists left_out,
    Permutation (taken ++ left_out) all
    /\ forall a b, In a taken -> In b left_out -> (created_at a <= created_at b)%N.

(** The window is set on the conversation [l]: its channels listen for
    it, the loads of messages in flight ask for it, and the messages it
    holds belong to it. *)
Definition set_on (l : D.Listener) (s : D.Sys) : Prop :=
  Forall (fun c => listener c = l) (channels s)
  /\ Forall (fun k => match k with
                      | D.loadMessages_select self other =>
                          self = D.self_id l /\ other = D.peer_id l
                      | _ => True
                      end) (pending s)
  /\ Forall (fun m => D.in_conversation l m = true) (D.messages (ui s)).

(** Every live channel listens for the conversation of the user and
    the peer of now. *)
Definition listens_for_current (s : D.Sys) : Prop :=
  forall c, In c (channels s) ->
  exists u, D.user (ui s) = Some u
            /\ listener c = {| D.self_id := User.id u;
                               D.peer_id := D.otherUserId (ui s) |}.

(** Every call is a subscription under the topic "room-messages", to
    the inserts of [room_messages] of one room. *)
Definition room_subscribes_only (log : list ClientCall) : Prop :=
  Forall (fun c => exists roomId,
            c = call_subscribe "room-messages" room_messages
                  (Some (eq "room_id" roomId))) log.

(** ** More concrete data *)

Module More.

(** Alice's page and window right after their mount, their first loads
    in flight. *)
Definition room_mounted : R.Sys := R.mount Data.db0 (Some Data.alice).

Definition direct_mounted : D.Sys := D.mount Data.db0 "bob" (Some Data.alice).

(** The dialog is open and holds a name of blanks. *)
Definition room_dialog_blank : R.Sys :=
  R.run [R.OpenChange true; R.ChangeRoomName (lit "   ")] Data.room_loaded.

Definition member_served : Outcome := {| fault := None; new_id := "mb"; now := 8 |}.

(** A quiet life of the window: the loads resolve, a message of another
    conversation and one of this conversation are pushed, a text is
    typed and sent. *)
Definition quiet_events : list D.Event :=
  [D.Settle 0 Data.served; D.Settle 0 Data.served;
   D.Realtime 0 (Data.dm "x1" "carol" "alice" 5);
   D.Realtime 0 (Data.dm "d4" "bob" "alice" 6);
   D.ChangeMessage (lit "hello"); D.ClickSend].

Definition home_button : MainNavigation.Button :=
  {| MainNavigation.page := "home"; MainNavigation.label := "Home" |}.

Definition room_chat_button : MainNavigation.Button :=
  {| MainNavigation.page := "room-chat"; MainNavigation.label := "Room Chat" |}.

End More.
(** * Facts *)

(** ** trim *)

Lemma trimStart_blank (s : jsstring) : blank s = true -> trimStart s = [].
Proof.
  induction s as [|c s IH]; simpl; [reflexivity|].
  destruct (isWhiteSpace c); simpl; [exact IH | discriminate].
Qed.

Lemma trimStart_nil_blank (s : jsstring) : trimStart s = [] -> blank s = true.
Proof.
  induction s as [|c s IH]; simpl; [reflexivity|].
  destruct (isWhiteSpace c); simpl; [exact IH | discriminate].
Qed.

Lemma trimStart_suffix (s : jsstring) : exists p, s = p ++ trimStart s /\ blank p = true.
Proof.
  induction s as [|c s [p [E B]]]; simpl.
  - exists []. split; reflexivity.
  - destruct (isWhiteSpace c) eqn:W.
    + exists (c :: p). simpl. rewrite W, B. split; [congruence | reflexivity].
    + exists []. split; reflexivity.
Qed.

Lemma blank_app (a b : jsstring) : blank (a ++ b) = blank a && blank b.
Proof. apply forallb_app. Qed.

Lemma blank_rev (s : jsstring) : blank (rev s) = blank s.
Proof.
  induction s as [|c s IH]; simpl; [reflexivity|].
  rewrite blank_app, IH. simpl. rewrite andb_true_r. apply andb_comm.
Qed.

Lemma trim_nil_iff_blank (s : jsstring) : trim s = [] <-> blank s = true.
Proof.
  unfold trim, trimEnd. split; intro Hs.
  - destruct (trimStart_suffix s) as [p [E B]].
    assert (Ht : trimStart (rev (trimStart s)) = []).
    { apply (f_equal (@rev N)) in Hs. rewrite rev_involutive in Hs. exact Hs. }
    apply trimStart_nil_blank in Ht. rewrite blank_rev in Ht.
    rewrite E, blank_app, B, Ht. reflexivity.
  - rewrite (trimStart_blank s Hs). reflexivity.
Qed.

Lemma truthy_trim (s : jsstring) : truthy (trim s) = negb (blank s).
Proof.
  destruct (blank s) eqn:B.
  - apply trim_nil_iff_blank in B. rewrite B. reflexivity.
  - destruct (trim s) eqn:T; [|reflexivity].
    apply trim_nil_iff_blank in T. congruence.
Qed.

(** ** Queries *)

Section QueryFacts.
Context {A : Type} `{Row A}.

Let le (a b : A) : Prop := (created_at_of a <= created_at_of b)%N.

Lemma insert_by_HdRel (x a : A) (l : list A) :
  le a x -> HdRel le a l -> HdRel le a (insert_by x l).
Proof.
  intros Hax Hl. destruct l as [|y l]; simpl.
  - constructor. exact Hax.
  - destruct (created_at_of x <? created_at_of y)%N; constructor.
    + exact Hax.
    + inversion Hl; assumption.
Qed.

Lemma insert_by_sorted (x : A) (l : list A) :
  Sorted le l -> Sorted le (insert_by x l).
Proof.
  induction 1 as [|y l Hs IH Hd]; simpl.
  - repeat constructor.
  - destruct (created_at_of x <? created_at_of y)%N eqn:C.
    + constructor; [constructor; assumption|].
      constructor. apply N.ltb_lt in C. unfold le. lia.
    + constructor; [exact IH|].
      apply insert_by_HdRel; [|exact Hd].
      apply N.ltb_ge in C. exact C.
Qed.

Lemma sort_by_sorted (l : list A) : Sorted le (sort_by l).
Proof.
  unfold sort_by. induction (rev l) as [|x r IH]; simpl.
  - constructor.
  - apply insert_by_sorted, IH.
Qed.

Lemma insert_by_In (x y : A) (l : list A) :
  In y (insert_by x l) <-> y = x \/ In y l.
Proof.
  induction l as [|z l IH]; simpl.
  - intuition.
  - destruct (created_at_of x <? created_at_of z)%N; simpl; [intuition|].
    rewrite IH. intuition.
Qed.

Lemma sort_by_In (y : A) (l : list A) : In y (sort_by l) <-> In y l.
Proof.
  unfold sort_by. rewrite (in_rev l y).
  induction (rev l) as [|x r IH]; simpl; [tauto|].
  rewrite insert_by_In, IH. intuition.
Qed.

Lemma firstn_HdRel (R : A -> A -> Prop) (a : A) (n : nat) (l : list A) :
  HdRel R a l -> HdRel R a (firstn n l).
Proof.
  intros Hd. destruct n, l; simpl; try constructor.
  inversion Hd; assumption.
Qed.

Lemma firstn_sorted (R : A -> A -> Prop) (n : nat) (l : list A) :
  Sorted R l -> Sorted R (firstn n l).
Proof.
  intros Hs. revert n. induction Hs as [|a l Hs IH Hd]; intros [|n]; simpl;
    try constructor.
  - apply IH.
  - apply firstn_HdRel, Hd.
Qed.

Lemma firstn_In (y : A) (n : nat) (l : list A) : In y (firstn n l) -> In y l.
Proof.
  revert l. induction n as [|n IH]; intros [|x l]; simpl; try tauto.
  intros [E|I]; [left; exact E | right; apply IH, I].
Qed.

(** An ascending query with a limit answers with at most that many
    rows of the table, each passing every filter, in ascending order. *)
Lemma run_ascending (q : Select) (k : nat) (table : list A) :
  order_created_at q = Some true -> limit q = Some k ->
  let rows := run q table in
  List.length rows <= k
  /\ Sorted le rows
  /\ Forall (fun r => In r table /\ forall c, In c (where_ q) -> holds c r = true) rows.
Proof.
  intros Ho Hl. unfold run. rewrite Ho, Hl. simpl. split; [|split].
  - apply firstn_le_length.
  - apply firstn_sorted, sort_by_sorted.
  - apply Forall_forall. intros r Hr.
    apply firstn_In, sort_by_In, filter_In in Hr. destruct Hr as [Hin Hc].
    split; [exact Hin|]. intros c Hcin.
    rewrite forallb_forall in Hc. apply Hc, Hcin.
Qed.

(** Without filter or limit the answer holds every row of the table. *)
Lemma run_all_In (q : Select) (table : list A) (y : A) :
  where_ q = [] -> order_created_at q = Some true -> limit q = None ->
  In y table -> In y (run q table).
Proof.
  intros Hw Ho Hl Hy. unfold run. rewrite Hw, Ho, Hl. simpl.
  apply sort_by_In, filter_In. split; [exact Hy | reflexivity].
Qed.

End QueryFacts.

Lemma sorted_map {A B} (f : A -> B) (R : B -> B -> Prop) (l : list A) :
  Sorted (fun a b => R (f a) (f b)) l -> Sorted R (map f l).
Proof.
  induction 1 as [|a l Hs IH Hd]; simpl; constructor; [exact IH|].
  destruct Hd; simpl; constructor; assumption.
Qed.

Lemma sorted_snoc {A} (R : A -> A -> Prop) (l : list A) (x : A) :
  Sorted R (l ++ [x]) <->
  Sorted R l /\ (forall y, latest l = Some y -> R y x).
Proof.
  induction l as [|a l IH]; simpl.
  - split; [intros _; split; [constructor | discriminate] | repeat constructor].
  - split.
    + intros Hs. inversion Hs as [|? ? Hs' Hd]; subst.
      apply IH in Hs'. destruct Hs' as [Hl Hlast].
      destruct l as [|b l].
      * split; [repeat constructor|].
        intros y [= <-]. inversion Hd; assumption.
      * split; [|exact Hlast].
        constructor; [exact Hl|]. inversion Hd; constructor; assumption.
    + intros [Hs Hlast]. inversion Hs as [|? ? Hs' Hd]; subst.
      constructor.
      * apply IH. split; [exact Hs'|].
        destruct l as [|b l]; [discriminate | exact Hlast].
      * destruct l as [|b l]; simpl.
        -- constructor. apply Hlast. reflexivity.
        -- inversion Hd; constructor; assumption.
Qed.

(** ** The event loops *)


Lemma nth_error_snoc {A} (l : list A) (k : A) :
  nth_error (l ++ [k]) (List.length l) = Some k.
Proof. induction l as [|x l IH]; simpl; [reflexivity | exact IH]. Qed.

Lemma remove_nth_snoc {A} (l : list A) (k : A) :
  remove_nth (List.length l) (l ++ [k]) = l.
Proof. induction l as [|x l IH]; simpl; [reflexivity | now rewrite IH]. Qed.

Lemma same_selected_refl (x : option (R.Ref * Room.t)) : R.same_selected x x = true.
Proof.
  destruct x as [[[g i] r]|]; simpl; [|reflexivity].
  unfold R.same_ref. simpl. now rewrite !Nat.eqb_refl.
Qed.

(** A handler that leaves [selectedRoom] alone triggers no effect. *)
Lemma commit_same (before : R.State) (s : R.Sys) :
  R.selectedRoom (ui s) = R.selectedRoom before -> R.commit before s = s.
Proof.
  intros E. unfold R.commit. now rewrite E, same_selected_refl.
Qed.

Lemma room_sendMessage_noop (s : R.Sys) :
  R.user (ui s) = None \/ R.selectedRoom (ui s) = None
  \/ blank (R.newMessage (ui s)) = true ->
  R.sendMessage s = s.
Proof.
  intros Hc. unfold R.sendMessage.
  destruct (R.user (ui s)) as [u|]; [|reflexivity].
  destruct (R.selectedRoom (ui s)) as [[ref room]|]; [|reflexivity].
  destruct Hc as [Hc|[Hc|Hc]]; try discriminate.
  now rewrite truthy_trim, Hc.
Qed.

Lemma direct_sendMessage_noop (s : D.Sys) :
  D.user (ui s) = None \/ blank (D.newMessage (ui s)) = true ->
  D.sendMessage s = s.
Proof.
  intros Hc. unfold D.sendMessage.
  destruct (D.user (ui s)) as [u|]; [|reflexivity].
  destruct Hc as [Hc|Hc]; try discriminate.
  now rewrite truthy_trim, Hc.
Qed.

Lemma insert_served (o : Outcome) (row : NewRow) (d : DB) :
  fault o = None -> insert o row d = (ok tt, stored o row d).
Proof. intros E. unfold insert. now rewrite E. Qed.

Lemma insert_faulted (o : Outcome) (e : PgError) (row : NewRow) (d : DB) :
  fault o = Some e -> insert o row d = (failed e, d).
Proof. intros E. unfold insert. now rewrite E. Qed.

(** What [sendMessage] does when it does not return early. *)
Lemma room_sendMessage_sends (s : R.Sys) (u : User.t) (ref : R.Ref) (room : Room.t) :
  R.user (ui s) = Some u -> R.selectedRoom (ui s) = Some (ref, room) ->
  blank (R.newMessage (ui s)) = false ->
  R.sendMessage s =
  (update (R.setSending true) ;;
   R.suspend (R.sendMessage_insert (Room.id room) (User.id u)
                                   (trim (R.newMessage (ui s))))) s.
Proof.
  intros Hu Hr Hb. unfold R.sendMessage. now rewrite Hu, Hr, truthy_trim, Hb.
Qed.

Lemma direct_sendMessage_sends (s : D.Sys) (u : User.t) :
  D.user (ui s) = Some u -> blank (D.newMessage (ui s)) = false ->
  D.sendMessage s =
  (update (D.setSending true) ;;
   D.suspend (D.sendMessage_insert (User.id u) (D.otherUserId (ui s))
                                   (trim (D.newMessage (ui s))))) s.
Proof.
  intros Hu Hb. unfold D.sendMessage. now rewrite Hu, truthy_trim, Hb.
Qed.

(** Settling the request issued last. *)
Lemma room_settle_last (s : R.Sys) (k : R.Pending) (o : Outcome) (r : Request) :
  R.handle_event (R.Settle (List.length (pending s)) o) (await r k s)
  = R.settle k o (pending s) (await r k s).
Proof.
  unfold R.handle_event. simpl. now rewrite nth_error_snoc, remove_nth_snoc.
Qed.

Lemma direct_settle_last (s : D.Sys) (k : D.Pending) (o : Outcome) (r : Request) :
  D.step (D.Settle (List.length (pending s)) o) (await r k s)
  = D.settle k o (pending s) (await r k s).
Proof.
  unfold D.step. simpl. now rewrite nth_error_snoc, remove_nth_snoc.
Qed.

Lemma occurrences_snoc {A} (id : A -> string) (l : list A) (m : A) :
  occurrences id (id m) (l ++ [m]) = S (occurrences id (id m) l).
Proof.
  unfold occurrences. rewrite map_app, count_occ_app. simpl.
  destruct (string_dec (id m) (id m)); [lia | congruence].
Qed.

(** ** What a load brings *)

Lemma room_loaded_served (roomId : string) (o : Outcome) (d : DB) :
  fault o = None ->
  R.loaded roomId o d = ok (select_room_messages (R.loadMessages_query roomId) d).
Proof. intros E. unfold R.loaded, respond. now rewrite E. Qed.

Lemma room_loaded_faulted (roomId : string) (o : Outcome) (e : PgError) (d : DB) :
  fault o = Some e -> R.loaded roomId o d = failed e.
Proof. intros E. unfold R.loaded, respond. now rewrite E. Qed.

Lemma direct_loaded_served (self other : string) (o : Outcome) (d : DB) :
  fault o = None ->
  D.loaded self other o d
  = ok (select_direct_messages (D.loadMessages_query self other) d).
Proof. intros E. unfold D.loaded, respond. now rewrite E. Qed.

Lemma direct_loaded_faulted (self other : string) (o : Outcome) (e : PgError) (d : DB) :
  fault o = Some e -> D.loaded self other o d = failed e.
Proof. intros E. unfold D.loaded, respond. now rewrite E. Qed.

Lemma room_load_answer (roomId : string) (d : DB) :
  let ms := select_room_messages (R.loadMessages_query roomId) d in
  List.length ms <= 50
  /\ non_decreasing RoomMessage.created_at ms
  /\ Forall (fun m => exists r, In r (t_room_messages d)
                                /\ MessageRow.room_id r = roomId
                                /\ m = hydrate d r) ms.
Proof.
  destruct (run_ascending (R.loadMessages_query roomId) 50 (t_room_messages d)
              eq_refl eq_refl) as [Hlen [Hsort Hall]].
  unfold select_room_messages. split; [|split].
  - now rewrite length_map.
  - apply sorted_map. exact Hsort.
  - apply Forall_forall. intros m Hm. apply in_map_iff in Hm.
    destruct Hm as [r [E Hr]]. rewrite Forall_forall in Hall.
    destruct (Hall r Hr) as [Hin Hc]. exists r. split; [exact Hin|].
    split; [|now symmetry].
    specialize (Hc (eq "room_id" roomId) (or_introl eq_refl)).
    simpl in Hc. now apply String.eqb_eq.
Qed.

Lemma direct_load_answer (self other : string) (d : DB) :
  let ms := select_direct_messages (D.loadMessages_query self other) d in
  List.length ms <= 50
  /\ non_decreasing DirectMessage.created_at ms
  /\ Forall (fun m => In m (t_direct_messages d)
                      /\ D.in_conversation
                           {| D.self_id := self; D.peer_id := other |} m = true) ms.
Proof.
  destruct (run_ascending (D.loadMessages_query self other) 50 (t_direct_messages d)
              eq_refl eq_refl) as [Hlen [Hsort Hall]].
  unfold select_direct_messages. split; [exact Hlen | split; [exact Hsort|]].
  apply Forall_forall. intros m Hm. rewrite Forall_forall in Hall.
  destruct (Hall m Hm) as [Hin Hc]. split; [exact Hin|].
  exact (Hc (D.pair_filter self other) (or_introl eq_refl)).
Qed.

(** ** The re-fetch of the room store *)

Lemma refetch_one (id : string) (o : Outcome) (d : DB) (r : MessageRow.t) :
  fault o = None ->
  Supabase.run (R.onInsert_query id) (t_room_messages d) = [r] ->
  R.refetch id o d = ok (hydrate d r).
Proof.
  intros Ho Hr. unfold R.refetch, respond, select_room_messages.
  now rewrite Ho, Hr.
Qed.

Lemma refetch_faulted (id : string) (o : Outcome) (e : PgError) (d : DB) :
  fault o = Some e -> R.refetch id o d = failed e.
Proof. intros Ho. unfold R.refetch, respond. now rewrite Ho. Qed.

Lemma room_settle_onInsert (s : R.Sys) (i : nat) (id : string) (o : Outcome) :
  nth_error (pending s) i = Some (R.onInsert_select id) ->
  R.step (R.Settle i o) s
  = R.onInsert_then (R.refetch id o (db s)) (resume (remove_nth i (pending s)) (db s) s).
Proof.
  intros Hk. unfold R.step, R.handle_event. rewrite Hk. unfold R.settle, andThen.
  apply commit_same. unfold R.onInsert_then.
  now destruct (data (R.refetch id o (db s))).
Qed.

Lemma room_settle_at (s : R.Sys) (l : list R.Pending) (k : R.Pending) (o : Outcome) :
  pending s = l ++ [k] ->
  R.handle_event (R.Settle (List.length l) o) s = R.settle k o l s.
Proof.
  intros E. unfold R.handle_event. now rewrite E, nth_error_snoc, remove_nth_snoc.
Qed.

(** The effect on [selectedRoom] sends a query and opens a channel; it
    touches neither the React state nor the store, the toasts or the
    console. *)
Lemma commit_keeps (before : R.State) (s : R.Sys) :
  ui (R.commit before s) = ui s
  /\ db (R.commit before s) = db s
  /\ toasts (R.commit before s) = toasts s
  /\ console (R.commit before s) = console s.
Proof.
  unfold R.commit, R.useEffect_selectedRoom.
  destruct (R.same_selected _ _); [now repeat split|].
  destruct (R.selectedRoom (ui s)) as [[ref room]|]; now repeat split.
Qed.

Lemma insert_room_served (o : Outcome) (n d : jsstring) (owner : string) (b : DB) :
  fault o = None ->
  insert_room o n d owner b
  = (ok {| Room.id := new_id o; Room.name := n; Room.description := Some d;
           Room.created_at := now o; Room.owner_id := owner |},
     stored o (new_room n d owner) b).
Proof. intros E. unfold insert_room. now rewrite E. Qed.

(** What [loadRooms] leaves in [rooms] when it is served. *)
Lemma loadRooms_then_rooms (saw : bool) (rows : list Room.t) (s : R.Sys) :
  R.rooms (ui (R.loadRooms_then saw (ok rows) s)) = rows.
Proof.
  unfold R.loadRooms_then. simpl error. cbv iota. unfold andThen.
  destruct rows as [|first rest]; simpl; [reflexivity|].
  now destruct saw.
Qed.

Lemma loadRooms_then_keeps (saw : bool) (rows : list Room.t) (s : R.Sys) :
  let s' := R.loadRooms_then saw (ok rows) s in
  db s' = db s /\ toasts s' = toasts s
  /\ console s' = console s ++ [console_log "Rooms loaded successfully:"]
  /\ R.isDialogOpen (ui s') = R.isDialogOpen (ui s)
  /\ R.newRoom (ui s') = R.newRoom (ui s).
Proof.
  unfold R.loadRooms_then. simpl error. cbv iota. unfold andThen.
  destruct rows as [|first rest]; simpl; [now repeat split|].
  destruct saw; now repeat split.
Qed.

(** ** The steps of [createRoom] *)

Lemma step_createRoom (s : R.Sys) (u : User.t) :
  R.user (ui s) = Some u -> R.dialog_shown (ui s) = true ->
  blank (R.name (R.newRoom (ui s))) = false ->
  R.step R.ClickCreateRoom s
  = (say (console_log "Creating room with user:") ;;
     R.suspend (R.createRoom_insert u (is_some (R.selectedRoom (ui s)))
                  (R.name (R.newRoom (ui s)))
                  (R.description (R.newRoom (ui s))))) s.
Proof.
  intros Hu Hd Hn. unfold R.step, R.handle_event. rewrite Hd. unfold R.createRoom.
  rewrite Hu, truthy_trim, Hn. now apply commit_same.
Qed.

Lemma step_room_inserted (s : R.Sys) (l : list R.Pending) (u : User.t) (saw : bool)
  (n d : jsstring) (o : Outcome) :
  pending s = l ++ [R.createRoom_insert u saw n d] -> fault o = None ->
  R.step (R.Settle (List.length l) o) s
  = (say (console_log "Room created successfully:") ;;
     R.suspend (R.createRoom_member u saw (new_id o)))
      (resume l (stored o (new_room n d (User.id u)) (db s)) s).
Proof.
  intros Hp Ho. unfold R.step. rewrite (room_settle_at _ _ _ _ Hp).
  unfold R.settle. rewrite (insert_room_served _ _ _ _ _ Ho).
  now apply commit_same.
Qed.

Lemma step_member_refused (s : R.Sys) (l : list R.Pending) (u : User.t) (saw : bool)
  (room_id : string) (o : Outcome) (e : PgError) :
  pending s = l ++ [R.createRoom_member u saw room_id] -> fault o = Some e ->
  R.step (R.Settle (List.length l) o) s
  = (say (console_error "Error adding user to room members:" e) ;;
     update (R.setNewRoom {| R.name := []; R.description := [] |}) ;;
     update (R.setIsDialogOpen false) ;;
     R.loadRooms_seeing saw ;;
     toast (toast_success "Room created successfully!"))
      (resume l (db s) s).
Proof.
  intros Hp Ho. unfold R.step. rewrite (room_settle_at _ _ _ _ Hp).
  unfold R.settle. rewrite (insert_faulted _ _ _ _ Ho).
  now apply commit_same.
Qed.

Lemma step_rooms_loaded (s : R.Sys) (l : list R.Pending) (saw : bool) (o : Outcome) :
  pending s = l ++ [R.loadRooms_select saw] -> fault o = None ->
  let s' := R.step (R.Settle (List.length l) o) s in
  R.rooms (ui s') = select_rooms R.loadRooms_query (db s)
  /\ db s' = db s /\ toasts s' = toasts s.
Proof.
  intros Hp Ho. cbv zeta. unfold R.step. rewrite (room_settle_at _ _ _ _ Hp).
  destruct (commit_keeps (ui s) (R.settle (R.loadRooms_select saw) o l s))
    as [Eui [Edb [Et _]]].
  rewrite Eui, Edb, Et. unfold R.settle, andThen, respond. rewrite Ho.
  destruct (loadRooms_then_keeps saw (select_rooms R.loadRooms_query (db s))
              (resume l (db s) s)) as [Edb' [Et' _]].
  rewrite Edb', Et', loadRooms_then_rooms. now repeat split.
Qed.

(** ** Single flight *)

Lemma in_flight_snoc {P} (f : P -> bool) (l : list P) (k : P) :
  in_flight f (l ++ [k]) = in_flight f l + (if f k then 1 else 0).
Proof.
  unfold in_flight. rewrite filter_app, length_app. simpl. now destruct (f k).
Qed.

Lemma in_flight_remove {P} (f : P -> bool) (l : list P) (i : nat) (k : P) :
  nth_error l i = Some k ->
  in_flight f l = in_flight f (remove_nth i l) + (if f k then 1 else 0).
Proof.
  unfold in_flight. revert i. induction l as [|x l IH]; intros [|i] E; simpl in *;
    try discriminate.
  - injection E as ->. destruct (f k); simpl; lia.
  - specialize (IH i E). destruct (f x); simpl; lia.
Qed.

Ltac split_matches :=
  repeat match goal with
    | |- context [match ?x with _ => _ end] => destruct x eqn:?
    end;
  simpl in *;
  repeat match goal with
    | H : RoomChatPage.sending _ = _ |- _ => try rewrite H in *; clear H
    | H : DirectMessageWindow.sending _ = _ |- _ => try rewrite H in *; clear H
    end.

Lemma room_commit_single_flight (before : R.State) (s : R.Sys) :
  room_single_flight s -> room_single_flight (R.commit before s).
Proof.
  unfold room_single_flight, R.commit, R.useEffect_selectedRoom. intros Hs.
  destruct (R.same_selected _ _); [exact Hs|].
  destruct (R.selectedRoom (ui s)) as [[ref room]|]; [|exact Hs].
  simpl. rewrite in_flight_snoc. simpl. lia.
Qed.

Lemma room_sendMessage_single_flight (s : R.Sys) :
  R.sending (ui s) = false -> room_single_flight s ->
  room_single_flight (R.sendMessage s).
Proof.
  unfold room_single_flight, R.sendMessage. intros Hf Hs.
  destruct (R.user (ui s)) as [u|]; [|exact Hs].
  destruct (R.selectedRoom (ui s)) as [[ref room]|]; [|exact Hs].
  destruct (negb _); [exact Hs|].
  simpl. rewrite in_flight_snoc, Hs, Hf. reflexivity.
Qed.

Lemma room_input_enabled_idle (st : R.State) :
  R.input_enabled st = true -> R.sending st = false.
Proof.
  unfold R.input_enabled, R.composer.
  destruct (R.loading st); [discriminate|].
  destruct (R.selectedRoom st); [|discriminate].
  simpl. now destruct (R.sending st).
Qed.

Lemma room_button_enabled_idle (st : R.State) :
  R.button_enabled st = true -> R.sending st = false.
Proof.
  unfold R.button_enabled, R.composer.
  destruct (R.loading st); [discriminate|].
  destruct (R.selectedRoom st); [|discriminate].
  simpl. destruct (R.sending st); [|reflexivity].
  now rewrite orb_true_r.
Qed.

Lemma room_settle_single_flight (s : R.Sys) (i : nat) (k : R.Pending) (o : Outcome) :
  nth_error (pending s) i = Some k -> room_single_flight s ->
  room_single_flight (R.settle k o (remove_nth i (pending s)) s).
Proof.
  unfold room_single_flight. intros Hk Hs.
  rewrite (in_flight_remove R.is_send _ _ _ Hk) in Hs.
  destruct k; simpl in Hs; unfold R.settle.
  - unfold andThen, R.loadRooms_then, andThen. split_matches; lia.
  - unfold andThen, R.loadMessages_then, andThen. split_matches; lia.
  - unfold andThen, R.onInsert_then. split_matches; lia.
  - unfold insert_room, andThen, R.createRoom_then_room, R.createRoom_catch,
      R.suspend, andThen.
    split_matches; rewrite ?in_flight_snoc; simpl; lia.
  - unfold insert, andThen, R.createRoom_then_member, R.loadRooms_seeing,
      R.suspend, andThen.
    split_matches; rewrite ?in_flight_snoc; simpl; lia.
  - unfold insert, andThen, R.sendMessage_then, andThen.
    destruct (R.sending (ui s)); split_matches; lia.
Qed.

Lemma room_handle_single_flight (e : R.Event) (s : R.Sys) :
  room_single_flight s -> room_single_flight (R.handle_event e s).
Proof.
  intros Hs. destruct e; unfold R.handle_event.
  - destruct (R.user (ui s)), u; try exact Hs;
      unfold andThen, R.useEffect_user; simpl;
      unfold R.loadRooms, R.loadRooms_seeing, R.suspend, andThen;
      unfold room_single_flight in *; simpl; rewrite in_flight_snoc; simpl; lia.
  - destruct (R.loading (ui s)); [exact Hs|].
    destruct (nth_error _ _); exact Hs.
  - destruct (R.loading (ui s)); exact Hs.
  - destruct (R.dialog_shown (ui s)); exact Hs.
  - destruct (R.dialog_shown (ui s)); exact Hs.
  - destruct (R.dialog_shown (ui s)); [|exact Hs].
    unfold R.createRoom. destruct (R.user (ui s)); [|exact Hs].
    destruct (negb _); [exact Hs|].
    unfold room_single_flight in *. unfold andThen, R.suspend. simpl.
    rewrite in_flight_snoc. simpl. lia.
  - destruct (R.input_enabled (ui s)); exact Hs.
  - destruct (R.input_enabled (ui s)) eqn:Hin; simpl; [|exact Hs].
    destruct ((key =? "Enter") && negb shiftKey); [|exact Hs].
    apply room_sendMessage_single_flight; [|exact Hs].
    now apply room_input_enabled_idle.
  - destruct (R.button_enabled (ui s)) eqn:Hin; [|exact Hs].
    apply room_sendMessage_single_flight; [|exact Hs].
    now apply room_button_enabled_idle.
  - destruct (nth_error (pending s) i) as [k|] eqn:Hk; [|exact Hs].
    now apply room_settle_single_flight.
  - destruct (find_channel h s); [|exact Hs].
    destruct (R.passes c row); [|exact Hs].
    unfold room_single_flight in *. unfold R.onInsert, R.suspend. simpl.
    rewrite in_flight_snoc. simpl. lia.
  - exact Hs.
Qed.

Lemma room_step_single_flight (e : R.Event) (s : R.Sys) :
  room_single_flight s -> room_single_flight (R.step e s).
Proof.
  intros Hs. unfold R.step.
  now apply room_commit_single_flight, room_handle_single_flight.
Qed.

Lemma room_run_single_flight (es : list R.Event) (s : R.Sys) :
  room_single_flight s -> room_single_flight (R.run es s).
Proof.
  revert s. induction es as [|e es IH]; intros s Hs; simpl; [exact Hs|].
  now apply IH, room_step_single_flight.
Qed.

Lemma room_mount_single_flight (d : DB) (u : option User.t) :
  room_single_flight (R.mount d u).
Proof. destruct u; reflexivity. Qed.

Lemma direct_input_enabled_idle (st : D.State) :
  D.input_enabled st = true -> D.sending st = false.
Proof.
  unfold D.input_enabled, D.composer.
  destruct (D.loading st); [discriminate|].
  destruct (D.otherUser st); [|discriminate].
  simpl. now destruct (D.sending st).
Qed.

Lemma direct_button_enabled_idle (st : D.State) :
  D.button_enabled st = true -> D.sending st = false.
Proof.
  unfold D.button_enabled, D.composer.
  destruct (D.loading st); [discriminate|].
  destruct (D.otherUser st); [|discriminate].
  simpl. destruct (D.sending st); [|reflexivity].
  now rewrite orb_true_r.
Qed.

Lemma direct_sendMessage_single_flight (s : D.Sys) :
  D.sending (ui s) = false -> direct_single_flight s ->
  direct_single_flight (D.sendMessage s).
Proof.
  unfold direct_single_flight, D.sendMessage. intros Hf Hs.
  destruct (D.user (ui s)) as [u|]; [|exact Hs].
  destruct (negb _); [exact Hs|].
  simpl. rewrite in_flight_snoc, Hs, Hf. reflexivity.
Qed.

(** Running the effect again leaves the message inserts in flight and
    [sending] as they are. *)
Lemma direct_effect_keeps (s : D.Sys) :
  let s' := (D.run_cleanup ;; D.useEffect) s in
  in_flight D.is_send (pending s') = in_flight D.is_send (pending s)
  /\ D.sending (ui s') = D.sending (ui s).
Proof.
  cbv zeta.
  unfold andThen, D.run_cleanup, D.useEffect, andThen, D.loadOtherUser,
    D.loadMessages, D.suspend, D.subscribeToMessages.
  split; split_matches; rewrite ?in_flight_snoc; simpl; lia || reflexivity.
Qed.

Lemma direct_effect_single_flight (f : D.State -> D.State) (s : D.Sys) :
  (forall st, D.sending (f st) = D.sending st) ->
  direct_single_flight s ->
  direct_single_flight ((update f ;; D.run_cleanup ;; D.useEffect) s).
Proof.
  unfold direct_single_flight. intros Hf Hs.
  destruct (direct_effect_keeps (update f s)) as [Ep Es].
  unfold andThen in *. rewrite Ep, Es. simpl. now rewrite Hf.
Qed.

Lemma direct_settle_single_flight (s : D.Sys) (i : nat) (k : D.Pending) (o : Outcome) :
  nth_error (pending s) i = Some k -> direct_single_flight s ->
  direct_single_flight (D.settle k o (remove_nth i (pending s)) s).
Proof.
  unfold direct_single_flight. intros Hk Hs.
  rewrite (in_flight_remove D.is_send _ _ _ Hk) in Hs.
  destruct k; simpl in Hs; unfold D.settle.
  - unfold andThen, D.loadOtherUser_then, andThen. split_matches; lia.
  - unfold andThen, D.loadMessages_then, andThen. split_matches; lia.
  - unfold insert, andThen, D.sendMessage_then, andThen.
    destruct (D.sending (ui s)); split_matches; lia.
Qed.

Lemma direct_step_single_flight (e : D.Event) (s : D.Sys) :
  direct_single_flight s -> direct_single_flight (D.step e s).
Proof.
  intros Hs. destruct e; unfold D.step.
  - destruct (D.otherUserId (ui s) =? other); [exact Hs|].
    now apply direct_effect_single_flight.
  - destruct (D.user (ui s)), u; try exact Hs;
      now apply direct_effect_single_flight.
  - destruct (D.input_enabled (ui s)); exact Hs.
  - destruct (D.input_enabled (ui s)) eqn:Hin; simpl; [|exact Hs].
    destruct ((key =? "Enter") && negb shiftKey); [|exact Hs].
    apply direct_sendMessage_single_flight; [|exact Hs].
    now apply direct_input_enabled_idle.
  - destruct (D.button_enabled (ui s)) eqn:Hin; [|exact Hs].
    apply direct_sendMessage_single_flight; [|exact Hs].
    now apply direct_button_enabled_idle.
  - destruct (nth_error (pending s) i) as [k|] eqn:Hk; [|exact Hs].
    now apply direct_settle_single_flight.
  - destruct (find_channel h s); [|exact Hs].
    unfold D.onInsert. destruct (D.in_conversation _ _); exact Hs.
  - exact Hs.
Qed.

Lemma direct_run_single_flight (es : list D.Event) (s : D.Sys) :
  direct_single_flight s -> direct_single_flight (D.run es s).
Proof.
  revert s. induction es as [|e es IH]; intros s Hs; simpl; [exact Hs|].
  now apply IH, direct_step_single_flight.
Qed.

Lemma direct_mount_single_flight (d : DB) (other : string) (u : option User.t) :
  direct_single_flight (D.mount d other u).
Proof.
  unfold D.mount, D.useEffect. simpl. destruct u; [|reflexivity].
  destruct (negb (other =? "")); reflexivity.
Qed.

(** ** Channels *)

(** No handler of the room page touches the channels. *)
Lemma room_handle_keeps_channels (e : R.Event) (s : R.Sys) :
  channels (R.handle_event e s) = channels s.
Proof.
  destruct e; unfold R.handle_event, R.settle, andThen, R.useEffect_user,
    R.loadRooms, R.loadRooms_seeing, R.createRoom, R.sendMessage, R.onInsert,
    R.loadRooms_then, R.loadMessages_then, R.onInsert_then,
    R.createRoom_then_room, R.createRoom_then_member, R.createRoom_catch,
    R.sendMessage_then, R.loadRooms_seeing, R.suspend, insert_room, insert, andThen;
    split_matches; reflexivity.
Qed.

Lemma room_handle_keeps_calls (e : R.Event) (s : R.Sys) :
  calls (R.handle_event e s) = calls s.
Proof.
  destruct e; unfold R.handle_event, R.settle, andThen, R.useEffect_user,
    R.loadRooms, R.loadRooms_seeing, R.createRoom, R.sendMessage, R.onInsert,
    R.loadRooms_then, R.loadMessages_then, R.onInsert_then,
    R.createRoom_then_room, R.createRoom_then_member, R.createRoom_catch,
    R.sendMessage_then, R.loadRooms_seeing, R.suspend, insert_room, insert, andThen;
    split_matches; reflexivity.
Qed.

(** A step of the room page asks the client for at most one channel,
    under the topic "room-messages", and never to remove one. *)
Lemma room_step_calls (e : R.Event) (s : R.Sys) :
  calls (R.step e s) = calls s
  \/ exists roomId,
       calls (R.step e s)
       = calls s ++ [call_subscribe "room-messages" room_messages
                       (Some (eq "room_id" roomId))].
Proof.
  unfold R.step, R.commit. rewrite <- (room_handle_keeps_calls e s).
  destruct (R.same_selected _ _); [now left|].
  unfold R.useEffect_selectedRoom.
  destruct (R.selectedRoom (ui (R.handle_event e s))) as [[ref room]|]; [|now left].
  right. now exists (Room.id room).
Qed.

Lemma never_removes_app (a b : list ClientCall) :
  never_removes (a ++ b) = never_removes a && never_removes b.
Proof. apply forallb_app. Qed.

Lemma room_run_never_removes (es : list R.Event) (s : R.Sys) :
  never_removes (calls s) = true -> never_removes (calls (R.run es s)) = true.
Proof.
  revert s. induction es as [|e es IH]; intros s Hs; simpl; [exact Hs|].
  apply IH. destruct (room_step_calls e s) as [->|[roomId ->]]; [exact Hs|].
  rewrite never_removes_app, Hs. reflexivity.
Qed.

Lemma room_mount_never_removes (d : DB) (u : option User.t) :
  never_removes (calls (R.mount d u)) = true.
Proof. destruct u; reflexivity. Qed.

Lemma direct_cleanup_closes (s : D.Sys) :
  direct_one_channel s ->
  channels (D.run_cleanup s) = [] /\ D.cleanup (ui (D.run_cleanup s)) = None.
Proof.
  unfold direct_one_channel, D.run_cleanup. intros Hs.
  destruct (D.cleanup (ui s)) as [h|] eqn:Hc.
  - destruct Hs as [c [Hch Hh]]. unfold andThen. simpl. rewrite Hch. simpl.
    rewrite Hh, Nat.eqb_refl. now split.
  - now split.
Qed.

Lemma direct_effect_opens_one (s : D.Sys) :
  channels s = [] -> D.cleanup (ui s) = None ->
  direct_one_channel (D.useEffect s).
Proof.
  intros Hch Hc. unfold direct_one_channel, D.useEffect.
  destruct (D.user (ui s)) as [u|]; [|now rewrite Hc].
  destruct (negb _); [|now rewrite Hc].
  unfold andThen. simpl. rewrite Hch. eexists. split; reflexivity.
Qed.

Lemma direct_rerun_one_channel (f : D.State -> D.State) (s : D.Sys) :
  (forall st, D.cleanup (f st) = D.cleanup st) ->
  direct_one_channel s ->
  direct_one_channel ((update f ;; D.run_cleanup ;; D.useEffect) s).
Proof.
  intros Hf Hs. unfold andThen.
  assert (Hs' : direct_one_channel (update f s)).
  { unfold direct_one_channel in *. simpl. now rewrite Hf. }
  destruct (direct_cleanup_closes _ Hs') as [Hch Hc].
  now apply direct_effect_opens_one.
Qed.

Lemma direct_one_channel_ext (s s' : D.Sys) :
  channels s' = channels s -> D.cleanup (ui s') = D.cleanup (ui s) ->
  direct_one_channel s -> direct_one_channel s'.
Proof. unfold direct_one_channel. now intros -> ->. Qed.

Lemma direct_settle_keeps (k : D.Pending) (o : Outcome) (rest : list D.Pending)
  (s : D.Sys) :
  channels (D.settle k o rest s) = channels s
  /\ D.cleanup (ui (D.settle k o rest s)) = D.cleanup (ui s).
Proof.
  destruct k; unfold D.settle, andThen, D.loadOtherUser_then,
    D.loadMessages_then, D.sendMessage_then, insert, andThen;
    split; split_matches; reflexivity.
Qed.

Lemma direct_step_one_channel (e : D.Event) (s : D.Sys) :
  direct_one_channel s -> direct_one_channel (D.step e s).
Proof.
  intros Hs. destruct e; unfold D.step.
  - destruct (D.otherUserId (ui s) =? other); [exact Hs|].
    now apply direct_rerun_one_channel.
  - destruct (D.user (ui s)), u; try exact Hs; now apply direct_rerun_one_channel.
  - destruct (D.input_enabled (ui s)); exact Hs.
  - destruct (D.input_enabled (ui s) && (key =? "Enter") && negb shiftKey);
      [|exact Hs].
    unfold D.sendMessage. destruct (D.user (ui s)); [|exact Hs].
    destruct (negb _); exact Hs.
  - destruct (D.button_enabled (ui s)); [|exact Hs].
    unfold D.sendMessage. destruct (D.user (ui s)); [|exact Hs].
    destruct (negb _); exact Hs.
  - destruct (nth_error (pending s) i) as [k|]; [|exact Hs].
    destruct (direct_settle_keeps k o (remove_nth i (pending s)) s) as [Ech Ec].
    now apply (direct_one_channel_ext s).
  - destruct (find_channel h s); [|exact Hs].
    unfold D.onInsert. destruct (D.in_conversation _ _); exact Hs.
  - exact Hs.
Qed.

Lemma direct_run_one_channel (es : list D.Event) (s : D.Sys) :
  direct_one_channel s -> direct_one_channel (D.run es s).
Proof.
  revert s. induction es as [|e es IH]; intros s Hs; simpl; [exact Hs|].
  now apply IH, direct_step_one_channel.
Qed.

Lemma direct_mount_one_channel (d : DB) (other : string) (u : option User.t) :
  direct_one_channel (D.mount d other u).
Proof. unfold D.mount. now apply direct_effect_opens_one. Qed.

(** However the window is driven, it holds at most one channel. *)
Lemma direct_never_two_channels (es : list D.Event) (d : DB) (other : string)
  (u : option User.t) :
  List.length (channels (D.run es (D.mount d other u))) <= 1.
Proof.
  pose proof (direct_run_one_channel es _ (direct_mount_one_channel d other u))
    as Hinv.
  unfold direct_one_channel in Hinv.
  destruct (D.cleanup _); [destruct Hinv as [c [-> _]] | rewrite Hinv]; simpl; lia.
Qed.

(** * The claims *)

(** C6, as stated, fails for the direct composer: its [sendMessage]
    does not look at [otherUserId].  A window rendered with an empty
    [otherUserId] has closed its channel and subscribed to nothing, and
    still sends what is typed, to an empty [receiver_id]. *)
Lemma direct_send_does_not_check_the_peer :
  D.otherUserId (ui Data.direct_no_peer) = ""
  /\ channels Data.direct_no_peer = []
  /\ filter is_insert (issued Data.direct_no_peer) = []
  /\ filter is_insert (issued (D.sendMessage Data.direct_no_peer))
     = [insert_ direct_messages (new_direct_message "alice" "" (lit "hello")) false]
  /\ D.step D.ClickSend Data.direct_no_peer = D.sendMessage Data.direct_no_peer.
Proof. repeat split; reflexivity. Qed.

(** C6, amended.  Sending is a no-op when the text is empty or
    whitespace only or when no user is signed in, in both composers, and
    in the room composer also when no room is selected: the state is
    unchanged, so nothing is sent, whether [sendMessage] is called
    directly, by a click on the send button or by a key press.  The
    direct composer checks nothing else: its [sendMessage] is a no-op
    exactly when the user is missing or the text is blank, whatever
    [otherUserId] is.  What keeps it from sending without a conversation
    is the dashboard, which renders the window only with a peer id that
    is not empty. *)
Theorem send_rejected_without_text_user_or_room
  (rs : R.Sys) (ds any : D.Sys) (page : Dashboard.State)
  (Hroom : R.user (ui rs) = None \/ R.selectedRoom (ui rs) = None
           \/ blank (R.newMessage (ui rs)) = true)
  (Hdirect : D.user (ui ds) = None \/ blank (D.newMessage (ui ds)) = true) :
  (R.sendMessage rs = rs
   /\ R.step R.ClickSend rs = rs
   /\ (forall key shiftKey, R.step (R.KeyPress key shiftKey) rs = rs)
   /\ inserts (issued (R.sendMessage rs)) = inserts (issued rs))
  /\ (D.sendMessage ds = ds
      /\ D.step D.ClickSend ds = ds
      /\ (forall key shiftKey, D.step (D.KeyPress key shiftKey) ds = ds)
      /\ inserts (issued (D.sendMessage ds)) = inserts (issued ds))
  /\ (D.sendMessage any = any
      <-> D.user (ui any) = None \/ blank (D.newMessage (ui any)) = true)
  /\ match Dashboard.directMessageWindow page with
     | Some id => id <> ""
     | None => True
     end.
Proof.
  pose proof (room_sendMessage_noop rs Hroom) as Er.
  pose proof (direct_sendMessage_noop ds Hdirect) as Ed.
  split; [|split; [|split]].
  - repeat split.
    + exact Er.
    + unfold R.step, R.handle_event.
      destruct (R.button_enabled (ui rs)); rewrite ?Er; now apply commit_same.
    + intros key shiftKey. unfold R.step, R.handle_event.
      destruct (R.input_enabled (ui rs) && (key =? "Enter") && negb shiftKey);
        rewrite ?Er; now apply commit_same.
    + now rewrite Er.
  - repeat split.
    + exact Ed.
    + unfold D.step. now destruct (D.button_enabled (ui ds)).
    + intros key shiftKey. unfold D.step.
      now destruct (D.input_enabled (ui ds) && (key =? "Enter") && negb shiftKey).
    + now rewrite Ed.
  - split; [|apply direct_sendMessage_noop].
    intros Enoop. destruct (D.user (ui any)) as [u|] eqn:Hu; [|now left].
    destruct (blank (D.newMessage (ui any))) eqn:Hb; [now right|].
    rewrite (direct_sendMessage_sends any u Hu Hb) in Enoop.
    apply (f_equal (fun s => List.length (issued s))) in Enoop.
    unfold andThen, D.suspend in Enoop. simpl in Enoop.
    rewrite length_app in Enoop. simpl in Enoop. lia.
  - unfold Dashboard.directMessageWindow.
    destruct (Dashboard.shows_direct_messages _); [|exact I].
    destruct (Dashboard.selectedChatUserId page) as [id|]; [|exact I].
    destruct (id =? "") eqn:E; simpl; [exact I|]. now apply String.eqb_neq.
Qed.

(** C7.  With a user signed in, a conversation active and a text that
    is not blank, [sendMessage] sends one insert carrying the trimmed
    text, the conversation key and the sender's id.  When the insert
    succeeds the input is cleared and nothing is reported; when it
    fails the text is as it was, the error is logged and the toast
    "Failed to send message" is shown.  Either way [sending] is reset. *)
Theorem send_inserts_trimmed_then_clears_or_reports
  (rs : R.Sys) (ds : D.Sys) (u v : User.t) (ref : R.Ref) (room : Room.t)
  (served denied : Outcome) (e : PgError)
  (Hu : R.user (ui rs) = Some u)
  (Hroom : R.selectedRoom (ui rs) = Some (ref, room))
  (Htext : blank (R.newMessage (ui rs)) = false)
  (Hv : D.user (ui ds) = Some v)
  (Htext' : blank (D.newMessage (ui ds)) = false)
  (Hserved : fault served = None)
  (Hdenied : fault denied = Some e) :
  (let sent := R.sendMessage rs in
   let n := List.length (pending rs) in
   issued sent = issued rs ++
     [insert_ room_messages
        (new_room_message (Room.id room) (User.id u) (trim (R.newMessage (ui rs))))
        false]
   /\ R.sending (ui sent) = true
   /\ R.newMessage (ui sent) = R.newMessage (ui rs)
   /\ (let s' := R.step (R.Settle n served) sent in
       R.newMessage (ui s') = [] /\ R.sending (ui s') = false
       /\ toasts s' = toasts rs /\ console s' = console rs)
   /\ (let s' := R.step (R.Settle n denied) sent in
       R.newMessage (ui s') = R.newMessage (ui rs) /\ R.sending (ui s') = false
       /\ toasts s' = toasts rs ++ [toast_error "Failed to send message"]
       /\ console s' = console rs ++ [console_error "Error sending message:" e]
       /\ db s' = db rs))
  /\
  (let sent := D.sendMessage ds in
   let n := List.length (pending ds) in
   issued sent = issued ds ++
     [insert_ direct_messages
        (new_direct_message (User.id v) (D.otherUserId (ui ds))
                            (trim (D.newMessage (ui ds))))
        false]
   /\ D.sending (ui sent) = true
   /\ D.newMessage (ui sent) = D.newMessage (ui ds)
   /\ (let s' := D.step (D.Settle n served) sent in
       D.newMessage (ui s') = [] /\ D.sending (ui s') = false
       /\ toasts s' = toasts ds /\ console s' = console ds)
   /\ (let s' := D.step (D.Settle n denied) sent in
       D.newMessage (ui s') = D.newMessage (ui ds) /\ D.sending (ui s') = false
       /\ toasts s' = toasts ds ++ [toast_error "Failed to send message"]
       /\ console s' = console ds ++ [console_error "Error sending message:" e]
       /\ db s' = db ds)).
Proof.
  split.
  - cbv zeta. rewrite (room_sendMessage_sends rs u ref room Hu Hroom Htext).
    unfold andThen, R.suspend, R.step.
    change (pending rs) with (pending (update (R.setSending true) rs)).
    rewrite !room_settle_last. unfold R.settle.
    rewrite (insert_served _ _ _ Hserved), (insert_faulted _ _ _ _ Hdenied).
    rewrite !commit_same by reflexivity.
    simpl. auto 10.
  - cbv zeta. rewrite (direct_sendMessage_sends ds v Hv Htext').
    unfold andThen, D.suspend.
    change (pending ds) with (pending (update (D.setSending true) ds)).
    rewrite !direct_settle_last. unfold D.settle.
    rewrite (insert_served _ _ _ Hserved), (insert_faulted _ _ _ _ Hdenied).
    simpl. auto 10.
Qed.

(** C1, as stated, fails: neither store looks for the id before it
    appends.  The insert event of a message that the load has already
    brought ("m3" in the room, "d3" in the window) is stored a second
    time. *)
Lemma duplicate_delivery_is_stored_twice :
  (In "m3" (map RoomMessage.id (R.messages (ui Data.room_loaded)))
   /\ map RoomMessage.id (R.messages (ui Data.room_after_duplicate))
      = ["m1"; "m3"; "m3"]
   /\ ~ unique_ids RoomMessage.id (R.messages (ui Data.room_after_duplicate)))
  /\ (In "d3" (map DirectMessage.id (D.messages (ui Data.direct_loaded)))
      /\ map DirectMessage.id (D.messages (ui Data.direct_after_duplicate))
         = ["d1"; "d3"; "d3"]
      /\ ~ unique_ids DirectMessage.id (D.messages (ui Data.direct_after_duplicate))).
Proof.
  assert (Hdup : forall a b : string, ~ NoDup [a; b; b]).
  { intros a b Hn. inversion Hn as [|? ? _ Hn']. inversion Hn' as [|? ? Hb _].
    apply Hb. now left. }
  split; (split; [vm_compute; tauto | split; [reflexivity|]]).
  - unfold unique_ids.
    change (map RoomMessage.id (R.messages (ui Data.room_after_duplicate)))
      with ["m1"; "m3"; "m3"]. apply Hdup.
  - unfold unique_ids.
    change (map DirectMessage.id (D.messages (ui Data.direct_after_duplicate)))
      with ["d1"; "d3"; "d3"]. apply Hdup.
Qed.

(** C1, amended.  Appending is unconditional.  In the room store the
    row that the re-fetch brings goes to the end of the sequence; in the
    direct store the row of an event that belongs to the conversation
    goes to the end of the sequence.  Whether the id is already present
    plays no part: each delivery adds one more entry with that id. *)
Theorem append_is_unconditional
  (rs : R.Sys) (i : nat) (id : string) (o : Outcome) (m : RoomMessage.t)
  (ds : D.Sys) (h : nat) (c : Channel D.Listener) (newMsg : DirectMessage.t)
  (Hwaiting : nth_error (pending rs) i = Some (R.onInsert_select id))
  (Hdata : data (R.refetch id o (db rs)) = Some m)
  (Hlive : find_channel h ds = Some c)
  (Hmine : D.in_conversation (listener c) newMsg = true) :
  (let after := R.messages (ui (R.step (R.Settle i o) rs)) in
   after = R.messages (ui rs) ++ [m]
   /\ occurrences RoomMessage.id (RoomMessage.id m) after
      = S (occurrences RoomMessage.id (RoomMessage.id m) (R.messages (ui rs))))
  /\ (let after := D.messages (ui (D.step (D.Realtime h newMsg) ds)) in
      after = D.messages (ui ds) ++ [newMsg]
      /\ occurrences DirectMessage.id (DirectMessage.id newMsg) after
         = S (occurrences DirectMessage.id (DirectMessage.id newMsg)
                (D.messages (ui ds)))).
Proof.
  split; cbv zeta.
  - rewrite (room_settle_onInsert rs i id o Hwaiting).
    unfold R.onInsert_then. rewrite Hdata. simpl.
    split; [reflexivity | apply occurrences_snoc].
  - unfold D.step. rewrite Hlive. unfold D.onInsert. rewrite Hmine. simpl.
    split; [reflexivity | apply occurrences_snoc].
Qed.

(** C2, as stated, fails: an appended message goes to the end whatever
    its [created_at].  A row stamped 2 that arrives after the rows
    stamped 1 and 3 were loaded leaves the sequence out of order. *)
Lemma late_row_breaks_the_order :
  (map RoomMessage.created_at (R.messages (ui Data.room_after_late_row))
   = [1; 3; 2]%N
   /\ ~ non_decreasing RoomMessage.created_at
          (R.messages (ui Data.room_after_late_row)))
  /\ (map DirectMessage.created_at (D.messages (ui Data.direct_after_late_row))
      = [1; 3; 2]%N
      /\ ~ non_decreasing DirectMessage.created_at
             (D.messages (ui Data.direct_after_late_row))).
Proof.
  split; (split; [reflexivity|]); intros Hs; apply sorted_map in Hs.
  - change (map RoomMessage.created_at (R.messages (ui Data.room_after_late_row)))
      with [1; 3; 2]%N in Hs.
    inversion Hs as [|? ? Hs' _]. inversion Hs' as [|? ? _ Hd].
    inversion Hd as [|? ? Hle]. now apply Hle.
  - change (map DirectMessage.created_at (D.messages (ui Data.direct_after_late_row)))
      with [1; 3; 2]%N in Hs.
    inversion Hs as [|? ? Hs' _]. inversion Hs' as [|? ? _ Hd].
    inversion Hd as [|? ? Hle]. now apply Hle.
Qed.

(** C2, amended.  The sequence a successful load leaves is
    non-decreasing by [created_at].  An append keeps a sequence
    non-decreasing exactly when the appended message is not older than
    the entry that was last. *)
Theorem order_after_load_and_in_order_appends
  (rs : R.Sys) (ds : D.Sys) (roomId self other : string) (served : Outcome)
  (m : RoomMessage.t) (l : D.Listener) (newMsg : DirectMessage.t)
  (Hserved : fault served = None)
  (Hmine : D.in_conversation l newMsg = true) :
  (non_decreasing RoomMessage.created_at
     (R.messages (ui (R.loadMessages_then (R.loaded roomId served (db rs)) rs)))
   /\ (non_decreasing RoomMessage.created_at
         (R.messages (ui (R.onInsert_then (ok m) rs)))
       <-> non_decreasing RoomMessage.created_at (R.messages (ui rs))
           /\ forall y, latest (R.messages (ui rs)) = Some y ->
                        (RoomMessage.created_at y <= RoomMessage.created_at m)%N))
  /\ (non_decreasing DirectMessage.created_at
        (D.messages (ui (D.loadMessages_then (D.loaded self other served (db ds)) ds)))
      /\ (non_decreasing DirectMessage.created_at
            (D.messages (ui (D.onInsert l newMsg ds)))
          <-> non_decreasing DirectMessage.created_at (D.messages (ui ds))
              /\ forall y, latest (D.messages (ui ds)) = Some y ->
                           (DirectMessage.created_at y
                            <= DirectMessage.created_at newMsg)%N)).
Proof.
  split; split.
  - rewrite (room_loaded_served _ _ _ Hserved). simpl.
    apply (room_load_answer roomId (db rs)).
  - simpl. apply sorted_snoc.
  - rewrite (direct_loaded_served _ _ _ _ Hserved). simpl.
    apply (direct_load_answer self other (db ds)).
  - unfold D.onInsert. rewrite Hmine. simpl. apply sorted_snoc.
Qed.

(** C4, as stated, fails for the direct store: its callback appends the
    row of the event as delivered.  After a live message from bob the
    window has sent nothing but the two queries of its mount, nothing is
    in flight, and the row is in the store. *)
Lemma direct_store_appends_without_refetch :
  issued Data.direct_after_live
  = [select_ (D.loadOtherUser_query "bob");
     select_ (D.loadMessages_query "alice" "bob")]
  /\ pending Data.direct_after_live = []
  /\ D.messages (ui Data.direct_after_live)
     = D.messages (ui Data.direct_loaded) ++ [Data.dm "d4" "bob" "alice" 4].
Proof. repeat split; reflexivity. Qed.

(** C4, amended.  In the room store an insert event pushed on a live
    channel makes the callback query the row again by its id, with the
    sender's profile joined, and leaves the store as it is until the
    answer comes; when the answer is the one row of that id, what is
    appended is that row with the profile of its sender.  In the direct
    store an insert event that belongs to the conversation is appended
    as delivered and no request is sent. *)
Theorem room_refetches_direct_appends_raw
  (rs : R.Sys) (h : nat) (c : Channel unit) (row stored_row : MessageRow.t)
  (served : Outcome)
  (ds : D.Sys) (h' : nat) (c' : Channel D.Listener) (newMsg : DirectMessage.t)
  (Hlive : find_channel h rs = Some c)
  (Hpass : R.passes c row = true)
  (Hserved : fault served = None)
  (Hone : Supabase.run (R.onInsert_query (MessageRow.id row))
            (t_room_messages (db rs)) = [stored_row])
  (Hlive' : find_channel h' ds = Some c')
  (Hmine : D.in_conversation (listener c') newMsg = true) :
  (let asked := R.step (R.Realtime h row) rs in
   issued asked = issued rs ++ [select_ (R.onInsert_query (MessageRow.id row))]
   /\ R.onInsert_query (MessageRow.id row)
      = {| from := room_messages; columns := with_sender_profile;
           where_ := [eq "id" (MessageRow.id row)];
           order_created_at := None; limit := None; single := true |}
   /\ ui asked = ui rs
   /\ R.messages (ui (R.step (R.Settle (List.length (pending rs)) served) asked))
      = R.messages (ui rs) ++ [hydrate (db rs) stored_row]
   /\ RoomMessage.profiles (hydrate (db rs) stored_row)
      = sender_profile (db rs) (MessageRow.sender_id stored_row))
  /\ (let s' := D.step (D.Realtime h' newMsg) ds in
      D.messages (ui s') = D.messages (ui ds) ++ [newMsg]
      /\ issued s' = issued ds
      /\ pending s' = pending ds).
Proof.
  split.
  - assert (Easked : R.step (R.Realtime h row) rs = R.onInsert row rs).
    { unfold R.step, R.handle_event. rewrite Hlive, Hpass. now apply commit_same. }
    cbv zeta. rewrite Easked. repeat split.
    rewrite (room_settle_onInsert _ _ (MessageRow.id row)).
    + simpl db. rewrite (refetch_one _ _ _ _ Hserved Hone). reflexivity.
    + apply nth_error_snoc.
  - cbv zeta. unfold D.step. rewrite Hlive'. unfold D.onInsert. rewrite Hmine.
    repeat split.
Qed.

(** C5, as stated, fails in its last part: a failed load leaves the
    store as it was, which is empty only on the first activation.  After
    a switch whose load is denied the store still holds the messages of
    the conversation left behind. *)
Lemma failed_load_keeps_previous_messages :
  (option_map (fun sel => Room.id (snd sel)) (R.selectedRoom (ui Data.room_switch_denied))
   = Some "random"
   /\ map RoomMessage.id (R.messages (ui Data.room_switch_denied)) = ["m1"; "m3"]
   /\ R.messages (ui Data.room_switch_denied) <> []
   /\ toasts Data.room_switch_denied = [toast_error "Failed to load messages"])
  /\ (D.otherUserId (ui Data.direct_switch_denied) = "carol"
      /\ map DirectMessage.id (D.messages (ui Data.direct_switch_denied)) = ["d1"; "d3"]
      /\ D.messages (ui Data.direct_switch_denied) <> []
      /\ toasts Data.direct_switch_denied = [toast_error "Failed to load messages"]).
Proof.
  split; (split; [reflexivity | split; [reflexivity | split; [|reflexivity]]]);
    vm_compute; discriminate.
Qed.

(** C5, amended.  [loadMessages] sends one query for the messages of the
    conversation, ascending by [created_at], limited to 50.  When it is
    served, the store becomes the answer: at most 50 messages, all of
    the conversation, non-decreasing by [created_at].  When it fails,
    the error is logged, the toast "Failed to load messages" is shown
    and the store is left as it was. *)
Theorem load_at_most_50_ascending_or_unchanged
  (rs : R.Sys) (roomId : string) (ds : D.Sys) (u : User.t)
  (served denied : Outcome) (e : PgError)
  (Hserved : fault served = None)
  (Hdenied : fault denied = Some e) :
  (let asked := R.loadMessages roomId rs in
   let n := List.length (pending rs) in
   issued asked = issued rs ++ [select_ (R.loadMessages_query roomId)]
   /\ R.loadMessages_query roomId
      = {| from := room_messages; columns := with_sender_profile;
           where_ := [eq "room_id" roomId];
           order_created_at := Some true; limit := Some 50; single := false |}
   /\ (let ms := R.messages (ui (R.step (R.Settle n served) asked)) in
       List.length ms <= 50
       /\ non_decreasing RoomMessage.created_at ms
       /\ Forall (fun m => exists r, In r (t_room_messages (db rs))
                                     /\ MessageRow.room_id r = roomId
                                     /\ m = hydrate (db rs) r) ms)
   /\ (let s' := R.step (R.Settle n denied) asked in
       R.messages (ui s') = R.messages (ui rs)
       /\ toasts s' = toasts rs ++ [toast_error "Failed to load messages"]
       /\ console s' = console rs ++ [console_error "Error loading messages:" e]))
  /\
  (let asked := D.loadMessages u ds in
   let n := List.length (pending ds) in
   let self := User.id u in
   let other := D.otherUserId (ui ds) in
   issued asked = issued ds ++ [select_ (D.loadMessages_query self other)]
   /\ D.loadMessages_query self other
      = {| from := direct_messages; columns := star;
           where_ := [D.pair_filter self other];
           order_created_at := Some true; limit := Some 50; single := false |}
   /\ (let ms := D.messages (ui (D.step (D.Settle n served) asked)) in
       List.length ms <= 50
       /\ non_decreasing DirectMessage.created_at ms
       /\ Forall (fun m => In m (t_direct_messages (db ds))
                           /\ D.in_conversation
                                {| D.self_id := self; D.peer_id := other |} m = true) ms)
   /\ (let s' := D.step (D.Settle n denied) asked in
       D.messages (ui s') = D.messages (ui ds)
       /\ toasts s' = toasts ds ++ [toast_error "Failed to load messages"]
       /\ console s' = console ds ++ [console_error "Error loading messages:" e])).
Proof.
  split.
  - cbv zeta. unfold R.loadMessages, R.suspend, R.step.
    rewrite !room_settle_last. unfold R.settle, andThen.
    simpl db. rewrite (room_loaded_served _ _ _ Hserved),
      (room_loaded_faulted _ _ _ _ Hdenied).
    rewrite !commit_same by reflexivity.
    split; [reflexivity | split; [reflexivity | split; [|repeat split]]].
    apply (room_load_answer roomId (db rs)).
  - cbv zeta. unfold D.loadMessages, D.suspend.
    rewrite !direct_settle_last. unfold D.settle, andThen.
    simpl db. rewrite (direct_loaded_served _ _ _ _ Hserved),
      (direct_loaded_faulted _ _ _ _ _ Hdenied).
    split; [reflexivity | split; [reflexivity | split; [|repeat split]]].
    apply (direct_load_answer (User.id u) (D.otherUserId (ui ds)) (db ds)).
Qed.

(** C10.  In the room store, when the re-fetch that follows an insert
    event comes back without data, because it failed or because no
    single row answered, the callback does nothing: the React state,
    the messages among it, is what it was, no toast is shown and
    nothing is logged. *)
Theorem refetch_without_data_drops_the_event
  (s : R.Sys) (i : nat) (id : string) (o : Outcome)
  (Hwaiting : nth_error (pending s) i = Some (R.onInsert_select id))
  (Hnone : data (R.refetch id o (db s)) = None) :
  let s' := R.step (R.Settle i o) s in
  R.messages (ui s') = R.messages (ui s)
  /\ ui s' = ui s
  /\ toasts s' = toasts s
  /\ console s' = console s
  /\ pending s' = remove_nth i (pending s).
Proof.
  cbv zeta. rewrite (room_settle_onInsert s i id o Hwaiting).
  unfold R.onInsert_then. rewrite Hnone. repeat split.
Qed.

(** C9.  [createRoom] inserts the room and then the membership of its
    creator.  When the room insert is served and the membership insert
    fails, the failure is logged and nothing is undone: the room stays
    in the store, no membership row exists, the dialog is closed and
    reset, the toast "Room created successfully!" is shown, and the list
    that the following load brings holds the room. *)
Theorem room_kept_when_membership_insert_fails
  (s : R.Sys) (u : User.t) (room_served member_denied load_served : Outcome)
  (e : PgError)
  (Huser : R.user (ui s) = Some u)
  (Hdialog : R.dialog_shown (ui s) = true)
  (Hname : blank (R.name (R.newRoom (ui s))) = false)
  (Hroom : fault room_served = None)
  (Hmember : fault member_denied = Some e)
  (Hload : fault load_served = None) :
  let n := List.length (pending s) in
  let room := {| Room.id := new_id room_served;
                 Room.name := R.name (R.newRoom (ui s));
                 Room.description := Some (R.description (R.newRoom (ui s)));
                 Room.created_at := now room_served;
                 Room.owner_id := User.id u |} in
  let created :=
    R.run [R.ClickCreateRoom; R.Settle n room_served; R.Settle n member_denied] s in
  let reloaded := R.step (R.Settle n load_served) created in
  issued created = issued s ++
    [insert_ Supabase.rooms
       (new_room (R.name (R.newRoom (ui s))) (R.description (R.newRoom (ui s)))
                 (User.id u)) true;
     insert_ room_members (new_member (new_id room_served) (User.id u) "owner") false;
     select_ R.loadRooms_query]
  /\ console created = console s ++
       [console_log "Creating room with user:";
        console_log "Room created successfully:";
        console_error "Error adding user to room members:" e;
        console_log "Loading rooms for user:"]
  /\ toasts created = toasts s ++ [toast_success "Room created successfully!"]
  /\ R.isDialogOpen (ui created) = false
  /\ R.newRoom (ui created) = {| R.name := []; R.description := [] |}
  /\ t_rooms (db created) = t_rooms (db s) ++ [room]
  /\ t_room_members (db created) = t_room_members (db s)
  /\ db reloaded = db created
  /\ toasts reloaded = toasts created
  /\ In room (R.rooms (ui reloaded)).
Proof.
  cbv zeta. unfold R.run. simpl fold_left.
  rewrite (step_createRoom s u Huser Hdialog Hname).
  match goal with |- context [R.step (R.Settle _ room_served) ?st] =>
    rewrite (step_room_inserted st (pending s) u _ _ _ room_served eq_refl Hroom)
  end.
  match goal with |- context [R.step (R.Settle _ member_denied) ?st] =>
    rewrite (step_member_refused st (pending s) u _ _ member_denied e eq_refl Hmember)
  end.
  match goal with |- context [R.step _ ?c] => set (created := c) end.
  split; [simpl; now rewrite <- !app_assoc|].
  split; [simpl; now rewrite <- !app_assoc|].
  do 5 (split; [reflexivity|]).
  destruct (step_rooms_loaded created (pending s)
              (is_some (R.selectedRoom (ui s))) load_served eq_refl Hload)
    as [Erooms [Edb Et]].
  split; [exact Edb | split; [exact Et|]].
  rewrite Erooms. unfold select_rooms. apply run_all_In; try reflexivity.
  apply in_or_app. right. now left.
Qed.

(** C3.  The room page at the failing input: alice's page has loaded
    and selected "general", whose channel is joined under the topic
    "room-messages", and she selects "random".  The effect on
    [selectedRoom] drops the closure that [subscribeToMessages] returns
    and returns no cleanup: the page asks the client for a second
    channel under the same topic and has not asked it to remove the
    first; however the page is driven, it never asks the client to
    remove a channel.  The direct window, whose effect returns the
    cleanup, removes its channel before it subscribes again at its
    switch from bob to carol, and holds the new one. *)
Theorem room_switch_never_removes_the_channel
  (events : list R.Event) (d : DB) (u : option User.t) :
  map server_filter (channels Data.room_loaded) = [Some (eq "room_id" "general")]
  /\ calls Data.room_loaded
     = [call_subscribe "room-messages" room_messages
          (Some (eq "room_id" "general"))]
  /\ calls Data.room_switched
     = [call_subscribe "room-messages" room_messages
          (Some (eq "room_id" "general"));
        call_subscribe "room-messages" room_messages
          (Some (eq "room_id" "random"))]
  /\ never_removes (calls (R.run events (R.mount d u))) = true
  /\ map listener (channels Data.direct_loaded)
     = [{| D.self_id := "alice"; D.peer_id := "bob" |}]
  /\ calls Data.direct_switched
     = [call_subscribe "direct-messages" direct_messages None;
        call_removeChannel 0;
        call_subscribe "direct-messages" direct_messages None]
  /\ map listener (channels Data.direct_switched)
     = [{| D.self_id := "alice"; D.peer_id := "carol" |}]
  /\ map handle (channels Data.direct_switched) = [1].
Proof.
  do 3 (split; [reflexivity|]).
  split; [apply room_run_never_removes, room_mount_never_removes|].
  repeat split; reflexivity.
Qed.

(** C8.  However the page or the window is driven from its mount, a
    message insert is in flight exactly while [sending] is set, and
    then only one; and while [sending] is set a click on the send button
    and a key press in the input change nothing, both controls being
    disabled. *)
Theorem at_most_one_send_in_flight
  (room_events : list R.Event) (direct_events : list D.Event)
  (d : DB) (u : option User.t) (other key : string) (shiftKey : bool) :
  let rs := R.run room_events (R.mount d u) in
  let ds := D.run direct_events (D.mount d other u) in
  (in_flight R.is_send (pending rs) = (if R.sending (ui rs) then 1 else 0)
   /\ in_flight R.is_send (pending rs) <= 1
   /\ (if R.sending (ui rs)
       then R.step R.ClickSend rs = rs /\ R.step (R.KeyPress key shiftKey) rs = rs
       else True))
  /\ (in_flight D.is_send (pending ds) = (if D.sending (ui ds) then 1 else 0)
      /\ in_flight D.is_send (pending ds) <= 1
      /\ (if D.sending (ui ds)
          then D.step D.ClickSend ds = ds /\ D.step (D.KeyPress key shiftKey) ds = ds
          else True)).
Proof.
  cbv zeta.
  pose proof (room_run_single_flight room_events _ (room_mount_single_flight d u))
    as Hr.
  pose proof (direct_run_single_flight direct_events _
                (direct_mount_single_flight d other u)) as Hd.
  set (rs := R.run room_events (R.mount d u)) in *.
  set (ds := D.run direct_events (D.mount d other u)) in *.
  unfold room_single_flight in Hr. unfold direct_single_flight in Hd.
  split; (split; [assumption|]).
  - rewrite Hr. destruct (R.sending (ui rs)) eqn:Hs; (split; [lia|]); [|exact I].
    assert (Hb : R.button_enabled (ui rs) = false).
    { destruct (R.button_enabled (ui rs)) eqn:Hb; [|reflexivity].
      apply room_button_enabled_idle in Hb. congruence. }
    assert (Hi : R.input_enabled (ui rs) = false).
    { destruct (R.input_enabled (ui rs)) eqn:Hi; [|reflexivity].
      apply room_input_enabled_idle in Hi. congruence. }
    unfold R.step, R.handle_event. rewrite Hb, Hi. simpl.
    split; now apply commit_same.
  - rewrite Hd. destruct (D.sending (ui ds)) eqn:Hs; (split; [lia|]); [|exact I].
    assert (Hb : D.button_enabled (ui ds) = false).
    { destruct (D.button_enabled (ui ds)) eqn:Hb; [|reflexivity].
      apply direct_button_enabled_idle in Hb. congruence. }
    assert (Hi : D.input_enabled (ui ds) = false).
    { destruct (D.input_enabled (ui ds)) eqn:Hi; [|reflexivity].
      apply direct_input_enabled_idle in Hi. congruence. }
    unfold D.step. rewrite Hb, Hi. simpl. now split.
Qed.

(** * The theorems at concrete inputs *)

Lemma send_rejected_without_text_user_or_room_witness :
  blank (R.newMessage (ui Data.room_blank)) = true
  /\ blank (D.newMessage (ui Data.direct_blank)) = true
  /\ R.sendMessage Data.room_blank = Data.room_blank
  /\ D.sendMessage Data.direct_blank = Data.direct_blank.
Proof.
  assert (Hr : blank (R.newMessage (ui Data.room_blank)) = true) by reflexivity.
  assert (Hd : blank (D.newMessage (ui Data.direct_blank)) = true) by reflexivity.
  destruct (send_rejected_without_text_user_or_room
              Data.room_blank Data.direct_blank Data.direct_no_peer Dashboard.initial
              (or_intror (or_intror Hr)) (or_intror Hd))
    as [[Er _] [[Ed _] _]].
  exact (conj Hr (conj Hd (conj Er Ed))).
Defined.

Lemma append_is_unconditional_witness :
  nth_error (pending Data.room_duplicate_pending) 0 = Some (R.onInsert_select "m3")
  /\ data (R.refetch "m3" Data.served (db Data.room_duplicate_pending))
     = Some (hydrate Data.db0 (Data.row "m3" "general" "alice" 3))
  /\ find_channel 0 Data.direct_loaded = Some Data.bob_channel
  /\ D.in_conversation (listener Data.bob_channel) (Data.dm "d3" "bob" "alice" 3) = true
  /\ occurrences RoomMessage.id "m3"
       (R.messages (ui (R.step (R.Settle 0 Data.served) Data.room_duplicate_pending)))
     = S (occurrences RoomMessage.id "m3"
            (R.messages (ui Data.room_duplicate_pending)))
  /\ occurrences DirectMessage.id "d3"
       (D.messages (ui (D.step (D.Realtime 0 (Data.dm "d3" "bob" "alice" 3))
                          Data.direct_loaded)))
     = S (occurrences DirectMessage.id "d3" (D.messages (ui Data.direct_loaded))).
Proof.
  assert (H1 : nth_error (pending Data.room_duplicate_pending) 0
               = Some (R.onInsert_select "m3")) by reflexivity.
  assert (H2 : data (R.refetch "m3" Data.served (db Data.room_duplicate_pending))
               = Some (hydrate Data.db0 (Data.row "m3" "general" "alice" 3)))
    by reflexivity.
  assert (H3 : find_channel 0 Data.direct_loaded = Some Data.bob_channel)
    by reflexivity.
  assert (H4 : D.in_conversation (listener Data.bob_channel)
                 (Data.dm "d3" "bob" "alice" 3) = true) by reflexivity.
  destruct (append_is_unconditional
              Data.room_duplicate_pending 0 "m3" Data.served
              (hydrate Data.db0 (Data.row "m3" "general" "alice" 3))
              Data.direct_loaded 0 Data.bob_channel (Data.dm "d3" "bob" "alice" 3)
              H1 H2 H3 H4)
    as [[_ Er] [_ Ed]].
  refine (conj H1 (conj H2 (conj H3 (conj H4 (conj Er Ed))))).
Defined.

Lemma send_inserts_trimmed_then_clears_or_reports_witness :
  R.user (ui Data.room_typed) = Some Data.alice
  /\ R.selectedRoom (ui Data.room_typed) = Some ((1, 0), Data.general)
  /\ blank (R.newMessage (ui Data.room_typed)) = false
  /\ D.user (ui Data.direct_typed) = Some Data.alice
  /\ blank (D.newMessage (ui Data.direct_typed)) = false
  /\ fault Data.served = None
  /\ fault Data.denied = Some Data.permission_denied
  /\ issued (R.sendMessage Data.room_typed)
     = issued Data.room_typed
       ++ [insert_ room_messages
             (new_room_message "general" "alice" (lit "hello")) false]
  /\ issued (D.sendMessage Data.direct_typed)
     = issued Data.direct_typed
       ++ [insert_ direct_messages
             (new_direct_message "alice" "bob" (lit "hello")) false].
Proof.
  assert (H1 : R.user (ui Data.room_typed) = Some Data.alice) by reflexivity.
  assert (H2 : R.selectedRoom (ui Data.room_typed) = Some ((1, 0), Data.general))
    by reflexivity.
  assert (H3 : blank (R.newMessage (ui Data.room_typed)) = false) by reflexivity.
  assert (H4 : D.user (ui Data.direct_typed) = Some Data.alice) by reflexivity.
  assert (H5 : blank (D.newMessage (ui Data.direct_typed)) = false) by reflexivity.
  assert (H6 : fault Data.served = None) by reflexivity.
  assert (H7 : fault Data.denied = Some Data.permission_denied) by reflexivity.
  destruct (send_inserts_trimmed_then_clears_or_reports
              Data.room_typed Data.direct_typed Data.alice Data.alice (1, 0)
              Data.general Data.served Data.denied Data.permission_denied
              H1 H2 H3 H4 H5 H6 H7)
    as [[Er _] [Ed _]].
  exact (conj H1 (conj H2 (conj H3 (conj H4 (conj H5 (conj H6 (conj H7 (conj Er Ed)))))))).
Defined.

Lemma order_after_load_and_in_order_appends_witness :
  fault Data.served = None
  /\ D.in_conversation (listener Data.bob_channel) (Data.dm "d4" "bob" "alice" 4) = true
  /\ non_decreasing RoomMessage.created_at
       (R.messages (ui (R.loadMessages_then
                          (R.loaded "general" Data.served (db Data.room_loaded))
                          Data.room_loaded)))
  /\ non_decreasing DirectMessage.created_at
       (D.messages (ui (D.loadMessages_then
                          (D.loaded "alice" "bob" Data.served (db Data.direct_loaded))
                          Data.direct_loaded))).
Proof.
  assert (H1 : fault Data.served = None) by reflexivity.
  assert (H2 : D.in_conversation (listener Data.bob_channel)
                 (Data.dm "d4" "bob" "alice" 4) = true) by reflexivity.
  destruct (order_after_load_and_in_order_appends
              Data.room_loaded Data.direct_loaded "general" "alice" "bob" Data.served
              (hydrate Data.db0 (Data.row "m4" "general" "bob" 4))
              (listener Data.bob_channel) (Data.dm "d4" "bob" "alice" 4) H1 H2)
    as [[Er _] [Ed _]].
  exact (conj H1 (conj H2 (conj Er Ed))).
Defined.

Lemma room_refetches_direct_appends_raw_witness :
  find_channel 0 Data.room_loaded = Some Data.general_channel
  /\ R.passes Data.general_channel (Data.row "m3" "general" "alice" 3) = true
  /\ fault Data.served = None
  /\ Supabase.run (R.onInsert_query "m3") (t_room_messages (db Data.room_loaded))
     = [Data.row "m3" "general" "alice" 3]
  /\ find_channel 0 Data.direct_loaded = Some Data.bob_channel
  /\ D.in_conversation (listener Data.bob_channel) (Data.dm "d4" "bob" "alice" 4) = true
  /\ issued (R.step (R.Realtime 0 (Data.row "m3" "general" "alice" 3)) Data.room_loaded)
     = issued Data.room_loaded ++ [select_ (R.onInsert_query "m3")]
  /\ issued (D.step (D.Realtime 0 (Data.dm "d4" "bob" "alice" 4)) Data.direct_loaded)
     = issued Data.direct_loaded.
Proof.
  assert (H1 : find_channel 0 Data.room_loaded = Some Data.general_channel)
    by reflexivity.
  assert (H2 : R.passes Data.general_channel (Data.row "m3" "general" "alice" 3) = true)
    by reflexivity.
  assert (H3 : fault Data.served = None) by reflexivity.
  assert (H4 : Supabase.run (R.onInsert_query "m3")
                 (t_room_messages (db Data.room_loaded))
               = [Data.row "m3" "general" "alice" 3]) by reflexivity.
  assert (H5 : find_channel 0 Data.direct_loaded = Some Data.bob_channel)
    by reflexivity.
  assert (H6 : D.in_conversation (listener Data.bob_channel)
                 (Data.dm "d4" "bob" "alice" 4) = true) by reflexivity.
  destruct (room_refetches_direct_appends_raw
              Data.room_loaded 0 Data.general_channel
              (Data.row "m3" "general" "alice" 3) (Data.row "m3" "general" "alice" 3)
              Data.served Data.direct_loaded 0 Data.bob_channel
              (Data.dm "d4" "bob" "alice" 4) H1 H2 H3 H4 H5 H6)
    as [[Er _] [_ [Ed _]]].
  exact (conj H1 (conj H2 (conj H3 (conj H4 (conj H5 (conj H6 (conj Er Ed))))))).
Defined.

Lemma load_at_most_50_ascending_or_unchanged_witness :
  fault Data.served = None
  /\ fault Data.denied = Some Data.permission_denied
  /\ issued (R.loadMessages "general" Data.room_loaded)
     = issued Data.room_loaded ++ [select_ (R.loadMessages_query "general")]
  /\ issued (D.loadMessages Data.alice Data.direct_loaded)
     = issued Data.direct_loaded ++ [select_ (D.loadMessages_query "alice" "bob")].
Proof.
  assert (H1 : fault Data.served = None) by reflexivity.
  assert (H2 : fault Data.denied = Some Data.permission_denied) by reflexivity.
  destruct (load_at_most_50_ascending_or_unchanged
              Data.room_loaded "general" Data.direct_loaded Data.alice
              Data.served Data.denied Data.permission_denied H1 H2)
    as [[Er _] [Ed _]].
  exact (conj H1 (conj H2 (conj Er Ed))).
Defined.

Lemma room_kept_when_membership_insert_fails_witness :
  R.user (ui Data.room_dialog) = Some Data.alice
  /\ R.dialog_shown (ui Data.room_dialog) = true
  /\ blank (R.name (R.newRoom (ui Data.room_dialog))) = false
  /\ fault Data.lounge_served = None
  /\ fault Data.denied = Some Data.permission_denied
  /\ fault Data.served = None
  /\ (let n := List.length (pending Data.room_dialog) in
      let created :=
        R.run [R.ClickCreateRoom; R.Settle n Data.lounge_served;
               R.Settle n Data.denied] Data.room_dialog in
      toasts created
      = toasts Data.room_dialog ++ [toast_success "Room created successfully!"]
      /\ t_room_members (db created) = t_room_members (db Data.room_dialog)).
Proof.
  assert (H1 : R.user (ui Data.room_dialog) = Some Data.alice) by reflexivity.
  assert (H2 : R.dialog_shown (ui Data.room_dialog) = true) by reflexivity.
  assert (H3 : blank (R.name (R.newRoom (ui Data.room_dialog))) = false)
    by reflexivity.
  assert (H4 : fault Data.lounge_served = None) by reflexivity.
  assert (H5 : fault Data.denied = Some Data.permission_denied) by reflexivity.
  assert (H6 : fault Data.served = None) by reflexivity.
  refine (conj H1 (conj H2 (conj H3 (conj H4 (conj H5 (conj H6 _)))))).
  destruct (room_kept_when_membership_insert_fails
              Data.room_dialog Data.alice Data.lounge_served Data.denied
              Data.served Data.permission_denied H1 H2 H3 H4 H5 H6)
    as [_ [_ [Et [_ [_ [_ [Em _]]]]]]].
  exact (conj Et Em).
Defined.

Lemma refetch_without_data_drops_the_event_witness :
  nth_error (pending Data.room_event_pending) 0 = Some (R.onInsert_select "m9")
  /\ data (R.refetch "m9" Data.served (db Data.room_event_pending)) = None
  /\ R.messages (ui (R.step (R.Settle 0 Data.served) Data.room_event_pending))
     = R.messages (ui Data.room_event_pending)
  /\ toasts (R.step (R.Settle 0 Data.served) Data.room_event_pending)
     = toasts Data.room_event_pending
  /\ console (R.step (R.Settle 0 Data.served) Data.room_event_pending)
     = console Data.room_event_pending.
Proof.
  assert (H1 : nth_error (pending Data.room_event_pending) 0
               = Some (R.onInsert_select "m9")) by reflexivity.
  assert (H2 : data (R.refetch "m9" Data.served (db Data.room_event_pending)) = None)
    by reflexivity.
  destruct (refetch_without_data_drops_the_event
              Data.room_event_pending 0 "m9" Data.served H1 H2)
    as [Em [_ [Et [Ec _]]]].
  exact (conj H1 (conj H2 (conj Em (conj Et Ec)))).
Defined.

(** * Beyond the claims *)

(** ** More on queries *)

Section MoreQueryFacts.
Context {A : Type} `{Row A}.

Let le (a b : A) : Prop := (created_at_of a <= created_at_of b)%N.

Lemma insert_by_perm (x : A) (l : list A) : Permutation (insert_by x l) (x :: l).
Proof.
  induction l as [|y l IH]; simpl; [reflexivity|].
  destruct (created_at_of x <? created_at_of y)%N; [reflexivity|].
  rewrite IH. apply perm_swap.
Qed.

Lemma sort_by_perm (l : list A) : Permutation (sort_by l) l.
Proof.
  unfold sort_by. rewrite (Permutation_rev l) at 2.
  induction (rev l) as [|x r IH]; simpl; [reflexivity|].
  rewrite insert_by_perm. now constructor.
Qed.

Lemma sort_by_strongly_sorted (l : list A) : StronglySorted le (sort_by l).
Proof.
  apply Sorted_StronglySorted; [|apply sort_by_sorted].
  intros a b c Hab Hbc. unfold le in *. lia.
Qed.

Lemma firstn_before_skipn (R : A -> A -> Prop) (k : nat) (l : list A) (a b : A) :
  StronglySorted R l -> In a (firstn k l) -> In b (skipn k l) -> R a b.
Proof.
  intros Hs. revert k. induction Hs as [|x l Hs IH Hall]; intros [|k]; simpl;
    try tauto.
  intros [<-|Ha] Hb.
  - rewrite Forall_forall in Hall. apply Hall.
    rewrite <- (firstn_skipn k l). apply in_or_app. now right.
  - now apply (IH k).
Qed.

(** An ascending query with a limit takes the oldest rows that pass
    its filters. *)
Lemma run_oldest (q : Select) (k : nat) (table : list A) :
  order_created_at q = Some true -> limit q = Some k ->
  let passing := filter (fun r => forallb (fun c => holds c r) (where_ q)) table in
  oldest_of created_at_of (run q table) passing
  /\ List.length (run q table) = Nat.min k (List.length passing).
Proof.
  intros Ho Hl. unfold run. rewrite Ho, Hl. simpl. split.
  - exists (skipn k (sort_by (filter (fun r => forallb (fun c => holds c r) (where_ q))
                                table))).
    split.
    + rewrite firstn_skipn. apply sort_by_perm.
    + intros a b Ha Hb.
      exact (firstn_before_skipn le k _ a b (sort_by_strongly_sorted _) Ha Hb).
  - rewrite length_firstn. now rewrite (Permutation_length (sort_by_perm _)).
Qed.

End MoreQueryFacts.

Lemma room_filter_passing (roomId : string) (table : list MessageRow.t) :
  filter (fun r => forallb (fun c => holds c r) (where_ (R.loadMessages_query roomId)))
    table
  = filter (fun r => MessageRow.room_id r =? roomId) table.
Proof.
  apply filter_ext. intros r. simpl. apply andb_true_r.
Qed.

Lemma direct_filter_passing (self other : string) (table : list DirectMessage.t) :
  filter (fun r => forallb (fun c => holds c r)
                     (where_ (D.loadMessages_query self other))) table
  = filter (D.in_conversation {| D.self_id := self; D.peer_id := other |}) table.
Proof.
  apply filter_ext. intros r. simpl. apply andb_true_r.
Qed.

(** X1.  A served load brings the oldest messages of the conversation,
    50 of them when there are more: the store becomes, in order of
    [created_at], the first 50 of the matching rows, and no row left out
    is older than a row brought.  A conversation of more than 50
    messages is therefore loaded without its newest ones. *)
Theorem load_takes_the_oldest_fifty
  (rs : R.Sys) (roomId : string) (ds : D.Sys) (u : User.t) (served : Outcome)
  (Hserved : fault served = None) :
  (let matching := filter (fun r => MessageRow.room_id r =? roomId)
                     (t_room_messages (db rs)) in
   let s' := R.step (R.Settle (List.length (pending rs)) served)
               (R.loadMessages roomId rs) in
   exists taken,
     R.messages (ui s') = map (hydrate (db rs)) taken
     /\ oldest_of MessageRow.created_at taken matching
     /\ List.length taken = Nat.min 50 (List.length matching))
  /\
  (let matching := filter (D.in_conversation
                             {| D.self_id := User.id u;
                                D.peer_id := D.otherUserId (ui ds) |})
                     (t_direct_messages (db ds)) in
   let s' := D.step (D.Settle (List.length (pending ds)) served)
               (D.loadMessages u ds) in
   oldest_of DirectMessage.created_at (D.messages (ui s')) matching
   /\ List.length (D.messages (ui s')) = Nat.min 50 (List.length matching)).
Proof.
  split; cbv zeta.
  - unfold R.loadMessages, R.suspend, R.step. rewrite room_settle_last.
    unfold R.settle, andThen. simpl db.
    rewrite (room_loaded_served _ _ _ Hserved), commit_same by reflexivity.
    exists (Supabase.run (R.loadMessages_query roomId) (t_room_messages (db rs))).
    split; [reflexivity|].
    rewrite <- room_filter_passing.
    exact (run_oldest (R.loadMessages_query roomId) 50 _ eq_refl eq_refl).
  - unfold D.loadMessages, D.suspend. rewrite direct_settle_last.
    unfold D.settle, andThen. simpl db.
    rewrite (direct_loaded_served _ _ _ _ Hserved).
    rewrite <- direct_filter_passing.
    exact (run_oldest (D.loadMessages_query (User.id u) (D.otherUserId (ui ds))) 50 _
             eq_refl eq_refl).
Qed.

(** ** What [trim] leaves *)

Lemma trimStart_head (s : jsstring) (c : N) (r : jsstring) :
  trimStart s = c :: r -> isWhiteSpace c = false.
Proof.
  induction s as [|x s IH]; simpl; [discriminate|].
  destruct (isWhiteSpace x) eqn:W; [exact IH|].
  intros [= <- _]. exact W.
Qed.

Lemma latest_app {A} (p t : list A) : t <> [] -> latest (p ++ t) = latest t.
Proof.
  intros Ht. induction p as [|x p IH]; simpl; [reflexivity|].
  rewrite <- IH. destruct (p ++ t) eqn:E; [|reflexivity].
  apply app_eq_nil in E. tauto.
Qed.

Lemma latest_snoc {A} (l : list A) (x : A) : latest (l ++ [x]) = Some x.
Proof. now rewrite latest_app. Qed.

Lemma hd_error_rev {A} (l : list A) : hd_error (rev l) = latest l.
Proof.
  induction l as [|x l IH]; simpl; [reflexivity|].
  destruct l as [|y l]; [reflexivity|].
  rewrite <- IH. simpl. destruct (rev l ++ [y]) eqn:E; [|reflexivity].
  apply app_eq_nil in E. destruct E. discriminate.
Qed.

Lemma latest_rev {A} (l : list A) : latest (rev l) = hd_error l.
Proof. rewrite <- (rev_involutive l) at 2. now rewrite hd_error_rev. Qed.

Lemma trimStart_latest (s : jsstring) :
  trimStart s <> [] -> latest (trimStart s) = latest s.
Proof.
  intros Hne. destruct (trimStart_suffix s) as [p [E _]].
  rewrite E at 2. now rewrite latest_app.
Qed.

Lemma trimStart_blank_nil_false (s : jsstring) :
  blank s = false -> trimStart s <> [].
Proof.
  intros Hb E. apply trimStart_nil_blank in E. congruence.
Qed.

Lemma trim_trimmed (s : jsstring) : blank s = false -> trimmed (trim s).
Proof.
  intros Hb. unfold trim, trimEnd.
  destruct (trimStart s) as [|c t] eqn:Et.
  { now apply trimStart_blank_nil_false in Hb. }
  pose proof (trimStart_head s c t Et) as Hc.
  set (u := trimStart (rev (c :: t))).
  assert (Hu : u <> []).
  { intros E. apply trimStart_nil_blank in E. rewrite blank_rev in E.
    simpl in E. now rewrite Hc in E. }
  assert (Hlast : latest u = Some c).
  { unfold u. rewrite trimStart_latest by exact Hu. now rewrite latest_rev. }
  split; [|split].
  - intros E. apply (f_equal (@rev N)) in E. rewrite rev_involutive in E.
    now apply Hu.
  - intros x. rewrite hd_error_rev, Hlast. now intros [= <-].
  - intros x. rewrite latest_rev. destruct u as [|y u'] eqn:Eu; [contradiction|].
    simpl. intros [= <-]. now apply (trimStart_head (rev (c :: t)) y u').
Qed.

(** ** What a step sends *)

Lemma message_inserts_app (a b : list Request) :
  message_inserts (a ++ b) = message_inserts a + message_inserts b.
Proof. unfold message_inserts. now rewrite filter_app, length_app. Qed.

Lemma texts_trimmed_app (a b : list Request) :
  texts_trimmed a -> texts_trimmed b -> texts_trimmed (a ++ b).
Proof. unfold texts_trimmed. intros Ha Hb. apply Forall_app. now split. Qed.

Lemma not_blank_trimmed (t : jsstring) :
  negb (truthy (trim t)) = false -> trimmed (trim t).
Proof.
  rewrite truthy_trim, negb_involutive. apply trim_trimmed.
Qed.

Ltac issued_more :=
  simpl; rewrite <- ?app_assoc;
  first [ exists []; split; [now rewrite app_nil_r|]
        | eexists; split; [reflexivity|] ];
  unfold texts_trimmed, message_inserts;
  split; [repeat constructor; try discriminate | simpl; lia].

Lemma room_sendMessage_issued (s : R.Sys) :
  exists more, issued (R.sendMessage s) = issued s ++ more
               /\ texts_trimmed more /\ message_inserts more <= 1.
Proof.
  unfold R.sendMessage.
  destruct (R.user (ui s)) as [u|]; [|issued_more].
  destruct (R.selectedRoom (ui s)) as [[ref room]|]; [|issued_more].
  destruct (negb _) eqn:Hb; [issued_more|].
  eexists [_]. simpl. split; [reflexivity|]. split; [|unfold message_inserts; simpl; lia].
  constructor; [|constructor]. intros c [= <-]. now apply not_blank_trimmed.
Qed.

Lemma direct_sendMessage_issued (s : D.Sys) :
  exists more, issued (D.sendMessage s) = issued s ++ more
               /\ texts_trimmed more /\ message_inserts more <= 1.
Proof.
  unfold D.sendMessage.
  destruct (D.user (ui s)) as [u|]; [|issued_more].
  destruct (negb _) eqn:Hb; [issued_more|].
  eexists [_]. simpl. split; [reflexivity|]. split; [|unfold message_inserts; simpl; lia].
  constructor; [|constructor]. intros c [= <-]. now apply not_blank_trimmed.
Qed.

Lemma room_commit_issued (before : R.State) (s : R.Sys) :
  exists more, issued (R.commit before s) = issued s ++ more
               /\ texts_trimmed more /\ message_inserts more = 0.
Proof.
  unfold R.commit, R.useEffect_selectedRoom.
  destruct (R.same_selected _ _).
  - exists []. split; [now rewrite app_nil_r | split; [constructor | reflexivity]].
  - destruct (R.selectedRoom (ui s)) as [[ref room]|].
    + eexists [_]. split; [reflexivity|].
      split; [repeat constructor; discriminate | reflexivity].
    + exists []. split; [now rewrite app_nil_r | split; [constructor | reflexivity]].
Qed.

Lemma room_handle_issued (e : R.Event) (s : R.Sys) :
  exists more, issued (R.handle_event e s) = issued s ++ more
               /\ texts_trimmed more
               /\ message_inserts more <= (if room_send_event e then 1 else 0).
Proof.
  destruct e; unfold R.handle_event; cbn [room_send_event].
  - unfold andThen, R.useEffect_user, R.loadRooms, R.loadRooms_seeing, R.suspend,
      andThen. split_matches; issued_more.
  - split_matches; issued_more.
  - split_matches; issued_more.
  - split_matches; issued_more.
  - split_matches; issued_more.
  - unfold R.createRoom, andThen, R.suspend. split_matches; issued_more.
  - split_matches; issued_more.
  - destruct (R.input_enabled (ui s)), (key =? "Enter"), shiftKey; simpl;
      try issued_more; apply room_sendMessage_issued.
  - destruct (R.button_enabled (ui s)); [apply room_sendMessage_issued | issued_more].
  - destruct (nth_error (pending s) i) as [k|]; [|issued_more].
    destruct k; unfold R.settle, andThen, R.loadRooms_then, R.loadMessages_then,
      R.onInsert_then, R.createRoom_then_room, R.createRoom_then_member,
      R.createRoom_catch, R.sendMessage_then, R.loadRooms_seeing, R.suspend,
      insert_room, insert, andThen;
      split_matches; issued_more.
  - unfold R.onInsert, R.suspend. split_matches; issued_more.
  - issued_more.
Qed.

Lemma room_step_issued (e : R.Event) (s : R.Sys) :
  exists more, issued (R.step e s) = issued s ++ more
               /\ texts_trimmed more
               /\ message_inserts more <= (if room_send_event e then 1 else 0).
Proof.
  unfold R.step.
  destruct (room_handle_issued e s) as [m1 [E1 [T1 C1]]].
  destruct (room_commit_issued (ui s) (R.handle_event e s)) as [m2 [E2 [T2 C2]]].
  exists (m1 ++ m2). rewrite E2, E1, <- app_assoc. split; [reflexivity|].
  split; [now apply texts_trimmed_app|].
  rewrite message_inserts_app. lia.
Qed.

Lemma direct_effect_issued (s : D.Sys) :
  exists more, issued ((D.run_cleanup ;; D.useEffect) s) = issued s ++ more
               /\ texts_trimmed more /\ message_inserts more = 0.
Proof.
  unfold andThen, D.run_cleanup, D.useEffect, andThen, D.loadOtherUser,
    D.loadMessages, D.suspend, D.subscribeToMessages.
  split_matches; simpl; rewrite <- ?app_assoc;
    first [ exists []; split; [now rewrite app_nil_r|]
          | eexists; split; [reflexivity|] ];
    (split; [repeat constructor; discriminate | reflexivity]).
Qed.


Lemma direct_step_issued (e : D.Event) (s : D.Sys) :
  exists more, issued (D.step e s) = issued s ++ more
               /\ texts_trimmed more
               /\ message_inserts more <= (if direct_send_event e then 1 else 0).
Proof.
  destruct e; unfold D.step; cbn [direct_send_event].
  - destruct (D.otherUserId (ui s) =? other); [issued_more|].
    destruct (direct_effect_issued (update (D.setOtherUserId other) s))
      as [m [E [T C]]].
    exists m. unfold andThen in *. rewrite E. split; [reflexivity|].
    split; [exact T | lia].
  - destruct (D.user (ui s)), u; try issued_more;
      match goal with |- context [update ?f] =>
        destruct (direct_effect_issued (update f s)) as [m [E [T C]]] end;
      exists m; unfold andThen in *; rewrite E;
      (split; [reflexivity | split; [exact T | lia]]).
  - split_matches; issued_more.
  - destruct (D.input_enabled (ui s)), (key =? "Enter"), shiftKey; simpl;
      try issued_more; apply direct_sendMessage_issued.
  - destruct (D.button_enabled (ui s)); [apply direct_sendMessage_issued | issued_more].
  - destruct (nth_error (pending s) i) as [k|]; [|issued_more].
    destruct k; unfold D.settle, andThen, D.loadOtherUser_then,
      D.loadMessages_then, D.sendMessage_then, insert, andThen;
      split_matches; issued_more.
  - unfold D.onInsert. split_matches; issued_more.
  - issued_more.
Qed.

Lemma room_run_issued (es : list R.Event) (s : R.Sys) :
  texts_trimmed (issued s) -> texts_trimmed (issued (R.run es s)).
Proof.
  revert s. induction es as [|e es IH]; intros s Hs; simpl; [exact Hs|].
  apply IH. destruct (room_step_issued e s) as [more [E [T _]]].
  rewrite E. now apply texts_trimmed_app.
Qed.

Lemma direct_run_issued (es : list D.Event) (s : D.Sys) :
  texts_trimmed (issued s) -> texts_trimmed (issued (D.run es s)).
Proof.
  revert s. induction es as [|e es IH]; intros s Hs; simpl; [exact Hs|].
  apply IH. destruct (direct_step_issued e s) as [more [E [T _]]].
  rewrite E. now apply texts_trimmed_app.
Qed.

(** X2.  However the page or the window is driven from its mount, every
    message insert it has sent carries a trimmed text: not empty, and
    with no whitespace at its start or its end. *)
Theorem every_message_sent_is_trimmed
  (room_events : list R.Event) (direct_events : list D.Event)
  (d : DB) (u : option User.t) (other : string) :
  texts_trimmed (issued (R.run room_events (R.mount d u)))
  /\ texts_trimmed (issued (D.run direct_events (D.mount d other u))).
Proof.
  split.
  - apply room_run_issued. unfold texts_trimmed.
    destruct u; simpl; repeat constructor; discriminate.
  - apply direct_run_issued. unfold texts_trimmed, D.mount, D.useEffect. simpl.
    destruct u; [|constructor].
    destruct (negb (other =? "")); simpl; repeat constructor; discriminate.
Qed.

(** X3.  A step of the event loop sends a message insert only when it
    is a click on the send button or a press of Enter without Shift,
    and then at most one; no other event, no response and no realtime
    event sends one, and none is ever taken back from the log. *)
Theorem only_send_events_send_messages
  (rs : R.Sys) (e : R.Event) (ds : D.Sys) (e' : D.Event) :
  (message_inserts (issued rs) <= message_inserts (issued (R.step e rs))
   /\ message_inserts (issued (R.step e rs))
      <= message_inserts (issued rs) + (if room_send_event e then 1 else 0))
  /\ (message_inserts (issued ds) <= message_inserts (issued (D.step e' ds))
      /\ message_inserts (issued (D.step e' ds))
         <= message_inserts (issued ds) + (if direct_send_event e' then 1 else 0)).
Proof.
  destruct (room_step_issued e rs) as [m [E [_ C]]].
  destruct (direct_step_issued e' ds) as [m' [E' [_ C']]].
  rewrite E, E', !message_inserts_app. lia.
Qed.

(** ** The spinner *)

Lemma room_step_loading (e : R.Event) (s : R.Sys) :
  R.loading (ui s) = false -> R.loading (ui (R.step e s)) = false.
Proof.
  intros Hl. unfold R.step.
  destruct (commit_keeps (ui s) (R.handle_event e s)) as [-> _].
  destruct e; unfold R.handle_event, R.settle, andThen, R.useEffect_user,
    R.loadRooms, R.loadRooms_seeing, R.createRoom, R.sendMessage, R.onInsert,
    R.loadRooms_then, R.loadMessages_then, R.onInsert_then,
    R.createRoom_then_room, R.createRoom_then_member, R.createRoom_catch,
    R.sendMessage_then, R.loadRooms_seeing, R.suspend, insert_room, insert, andThen,
    skip;
    split_matches; congruence.
Qed.

Lemma direct_step_loading (e : D.Event) (s : D.Sys) :
  D.loading (ui s) = false -> D.loading (ui (D.step e s)) = false.
Proof.
  intros Hl.
  destruct e; unfold D.step, D.settle, andThen, D.run_cleanup, D.useEffect,
    D.loadOtherUser, D.loadMessages, D.subscribeToMessages, D.sendMessage,
    D.onInsert, D.loadOtherUser_then, D.loadMessages_then, D.sendMessage_then,
    D.suspend, insert, andThen, skip;
    split_matches; congruence.
Qed.

(** X4.  Once the spinner is gone it never comes back: no event sets
    [loading] again, in the page or in the window, so a later load
    (another room, another peer, a reload of the rooms) runs behind the
    content already shown. *)
Theorem spinner_never_returns
  (room_events : list R.Event) (rs : R.Sys)
  (direct_events : list D.Event) (ds : D.Sys)
  (Hroom : R.loading (ui rs) = false)
  (Hdirect : D.loading (ui ds) = false) :
  R.loading (ui (R.run room_events rs)) = false
  /\ D.loading (ui (D.run direct_events ds)) = false.
Proof.
  split.
  - revert rs Hroom. induction room_events as [|e es IH]; intros s Hs; simpl;
      [exact Hs|]. now apply IH, room_step_loading.
  - revert ds Hdirect. induction direct_events as [|e es IH]; intros s Hs; simpl;
      [exact Hs|]. now apply IH, direct_step_loading.
Qed.

(** ** loadRooms *)

Lemma room_settle_loadRooms (s : R.Sys) (i : nat) (saw : bool) (o : Outcome) :
  nth_error (pending s) i = Some (R.loadRooms_select saw) ->
  R.step (R.Settle i o) s
  = R.commit (ui s)
      (R.loadRooms_then saw
         (respond o (ok (select_rooms R.loadRooms_query (db s))))
         (resume (remove_nth i (pending s)) (db s) s)).
Proof.
  intros Hk. unfold R.step, R.handle_event. now rewrite Hk.
Qed.

Lemma select_rooms_all (d : DB) :
  select_rooms R.loadRooms_query d = sort_by (t_rooms d).
Proof.
  unfold select_rooms, Supabase.run. simpl.
  f_equal. induction (t_rooms d) as [|r l IH]; simpl; [reflexivity | now rewrite IH].
Qed.

Lemma errorMessage_not_empty (default : string) (e : PgError) :
  default <> "" -> errorMessage default e <> "".
Proof.
  intros Hd. unfold errorMessage.
  destruct (code e =? "PGRST116"); [discriminate|].
  destruct (code e =? "PGRST301"); [discriminate|].
  destruct (message e) as [|a m]; simpl; [exact Hd | discriminate].
Qed.

(** X5.  When [loadRooms] is served, the list becomes every room of the
    store, each once, in order of [created_at] (the query has neither
    a filter nor a limit); the spinner goes and nothing is reported. *)
Theorem loadRooms_lists_every_room_in_order
  (s : R.Sys) (i : nat) (saw : bool) (o : Outcome)
  (Hwaiting : nth_error (pending s) i = Some (R.loadRooms_select saw))
  (Hserved : fault o = None) :
  let s' := R.step (R.Settle i o) s in
  Permutation (R.rooms (ui s')) (t_rooms (db s))
  /\ non_decreasing Room.created_at (R.rooms (ui s'))
  /\ R.loading (ui s') = false
  /\ toasts s' = toasts s
  /\ db s' = db s.
Proof.
  cbv zeta. rewrite (room_settle_loadRooms s i saw o Hwaiting).
  destruct (commit_keeps (ui s)
              (R.loadRooms_then saw
                 (respond o (ok (select_rooms R.loadRooms_query (db s))))
                 (resume (remove_nth i (pending s)) (db s) s)))
    as [Eui [Edb [Et _]]].
  rewrite Eui, Edb, Et. unfold respond. rewrite Hserved.
  destruct (loadRooms_then_keeps saw (select_rooms R.loadRooms_query (db s))
              (resume (remove_nth i (pending s)) (db s) s)) as [Edb' [Et' _]].
  rewrite loadRooms_then_rooms, Edb', Et', select_rooms_all.
  split; [apply sort_by_perm|].
  split; [exact (@sort_by_sorted Room.t Row_room (t_rooms (db s)))|].
  split; [|now split].
  unfold R.loadRooms_then, andThen. simpl. now destruct (sort_by (t_rooms (db s))).
Qed.

Lemma sort_by_head_oldest {A} `{Row A} (l : list A) (first : A) (rest : list A) :
  sort_by l = first :: rest ->
  In first l /\ forall r, In r l -> (created_at_of first <= created_at_of r)%N.
Proof.
  intros E. split.
  - apply sort_by_In. rewrite E. now left.
  - intros r Hr. apply sort_by_In in Hr. rewrite E in Hr.
    pose proof (sort_by_strongly_sorted l) as Hs. rewrite E in Hs.
    inversion Hs as [|? ? _ Hall]; subst. destruct Hr as [<-|Hr]; [lia|].
    rewrite Forall_forall in Hall. now apply Hall.
Qed.

(** X6.  When the rooms load for a page that has no room selected, and
    whose [loadRooms] saw none, the oldest room of the store is selected
    (no room has a smaller [created_at]); the effect on the selection
    then asks for the messages of that room and asks the client for a
    channel filtered on it, the one live channel when none was open.  A [loadRooms] that saw a room selected leaves the
    selection alone, whatever comes back. *)
Theorem loadRooms_selects_the_oldest_room
  (s : R.Sys) (i : nat) (o : Outcome) (r : Response (list Room.t))
  (Hwaiting : nth_error (pending s) i = Some (R.loadRooms_select false))
  (Hnone : R.selectedRoom (ui s) = None)
  (Hserved : fault o = None)
  (Hrooms : t_rooms (db s) <> []) :
  (let s' := R.step (R.Settle i o) s in
   exists first,
     option_map snd (R.selectedRoom (ui s')) = Some first
     /\ hd_error (R.rooms (ui s')) = Some first
     /\ In first (t_rooms (db s))
     /\ (forall room, In room (t_rooms (db s)) ->
                      (Room.created_at first <= Room.created_at room)%N)
     /\ issued s' = issued s ++ [select_ (R.loadMessages_query (Room.id first))]
     /\ calls s' = calls s ++ [call_subscribe "room-messages" room_messages
                                 (Some (eq "room_id" (Room.id first)))]
     /\ (channels s = [] ->
         map server_filter (channels s') = [Some (eq "room_id" (Room.id first))]))
  /\ R.selectedRoom (ui (R.loadRooms_then true r s)) = R.selectedRoom (ui s).
Proof.
  split.
  - cbv zeta. rewrite (room_settle_loadRooms s i false o Hwaiting).
    unfold respond. rewrite Hserved, select_rooms_all.
    destruct (sort_by (t_rooms (db s))) as [|first rest] eqn:E.
    { exfalso. apply Hrooms. apply Permutation_nil.
      rewrite <- E. apply sort_by_perm. }
    destruct (sort_by_head_oldest _ _ _ E) as [Hin Hmin].
    exists first. unfold R.commit, R.loadRooms_then, andThen. simpl.
    rewrite Hnone. simpl. repeat split; try assumption.
    now intros ->.
  - unfold R.loadRooms_then, andThen.
    destruct (error r); [reflexivity|].
    destruct (data r) as [[|first rest]|]; reflexivity.
Qed.

(** X7.  When [loadRooms] fails, the list, the selection and the
    messages are what they were, the spinner goes, the error is logged
    twice and one toast is shown, whose text is never empty: the fixed
    text of a known code, else the message of the error, else "Failed to
    load rooms". *)
Theorem loadRooms_failure_is_reported
  (s : R.Sys) (i : nat) (saw : bool) (o : Outcome) (e : PgError)
  (Hwaiting : nth_error (pending s) i = Some (R.loadRooms_select saw))
  (Hfault : fault o = Some e) :
  let s' := R.step (R.Settle i o) s in
  R.rooms (ui s') = R.rooms (ui s)
  /\ R.selectedRoom (ui s') = R.selectedRoom (ui s)
  /\ R.messages (ui s') = R.messages (ui s)
  /\ R.loading (ui s') = false
  /\ console s' = console s ++ [console_error "Error loading rooms:" e;
                                console_error "Error loading rooms:" e]
  /\ toasts s' = toasts s ++ [toast_error (errorMessage "Failed to load rooms" e)]
  /\ errorMessage "Failed to load rooms" e <> ""
  /\ issued s' = issued s.
Proof.
  cbv zeta. rewrite (room_settle_loadRooms s i saw o Hwaiting).
  unfold respond. rewrite Hfault. rewrite commit_same by reflexivity.
  unfold R.loadRooms_then, andThen. simpl. rewrite <- app_assoc.
  repeat split. now apply errorMessage_not_empty.
Qed.

(** ** createRoom *)

Lemma step_room_refused (s : R.Sys) (l : list R.Pending) (u : User.t) (saw : bool)
  (n d : jsstring) (o : Outcome) (e : PgError) :
  pending s = l ++ [R.createRoom_insert u saw n d] -> fault o = Some e ->
  R.step (R.Settle (List.length l) o) s
  = (say (console_error "Room creation error:" e) ;; R.createRoom_catch e)
      (resume l (db s) s).
Proof.
  intros Hp Ho. unfold R.step. rewrite (room_settle_at _ _ _ _ Hp).
  unfold R.settle, insert_room. rewrite Ho.
  now apply commit_same.
Qed.

Lemma step_member_served (s : R.Sys) (l : list R.Pending) (u : User.t) (saw : bool)
  (room_id : string) (o : Outcome) :
  pending s = l ++ [R.createRoom_member u saw room_id] -> fault o = None ->
  R.step (R.Settle (List.length l) o) s
  = (update (R.setNewRoom {| R.name := []; R.description := [] |}) ;;
     update (R.setIsDialogOpen false) ;;
     R.loadRooms_seeing saw ;;
     toast (toast_success "Room created successfully!"))
      (resume l (stored o (new_member room_id (User.id u) "owner") (db s)) s).
Proof.
  intros Hp Ho. unfold R.step. rewrite (room_settle_at _ _ _ _ Hp).
  unfold R.settle. rewrite (insert_served _ _ _ Ho).
  now apply commit_same.
Qed.

(** X8.  [createRoom] does nothing when no user is signed in or when the
    name is empty or whitespace only: no request, no toast, the dialog
    and what was typed stay. *)
Theorem createRoom_rejects_blank_name
  (s : R.Sys)
  (Hguard : R.user (ui s) = None \/ blank (R.name (R.newRoom (ui s))) = true) :
  R.createRoom s = s /\ R.step R.ClickCreateRoom s = s.
Proof.
  assert (E : R.createRoom s = s).
  { unfold R.createRoom. destruct (R.user (ui s)) as [u|]; [|reflexivity].
    destruct Hguard as [Hu|Hb]; [discriminate|].
    now rewrite truthy_trim, Hb. }
  split; [exact E|].
  unfold R.step, R.handle_event.
  destruct (R.dialog_shown (ui s)); rewrite ?E; now apply commit_same.
Qed.

(** X9.  When the insert of the room fails, [createRoom] stops there:
    nothing is stored, no membership insert and no reload follow, the
    dialog stays open with what was typed, the error is logged twice and
    one toast is shown, whose text is never empty. *)
Theorem createRoom_failure_keeps_the_dialog
  (s : R.Sys) (u : User.t) (o : Outcome) (e : PgError)
  (Huser : R.user (ui s) = Some u)
  (Hdialog : R.dialog_shown (ui s) = true)
  (Hname : blank (R.name (R.newRoom (ui s))) = false)
  (Hfault : fault o = Some e) :
  let s' := R.run [R.ClickCreateRoom; R.Settle (List.length (pending s)) o] s in
  db s' = db s
  /\ pending s' = pending s
  /\ issued s' = issued s ++
       [insert_ Supabase.rooms
          (new_room (R.name (R.newRoom (ui s))) (R.description (R.newRoom (ui s)))
                    (User.id u)) true]
  /\ ui s' = ui s
  /\ R.isDialogOpen (ui s') = true
  /\ console s' = console s ++
       [console_log "Creating room with user:";
        console_error "Room creation error:" e;
        console_error "Error creating room:" e]
  /\ toasts s' = toasts s ++ [toast_error (errorMessage "Failed to create room" e)]
  /\ errorMessage "Failed to create room" e <> "".
Proof.
  cbv zeta. unfold R.run. simpl fold_left.
  rewrite (step_createRoom s u Huser Hdialog Hname).
  match goal with |- context [R.step (R.Settle _ o) ?st] =>
    rewrite (step_room_refused st (pending s) u _ _ _ o e eq_refl Hfault)
  end.
  unfold R.createRoom_catch, andThen. simpl. rewrite <- !app_assoc.
  repeat split.
  - unfold R.dialog_shown in Hdialog. now apply andb_prop in Hdialog.
  - now apply errorMessage_not_empty.
Qed.

(** X10.  When both inserts are served, the store holds the room, with
    the name and the description as typed (not trimmed) and the user as
    owner, and the membership of the user in that room with the role
    "owner"; the dialog is closed and emptied, the rooms are asked for
    again and the toast "Room created successfully!" is shown. *)
Theorem createRoom_stores_room_and_owner
  (s : R.Sys) (u : User.t) (room_served member_served : Outcome)
  (Huser : R.user (ui s) = Some u)
  (Hdialog : R.dialog_shown (ui s) = true)
  (Hname : blank (R.name (R.newRoom (ui s))) = false)
  (Hroom : fault room_served = None)
  (Hmember : fault member_served = None) :
  let n := List.length (pending s) in
  let s' := R.run [R.ClickCreateRoom; R.Settle n room_served;
                   R.Settle n member_served] s in
  t_rooms (db s') = t_rooms (db s) ++
    [{| Room.id := new_id room_served;
        Room.name := R.name (R.newRoom (ui s));
        Room.description := Some (R.description (R.newRoom (ui s)));
        Room.created_at := now room_served;
        Room.owner_id := User.id u |}]
  /\ t_room_members (db s') = t_room_members (db s) ++
       [{| Member.room_id := new_id room_served;
           Member.user_id := User.id u;
           Member.role := "owner" |}]
  /\ R.isDialogOpen (ui s') = false
  /\ R.newRoom (ui s') = {| R.name := []; R.description := [] |}
  /\ pending s' = pending s ++ [R.loadRooms_select (is_some (R.selectedRoom (ui s)))]
  /\ toasts s' = toasts s ++ [toast_success "Room created successfully!"]
  /\ console s' = console s ++
       [console_log "Creating room with user:";
        console_log "Room created successfully:";
        console_log "Loading rooms for user:"].
Proof.
  cbv zeta. unfold R.run. simpl fold_left.
  rewrite (step_createRoom s u Huser Hdialog Hname).
  match goal with |- context [R.step (R.Settle _ room_served) ?st] =>
    rewrite (step_room_inserted st (pending s) u _ _ _ room_served eq_refl Hroom)
  end.
  match goal with |- context [R.step (R.Settle _ member_served) ?st] =>
    rewrite (step_member_served st (pending s) u _ _ member_served eq_refl Hmember)
  end.
  simpl. rewrite <- !app_assoc. repeat split.
Qed.

(** ** DirectMessageWindow: the peer's profile *)

Lemma select_profiles_by_id (other : string) (d : DB) :
  select_profiles (D.loadOtherUser_query other) d
  = filter (fun p => Profile.id p =? other) (t_profiles d).
Proof.
  unfold select_profiles, Supabase.run. simpl.
  apply filter_ext. intros p. simpl. apply andb_true_r.
Qed.

(** X11.  When [loadOtherUser] resolves with exactly one profile of the
    id asked for, that profile becomes the peer shown and nothing is
    reported.  In every other case (a fault, no such profile, several)
    the peer shown stays what it was, null on a fresh window so that
    "User not found" is rendered, and the toast "Failed to load user
    information" is shown.  The messages are untouched either way. *)
Theorem loadOtherUser_sets_the_peer_or_reports
  (s : D.Sys) (i : nat) (other : string) (o : Outcome)
  (Hwaiting : nth_error (pending s) i = Some (D.loadOtherUser_select other)) :
  let s' := D.step (D.Settle i o) s in
  match fault o, filter (fun p => Profile.id p =? other) (t_profiles (db s)) with
  | None, [p] =>
      D.otherUser (ui s') = Some p /\ Profile.id p = other
      /\ toasts s' = toasts s /\ console s' = console s
  | _, _ =>
      D.otherUser (ui s') = D.otherUser (ui s)
      /\ toasts s' = toasts s ++ [toast_error "Failed to load user information"]
  end
  /\ D.messages (ui s') = D.messages (ui s)
  /\ D.loading (ui s') = D.loading (ui s).
Proof.
  cbv zeta. unfold D.step. rewrite Hwaiting. unfold D.settle, andThen, respond.
  rewrite select_profiles_by_id.
  destruct (fault o) as [e|].
  - simpl. now repeat split.
  - destruct (filter _ _) as [|p [|p' rest]] eqn:E; simpl; try now repeat split.
    repeat split.
    assert (Hin : In p (filter (fun p => Profile.id p =? other) (t_profiles (db s))))
      by (rewrite E; now left).
    apply filter_In in Hin. now apply String.eqb_eq.
Qed.

(** ** DirectMessageWindow: the conversation *)

(** An event other than a change of the prop or of the user leaves the
    channels, the user and the prop as they are. *)
Lemma direct_quiet_step_keeps (e : D.Event) (s : D.Sys) :
  same_conversation e = true ->
  channels (D.step e s) = channels s
  /\ D.user (ui (D.step e s)) = D.user (ui s)
  /\ D.otherUserId (ui (D.step e s)) = D.otherUserId (ui s)
  /\ D.cleanup (ui (D.step e s)) = D.cleanup (ui s).
Proof.
  intros Hq.
  destruct e; try discriminate; unfold D.step, D.settle, andThen, D.sendMessage,
    D.onInsert, D.loadOtherUser_then, D.loadMessages_then, D.sendMessage_then,
    D.suspend, insert, andThen, skip;
    repeat split; split_matches; congruence.
Qed.

(** X12.  The callback of the subscription and the filter of the load
    accept the same rows, and the pair of the conversation is unordered:
    a row belongs to the conversation of self and peer exactly when the
    query's filter holds of it, and exactly when it belongs to the
    conversation of peer and self. *)
Theorem load_and_subscription_agree_on_the_pair
  (self other : string) (m : DirectMessage.t) :
  holds (D.pair_filter self other) m
  = D.in_conversation {| D.self_id := self; D.peer_id := other |} m
  /\ D.in_conversation {| D.self_id := self; D.peer_id := other |} m
     = D.in_conversation {| D.self_id := other; D.peer_id := self |} m
  /\ (D.in_conversation {| D.self_id := self; D.peer_id := other |} m = true <->
      (DirectMessage.sender_id m = self /\ DirectMessage.receiver_id m = other)
      \/ (DirectMessage.sender_id m = other /\ DirectMessage.receiver_id m = self)).
Proof.
  split; [reflexivity|]. split.
  - unfold D.in_conversation. simpl. apply orb_comm.
  - unfold D.in_conversation. simpl.
    rewrite orb_true_iff, !andb_true_iff, !String.eqb_eq. reflexivity.
Qed.

Lemma Forall_remove_nth {A} (P : A -> Prop) (i : nat) (l : list A) :
  Forall P l -> Forall P (remove_nth i l).
Proof.
  intros Hl. revert i. induction Hl as [|x l Hx Hl IH]; intros [|i]; simpl;
    try constructor; auto.
Qed.

Lemma direct_quiet_step_set_on (l : D.Listener) (e : D.Event) (s : D.Sys) :
  same_conversation e = true -> set_on l s -> set_on l (D.step e s).
Proof.
  intros Hq [Hch [Hp Hm]].
  destruct (direct_quiet_step_keeps e s Hq) as [Ech _].
  split; [now rewrite Ech|].
  destruct e; try discriminate; unfold D.step.
  - destruct (D.input_enabled (ui s)); now split.
  - destruct (D.input_enabled (ui s) && (key =? "Enter") && negb shiftKey);
      [|now split].
    unfold D.sendMessage. destruct (D.user (ui s)); [|now split].
    destruct (negb _); [now split|].
    split; [|exact Hm]. simpl. apply Forall_app. split; [exact Hp|].
    now repeat constructor.
  - destruct (D.button_enabled (ui s)); [|now split].
    unfold D.sendMessage. destruct (D.user (ui s)); [|now split].
    destruct (negb _); [now split|].
    split; [|exact Hm]. simpl. apply Forall_app. split; [exact Hp|].
    now repeat constructor.
  - destruct (nth_error (pending s) i) as [k|] eqn:Hk; [|now split].
    pose proof (Forall_remove_nth _ i _ Hp) as Hrest.
    apply nth_error_In in Hk. rewrite Forall_forall in Hp. specialize (Hp k Hk).
    destruct k as [other|self other|sender receiver content];
      unfold D.settle, andThen.
    + unfold D.loadOtherUser_then. split_matches; now split.
    + destruct Hp as [-> ->]. unfold D.loadMessages_then, D.loaded, respond, andThen.
      destruct (fault o); simpl; (split; [exact Hrest|]); [exact Hm|].
      destruct (direct_load_answer (D.self_id l) (D.peer_id l) (db s))
        as [_ [_ Hall]].
      revert Hall. apply Forall_impl. intros m [_ Hin]. now destruct l.
    + unfold insert, D.sendMessage_then, andThen. split_matches; now split.
  - destruct (find_channel h s) as [c|] eqn:Hc; [|now split].
    apply find_some in Hc. destruct Hc as [Hc _].
    rewrite Forall_forall in Hch. rewrite (Hch c Hc).
    unfold D.onInsert. destruct (D.in_conversation l row) eqn:Hin; [|now split].
    split; [exact Hp|]. simpl. apply Forall_app. split; [exact Hm|].
    now repeat constructor.
  - now split.
Qed.

Lemma direct_mount_set_on (d : DB) (other : string) (u : User.t) :
  set_on {| D.self_id := User.id u; D.peer_id := other |} (D.mount d other (Some u)).
Proof.
  unfold D.mount, D.useEffect. simpl.
  destruct (negb (other =? "")); simpl; repeat split; repeat constructor.
Qed.

(** X13.  As long as neither the peer nor the user changes, the window
    holds only messages of its conversation: whatever is loaded, typed,
    sent, answered or pushed on the channel, every message of the store
    has the user and the peer as its sender and receiver, one way or the
    other.  An insert event that does not belong to the conversation the
    channel listens for changes nothing. *)
Theorem direct_store_holds_only_its_conversation
  (events : list D.Event) (d : DB) (other : string) (u : User.t)
  (s : D.Sys) (h : nat) (row : DirectMessage.t)
  (Hsame : forallb same_conversation events = true) :
  Forall (fun m => D.in_conversation
                     {| D.self_id := User.id u; D.peer_id := other |} m = true)
    (D.messages (ui (D.run events (D.mount d other (Some u)))))
  /\ match find_channel h s with
     | Some c => if D.in_conversation (listener c) row then True
                 else D.step (D.Realtime h row) s = s
     | None => D.step (D.Realtime h row) s = s
     end.
Proof.
  split.
  - assert (Hrun : forall s, set_on {| D.self_id := User.id u; D.peer_id := other |} s ->
                             set_on {| D.self_id := User.id u; D.peer_id := other |}
                               (D.run events s)).
    { induction events as [|e es IH]; intros s0 Hs; simpl; [exact Hs|].
      simpl in Hsame. apply andb_prop in Hsame. destruct Hsame as [He Hes].
      apply (IH Hes). now apply direct_quiet_step_set_on. }
    exact (proj2 (proj2 (Hrun _ (direct_mount_set_on d other u)))).
  - unfold D.step, D.onInsert. destruct (find_channel h s) as [c|]; [|reflexivity].
    now destruct (D.in_conversation (listener c) row).
Qed.

(** ** DirectMessageWindow: the channel *)

Lemma direct_rerun_listens (f : D.State -> D.State) (s : D.Sys) :
  (forall st, D.cleanup (f st) = D.cleanup st) ->
  direct_one_channel s ->
  listens_for_current ((update f ;; D.run_cleanup ;; D.useEffect) s).
Proof.
  intros Hf Hs. unfold andThen.
  assert (Hs' : direct_one_channel (update f s)).
  { unfold direct_one_channel in *. simpl. now rewrite Hf. }
  destruct (direct_cleanup_closes _ Hs') as [Hch _].
  set (s1 := D.run_cleanup (update f s)) in *.
  unfold listens_for_current, D.useEffect.
  destruct (D.user (ui s1)) as [u|] eqn:Hu; [|now rewrite Hch].
  destruct (negb _); [|now rewrite Hch].
  unfold andThen. simpl. rewrite Hch. intros c [<-|[]].
  exists u. now split.
Qed.

Lemma direct_step_listens (e : D.Event) (s : D.Sys) :
  direct_one_channel s -> listens_for_current s ->
  listens_for_current (D.step e s).
Proof.
  intros Hone Hs.
  destruct (same_conversation e) eqn:Hq.
  - destruct (direct_quiet_step_keeps e s Hq) as [Ech [Eu [Eo _]]].
    unfold listens_for_current. now rewrite Ech, Eu, Eo.
  - destruct e; try discriminate; unfold D.step.
    + destruct (D.otherUserId (ui s) =? other); [exact Hs|].
      now apply direct_rerun_listens.
    + destruct (D.user (ui s)), u; try exact Hs; now apply direct_rerun_listens.
Qed.

Lemma direct_run_listens (es : list D.Event) (s : D.Sys) :
  direct_one_channel s -> listens_for_current s ->
  direct_one_channel (D.run es s) /\ listens_for_current (D.run es s).
Proof.
  revert s. induction es as [|e es IH]; intros s Hone Hs; simpl; [now split|].
  apply IH; [now apply direct_step_one_channel | now apply direct_step_listens].
Qed.

Lemma direct_mount_listens (d : DB) (other : string) (u : option User.t) :
  listens_for_current (D.mount d other u).
Proof.
  unfold D.mount, listens_for_current, D.useEffect. simpl.
  destruct u as [u|]; [|intros c []].
  destruct (negb (other =? "")); simpl; [|intros c []].
  intros c [<-|[]]. exists u. now split.
Qed.

(** X14.  However the window is driven from its mount, it holds at most
    one channel, that channel listens for the conversation of the user
    and the peer of now (each change of either closes the channel and
    opens another), and unmounting closes it: no channel is left. *)
Theorem direct_window_holds_one_current_channel
  (events : list D.Event) (d : DB) (other : string) (u : option User.t) :
  let s := D.run events (D.mount d other u) in
  List.length (channels s) <= 1
  /\ listens_for_current s
  /\ channels (D.unmount s) = [].
Proof.
  cbv zeta.
  destruct (direct_run_listens events _ (direct_mount_one_channel d other u)
              (direct_mount_listens d other u)) as [Hone Hl].
  split; [apply direct_never_two_channels|]. split; [exact Hl|].
  exact (proj1 (direct_cleanup_closes _ Hone)).
Qed.

(** X15.  A switch to another peer does not reset the window: right
    after it the messages, the peer shown, the text typed and the flags
    are those of before, and stay until the new loads resolve.  What
    changes at once is the prop, the two loads sent for the new peer,
    and the channel: the old one is closed and one is opened for the
    new conversation. *)
Theorem direct_switch_keeps_the_window
  (s : D.Sys) (u : User.t) (other : string)
  (Huser : D.user (ui s) = Some u)
  (Hother : (other =? "") = false)
  (Hnew : (D.otherUserId (ui s) =? other) = false)
  (Hone : direct_one_channel s) :
  let s' := D.step (D.Props other) s in
  D.messages (ui s') = D.messages (ui s)
  /\ D.otherUser (ui s') = D.otherUser (ui s)
  /\ D.newMessage (ui s') = D.newMessage (ui s)
  /\ D.loading (ui s') = D.loading (ui s)
  /\ D.sending (ui s') = D.sending (ui s)
  /\ D.otherUserId (ui s') = other
  /\ issued s' = issued s ++ [select_ (D.loadOtherUser_query other);
                              select_ (D.loadMessages_query (User.id u) other)]
  /\ channels s'
     = [{| handle := next_handle s; topic := "direct-messages";
           table := direct_messages; server_filter := None;
           listener := {| D.self_id := User.id u; D.peer_id := other |} |}]
  /\ D.cleanup (ui s') = Some (next_handle s).
Proof.
  cbv zeta. unfold D.step. rewrite Hnew. unfold andThen.
  assert (Hone' : direct_one_channel (update (D.setOtherUserId other) s)) by exact Hone.
  destruct (direct_cleanup_closes _ Hone') as [Hch Hc].
  set (s1 := D.run_cleanup (update (D.setOtherUserId other) s)) in *.
  assert (Hkeep : ui s1 = D.setCleanup None (D.setOtherUserId other (ui s))
                  /\ issued s1 = issued s /\ next_handle s1 = next_handle s
                  /\ pending s1 = pending s).
  { unfold s1, D.run_cleanup. simpl.
    destruct (D.cleanup (ui s)) as [h|] eqn:Ec; unfold andThen; simpl.
    - now repeat split.
    - repeat split. unfold D.setCleanup, D.setOtherUserId. simpl. now rewrite Ec. }
  destruct Hkeep as [Eui [Ei [En Ep]]].
  unfold D.useEffect. rewrite Eui. simpl. rewrite Huser, Hother. simpl.
  unfold andThen, D.loadOtherUser, D.loadMessages, D.suspend. simpl.
  rewrite Eui, Ei, En, Hch. simpl. rewrite <- app_assoc. now repeat split.
Qed.

(** ** RoomChatPage: the channels *)

Lemma room_handle_keeps_next_handle (e : R.Event) (s : R.Sys) :
  next_handle (R.handle_event e s) = next_handle s.
Proof.
  destruct e; unfold R.handle_event, R.settle, andThen, R.useEffect_user,
    R.loadRooms, R.loadRooms_seeing, R.createRoom, R.sendMessage, R.onInsert,
    R.loadRooms_then, R.loadMessages_then, R.onInsert_then,
    R.createRoom_then_room, R.createRoom_then_member, R.createRoom_catch,
    R.sendMessage_then, R.loadRooms_seeing, R.suspend, insert_room, insert, andThen;
    split_matches; reflexivity.
Qed.

Lemma room_step_calls_handles (e : R.Event) (s : R.Sys) :
  (calls (R.step e s) = calls s /\ next_handle (R.step e s) = next_handle s)
  \/ exists roomId,
       calls (R.step e s)
       = calls s ++ [call_subscribe "room-messages" room_messages
                       (Some (eq "room_id" roomId))]
       /\ next_handle (R.step e s) = S (next_handle s).
Proof.
  unfold R.step, R.commit.
  rewrite <- (room_handle_keeps_calls e s), <- (room_handle_keeps_next_handle e s).
  destruct (R.same_selected _ _); [now left|].
  unfold R.useEffect_selectedRoom.
  destruct (R.selectedRoom (ui (R.handle_event e s))) as [[ref room]|]; [|now left].
  right. exists (Room.id room). now split.
Qed.

Lemma room_step_topics (e : R.Event) (s : R.Sys) :
  Forall (fun c => topic c = "room-messages") (channels s) ->
  Forall (fun c => topic c = "room-messages") (channels (R.step e s)).
Proof.
  intros Hs. unfold R.step, R.commit.
  rewrite <- (room_handle_keeps_channels e s) in Hs.
  destruct (R.same_selected _ _); [exact Hs|].
  unfold R.useEffect_selectedRoom.
  destruct (R.selectedRoom (ui (R.handle_event e s))) as [[ref room]|]; [|exact Hs].
  unfold andThen. simpl. apply Forall_app. split.
  - apply Forall_forall. intros c Hc. apply filter_In in Hc.
    rewrite Forall_forall in Hs. now apply Hs.
  - now repeat constructor.
Qed.

(** X16.  The room page never asks the client to remove a channel.
    However it is driven from its mount, all it has asked of the client
    are subscriptions, one for each channel handle given out, every one
    under the same topic "room-messages" and filtered on one room; the
    channels it holds are under that topic.  A switch of room therefore
    joins a topic whose previous channel the page has not removed. *)
Theorem room_page_only_subscribes
  (events : list R.Event) (d : DB) (u : option User.t) :
  let s := R.run events (R.mount d u) in
  room_subscribes_only (calls s)
  /\ never_removes (calls s) = true
  /\ List.length (calls s) = next_handle s
  /\ Forall (fun c => topic c = "room-messages") (channels s).
Proof.
  cbv zeta.
  assert (Hinv : forall s,
            room_subscribes_only (calls s) /\ List.length (calls s) = next_handle s
            /\ Forall (fun c => topic c = "room-messages") (channels s) ->
            room_subscribes_only (calls (R.run events s))
            /\ List.length (calls (R.run events s)) = next_handle (R.run events s)
            /\ Forall (fun c => topic c = "room-messages") (channels (R.run events s))).
  { induction events as [|e es IH]; intros s Hs; simpl; [exact Hs|].
    apply IH. destruct Hs as [Hc [Hn Ht]].
    split; [|split; [|now apply room_step_topics]];
      destruct (room_step_calls_handles e s) as [[Ec En]|[roomId [Ec En]]];
      rewrite ?Ec, ?En; try assumption.
    - apply Forall_app. split; [exact Hc|]. constructor; [|constructor].
      now exists roomId.
    - rewrite length_app. simpl. lia. }
  destruct (Hinv (R.mount d u)) as [Hc [Hn Ht]].
  { destruct u; simpl; repeat split; constructor. }
  split; [exact Hc|]. split; [|now split].
  apply room_run_never_removes, room_mount_never_removes.
Qed.

(** ** Navigation *)

Lemma navigate_keeps_selection (bs : list MainNavigation.Button) (s : Dashboard.State) :
  Dashboard.selectedChatUserId (Pages.navigate bs s) = Dashboard.selectedChatUserId s.
Proof.
  revert s. induction bs as [|b bs IH]; intros s; simpl; [reflexivity|].
  now rewrite IH.
Qed.

Ltac each_button H :=
  unfold MainNavigation.buttons, MainNavigation.discover,
    MainNavigation.settings in H;
  simpl in H;
  repeat (destruct H as [<-|H]); [..|contradiction].

(** X17.  Every button of the navigation leads to a page of its own:
    after a click exactly the clicked button is highlighted, two
    different buttons never show the same content, and the direct
    messages view, which is also what an unknown page id would show, is
    reached by the "Direct Messages" button only.  A click leaves the
    selected peer as it is. *)
Theorem every_button_has_its_page
  (s : Dashboard.State) (b b' : MainNavigation.Button)
  (Hb : In b MainNavigation.buttons)
  (Hb' : In b' MainNavigation.buttons) :
  (MainNavigation.highlighted (Dashboard.activePage (Pages.click b s)) b' = true
   <-> b' = b)
  /\ (Pages.renderMainContent (Pages.click b s)
      = Pages.renderMainContent (Pages.click b' s) -> b = b')
  /\ match Pages.renderMainContent (Pages.click b s) with
     | Pages.DirectMessages _ => MainNavigation.page b = "direct-messages"
     | _ => MainNavigation.page b <> "direct-messages"
     end
  /\ Dashboard.selectedChatUserId (Pages.click b s) = Dashboard.selectedChatUserId s.
Proof.
  each_button Hb; each_button Hb';
    (split; [split; [discriminate || reflexivity | discriminate || reflexivity]|]);
    (split; [discriminate || reflexivity|]);
    (split; [discriminate || reflexivity | reflexivity]).
Qed.

(** X18.  The dashboard renders the direct-message window exactly when
    the page is none of the six others and a peer with a non-empty id is
    selected.  [handleMessageUser] opens it on that peer, and the
    selection outlives any navigation: back on "Direct Messages" the
    window is on the same peer. *)
Theorem message_user_opens_the_window
  (s : Dashboard.State) (userId : string) (clicks : list MainNavigation.Button)
  (Hid : (userId =? "") = false) :
  match Pages.renderMainContent s with
  | Pages.DirectMessages w => Dashboard.directMessageWindow s = w
  | _ => Dashboard.directMessageWindow s = None
  end
  /\ Pages.renderMainContent (Dashboard.handleMessageUser userId s)
     = Pages.DirectMessages (Some userId)
  /\ Pages.renderMainContent
       (Pages.setActivePage "direct-messages"
          (Pages.navigate clicks (Dashboard.handleMessageUser userId s)))
     = Pages.DirectMessages (Some userId).
Proof.
  split; [|split].
  - unfold Pages.renderMainContent, Dashboard.directMessageWindow,
      Dashboard.shows_direct_messages.
    destruct (Dashboard.activePage s =? "home"); [reflexivity|].
    destruct (Dashboard.activePage s =? "browse-friends"); [reflexivity|].
    destruct (Dashboard.activePage s =? "profile"); [reflexivity|].
    destruct (Dashboard.activePage s =? "room-profile"); [reflexivity|].
    destruct (Dashboard.activePage s =? "audio-settings"); [reflexivity|].
    destruct (Dashboard.activePage s =? "room-chat"); reflexivity.
  - unfold Pages.renderMainContent. simpl. now rewrite Hid.
  - unfold Pages.renderMainContent, Pages.setActivePage. simpl.
    rewrite navigate_keeps_selection. simpl. now rewrite Hid.
Qed.

(** ** joinRoom *)

(** X19.  [joinRoom] does not look at the answer to its insert: when the
    store refuses the membership, no row is stored and nothing is
    logged as an error, yet the toast "Joined room successfully!" is
    shown and the rooms are asked for again, exactly as when the
    membership, with the role "member", is stored. *)
Theorem joinRoom_reports_success_either_way
  (s : R.Sys) (u : User.t) (roomId : string) (served refused : Outcome) (e : PgError)
  (Huser : R.user (ui s) = Some u)
  (Hserved : fault served = None)
  (Hrefused : fault refused = Some e) :
  let joined := JoinRoom.joinRoom roomId served s in
  let failed := JoinRoom.joinRoom roomId refused s in
  t_room_members (db joined)
  = t_room_members (db s) ++ [{| Member.room_id := roomId;
                                 Member.user_id := User.id u;
                                 Member.role := "member" |}]
  /\ db failed = db s
  /\ toasts failed = toasts s ++ [toast_success "Joined room successfully!"]
  /\ toasts failed = toasts joined
  /\ console failed = console joined
  /\ ui failed = ui joined
  /\ issued failed = issued s ++ [JoinRoom.joinRoom_request roomId u;
                                  select_ R.loadRooms_query]
  /\ issued failed = issued joined.
Proof.
  cbv zeta. unfold JoinRoom.joinRoom. rewrite Huser.
  rewrite (insert_served _ _ _ Hserved), (insert_faulted _ _ _ _ Hrefused).
  simpl. rewrite <- app_assoc. now repeat split.
Qed.

(** ** RoomChatPage: selecting a room *)

(** X20.  A click on a room of the list other than the object already
    selected selects it, asks for its messages and asks the client for
    a channel under the topic "room-messages" filtered on it, without
    asking it to remove any; the messages shown and the text typed stay,
    until the load resolves.  A click on the very object that is
    selected does nothing. *)
Theorem room_click_selects_and_subscribes
  (s : R.Sys) (i : nat) (room : Room.t)
  (Hshown : R.loading (ui s) = false)
  (Hroom : nth_error (R.rooms (ui s)) i = Some room)
  (Hother : R.same_selected (R.selectedRoom (ui s))
              (Some ((R.rooms_gen (ui s), i), room)) = false) :
  let s' := R.step (R.ClickRoom i) s in
  R.selectedRoom (ui s') = Some ((R.rooms_gen (ui s), i), room)
  /\ R.messages (ui s') = R.messages (ui s)
  /\ R.newMessage (ui s') = R.newMessage (ui s)
  /\ issued s' = issued s ++ [select_ (R.loadMessages_query (Room.id room))]
  /\ calls s'
     = calls s ++ [call_subscribe "room-messages" room_messages
                     (Some (eq "room_id" (Room.id room)))]
  /\ R.step (R.ClickRoom i) s' = s'.
Proof.
  cbv zeta.
  assert (E : R.step (R.ClickRoom i) s
              = R.useEffect_selectedRoom
                  (update (R.setSelectedRoom (Some ((R.rooms_gen (ui s), i), room))) s)).
  { unfold R.step, R.handle_event, R.commit. rewrite Hshown, Hroom. simpl.
    now rewrite Hother. }
  rewrite E. unfold R.useEffect_selectedRoom, andThen. simpl.
  do 5 (split; [reflexivity|]).
  unfold R.step, R.handle_event. simpl. rewrite Hshown, Hroom.
  apply commit_same. reflexivity.
Qed.

(** ** The further theorems at concrete inputs *)

Lemma load_takes_the_oldest_fifty_witness :
  fault Data.served = None
  /\ List.length
       (D.messages (ui (D.step (D.Settle (List.length (pending Data.direct_loaded))
                                  Data.served)
                          (D.loadMessages Data.alice Data.direct_loaded))))
     = Nat.min 50
         (List.length
            (filter (D.in_conversation
                       {| D.self_id := User.id Data.alice;
                          D.peer_id := D.otherUserId (ui Data.direct_loaded) |})
               (t_direct_messages (db Data.direct_loaded)))).
Proof.
  assert (H1 : fault Data.served = None) by reflexivity.
  destruct (load_takes_the_oldest_fifty Data.room_loaded "general" Data.direct_loaded
              Data.alice Data.served H1) as [_ [_ Ed]].
  exact (conj H1 Ed).
Defined.

Lemma spinner_never_returns_witness :
  R.loading (ui Data.room_loaded) = false
  /\ D.loading (ui Data.direct_loaded) = false
  /\ R.loading (ui (R.run [R.ClickRoom 1] Data.room_loaded)) = false
  /\ D.loading (ui (D.run [D.Props "carol"] Data.direct_loaded)) = false.
Proof.
  assert (H1 : R.loading (ui Data.room_loaded) = false) by reflexivity.
  assert (H2 : D.loading (ui Data.direct_loaded) = false) by reflexivity.
  destruct (spinner_never_returns [R.ClickRoom 1] Data.room_loaded
              [D.Props "carol"] Data.direct_loaded H1 H2) as [Er Ed].
  exact (conj H1 (conj H2 (conj Er Ed))).
Defined.

Lemma loadRooms_lists_every_room_in_order_witness :
  nth_error (pending More.room_mounted) 0 = Some (R.loadRooms_select false)
  /\ fault Data.served = None
  /\ Permutation (R.rooms (ui (R.step (R.Settle 0 Data.served) More.room_mounted)))
       (t_rooms (db More.room_mounted)).
Proof.
  assert (H1 : nth_error (pending More.room_mounted) 0
               = Some (R.loadRooms_select false)) by reflexivity.
  assert (H2 : fault Data.served = None) by reflexivity.
  destruct (loadRooms_lists_every_room_in_order More.room_mounted 0 false
              Data.served H1 H2) as [Ep _].
  exact (conj H1 (conj H2 Ep)).
Defined.

Lemma loadRooms_selects_the_oldest_room_witness :
  nth_error (pending More.room_mounted) 0 = Some (R.loadRooms_select false)
  /\ R.selectedRoom (ui More.room_mounted) = None
  /\ fault Data.served = None
  /\ t_rooms (db More.room_mounted) <> []
  /\ R.selectedRoom (ui (R.loadRooms_then true (ok []) More.room_mounted))
     = R.selectedRoom (ui More.room_mounted).
Proof.
  assert (H1 : nth_error (pending More.room_mounted) 0
               = Some (R.loadRooms_select false)) by reflexivity.
  assert (H2 : R.selectedRoom (ui More.room_mounted) = None) by reflexivity.
  assert (H3 : fault Data.served = None) by reflexivity.
  assert (H4 : t_rooms (db More.room_mounted) <> []) by discriminate.
  destruct (loadRooms_selects_the_oldest_room More.room_mounted 0 Data.served
              (ok []) H1 H2 H3 H4) as [_ Ek].
  exact (conj H1 (conj H2 (conj H3 (conj H4 Ek)))).
Defined.

Lemma loadRooms_failure_is_reported_witness :
  nth_error (pending More.room_mounted) 0 = Some (R.loadRooms_select false)
  /\ fault Data.denied = Some Data.permission_denied
  /\ R.rooms (ui (R.step (R.Settle 0 Data.denied) More.room_mounted))
     = R.rooms (ui More.room_mounted).
Proof.
  assert (H1 : nth_error (pending More.room_mounted) 0
               = Some (R.loadRooms_select false)) by reflexivity.
  assert (H2 : fault Data.denied = Some Data.permission_denied) by reflexivity.
  destruct (loadRooms_failure_is_reported More.room_mounted 0 false Data.denied
              Data.permission_denied H1 H2) as [Er _].
  exact (conj H1 (conj H2 Er)).
Defined.

Lemma createRoom_rejects_blank_name_witness :
  blank (R.name (R.newRoom (ui More.room_dialog_blank))) = true
  /\ R.createRoom More.room_dialog_blank = More.room_dialog_blank.
Proof.
  assert (H1 : blank (R.name (R.newRoom (ui More.room_dialog_blank))) = true)
    by reflexivity.
  destruct (createRoom_rejects_blank_name More.room_dialog_blank (or_intror H1))
    as [Ec _].
  exact (conj H1 Ec).
Defined.

Lemma createRoom_failure_keeps_the_dialog_witness :
  R.user (ui Data.room_dialog) = Some Data.alice
  /\ R.dialog_shown (ui Data.room_dialog) = true
  /\ blank (R.name (R.newRoom (ui Data.room_dialog))) = false
  /\ fault Data.denied = Some Data.permission_denied
  /\ db (R.run [R.ClickCreateRoom;
                R.Settle (List.length (pending Data.room_dialog)) Data.denied]
           Data.room_dialog)
     = db Data.room_dialog.
Proof.
  assert (H1 : R.user (ui Data.room_dialog) = Some Data.alice) by reflexivity.
  assert (H2 : R.dialog_shown (ui Data.room_dialog) = true) by reflexivity.
  assert (H3 : blank (R.name (R.newRoom (ui Data.room_dialog))) = false)
    by reflexivity.
  assert (H4 : fault Data.denied = Some Data.permission_denied) by reflexivity.
  destruct (createRoom_failure_keeps_the_dialog Data.room_dialog Data.alice
              Data.denied Data.permission_denied H1 H2 H3 H4) as [Ed _].
  exact (conj H1 (conj H2 (conj H3 (conj H4 Ed)))).
Defined.

Lemma createRoom_stores_room_and_owner_witness :
  R.user (ui Data.room_dialog) = Some Data.alice
  /\ R.dialog_shown (ui Data.room_dialog) = true
  /\ blank (R.name (R.newRoom (ui Data.room_dialog))) = false
  /\ fault Data.lounge_served = None
  /\ fault More.member_served = None
  /\ toasts (R.run [R.ClickCreateRoom;
                    R.Settle (List.length (pending Data.room_dialog))
                      Data.lounge_served;
                    R.Settle (List.length (pending Data.room_dialog))
                      More.member_served]
               Data.room_dialog)
     = toasts Data.room_dialog ++ [toast_success "Room created successfully!"].
Proof.
  assert (H1 : R.user (ui Data.room_dialog) = Some Data.alice) by reflexivity.
  assert (H2 : R.dialog_shown (ui Data.room_dialog) = true) by reflexivity.
  assert (H3 : blank (R.name (R.newRoom (ui Data.room_dialog))) = false)
    by reflexivity.
  assert (H4 : fault Data.lounge_served = None) by reflexivity.
  assert (H5 : fault More.member_served = None) by reflexivity.
  destruct (createRoom_stores_room_and_owner Data.room_dialog Data.alice
              Data.lounge_served More.member_served H1 H2 H3 H4 H5)
    as [_ [_ [_ [_ [_ [Et _]]]]]].
  exact (conj H1 (conj H2 (conj H3 (conj H4 (conj H5 Et))))).
Defined.

Lemma loadOtherUser_sets_the_peer_or_reports_witness :
  nth_error (pending More.direct_mounted) 0 = Some (D.loadOtherUser_select "bob")
  /\ D.messages (ui (D.step (D.Settle 0 Data.served) More.direct_mounted))
     = D.messages (ui More.direct_mounted).
Proof.
  assert (H1 : nth_error (pending More.direct_mounted) 0
               = Some (D.loadOtherUser_select "bob")) by reflexivity.
  destruct (loadOtherUser_sets_the_peer_or_reports More.direct_mounted 0 "bob"
              Data.served H1) as [_ [Em _]].
  exact (conj H1 Em).
Defined.

Lemma direct_store_holds_only_its_conversation_witness :
  forallb same_conversation More.quiet_events = true
  /\ Forall (fun m => D.in_conversation
                        {| D.self_id := User.id Data.alice; D.peer_id := "bob" |} m
                      = true)
       (D.messages (ui (D.run More.quiet_events
                          (D.mount Data.db0 "bob" (Some Data.alice))))).
Proof.
  assert (H1 : forallb same_conversation More.quiet_events = true) by reflexivity.
  destruct (direct_store_holds_only_its_conversation More.quiet_events Data.db0
              "bob" Data.alice Data.direct_loaded 0 (Data.dm "x1" "carol" "alice" 5)
              H1) as [Ef _].
  exact (conj H1 Ef).
Defined.

Lemma direct_switch_keeps_the_window_witness :
  D.user (ui Data.direct_loaded) = Some Data.alice
  /\ ("carol" =? "") = false
  /\ (D.otherUserId (ui Data.direct_loaded) =? "carol") = false
  /\ direct_one_channel Data.direct_loaded
  /\ D.messages (ui (D.step (D.Props "carol") Data.direct_loaded))
     = D.messages (ui Data.direct_loaded).
Proof.
  assert (H1 : D.user (ui Data.direct_loaded) = Some Data.alice) by reflexivity.
  assert (H2 : ("carol" =? "") = false) by reflexivity.
  assert (H3 : (D.otherUserId (ui Data.direct_loaded) =? "carol") = false)
    by reflexivity.
  assert (H4 : direct_one_channel Data.direct_loaded).
  { exists Data.bob_channel. split; reflexivity. }
  destruct (direct_switch_keeps_the_window Data.direct_loaded Data.alice "carol"
              H1 H2 H3 H4) as [Em _].
  exact (conj H1 (conj H2 (conj H3 (conj H4 Em)))).
Defined.

Lemma every_button_has_its_page_witness :
  In More.home_button MainNavigation.buttons
  /\ In More.room_chat_button MainNavigation.buttons
  /\ Dashboard.selectedChatUserId (Pages.click More.home_button Dashboard.initial)
     = Dashboard.selectedChatUserId Dashboard.initial.
Proof.
  assert (H1 : In More.home_button MainNavigation.buttons) by (left; reflexivity).
  assert (H2 : In More.room_chat_button MainNavigation.buttons)
    by (do 3 right; left; reflexivity).
  destruct (every_button_has_its_page Dashboard.initial More.home_button
              More.room_chat_button H1 H2) as [_ [_ [_ Es]]].
  exact (conj H1 (conj H2 Es)).
Defined.

Lemma message_user_opens_the_window_witness :
  ("bob" =? "") = false
  /\ Pages.renderMainContent (Dashboard.handleMessageUser "bob" Dashboard.initial)
     = Pages.DirectMessages (Some "bob").
Proof.
  assert (H1 : ("bob" =? "") = false) by reflexivity.
  destruct (message_user_opens_the_window Dashboard.initial "bob"
              [More.home_button; More.room_chat_button] H1) as [_ [Er _]].
  exact (conj H1 Er).
Defined.

Lemma joinRoom_reports_success_either_way_witness :
  R.user (ui Data.room_loaded) = Some Data.alice
  /\ fault Data.served = None
  /\ fault Data.denied = Some Data.permission_denied
  /\ db (JoinRoom.joinRoom "random" Data.denied Data.room_loaded)
     = db Data.room_loaded.
Proof.
  assert (H1 : R.user (ui Data.room_loaded) = Some Data.alice) by reflexivity.
  assert (H2 : fault Data.served = None) by reflexivity.
  assert (H3 : fault Data.denied = Some Data.permission_denied) by reflexivity.
  destruct (joinRoom_reports_success_either_way Data.room_loaded Data.alice "random"
              Data.served Data.denied Data.permission_denied H1 H2 H3)
    as [_ [Ed _]].
  exact (conj H1 (conj H2 (conj H3 Ed))).
Defined.

Lemma room_click_selects_and_subscribes_witness :
  R.loading (ui Data.room_loaded) = false
  /\ nth_error (R.rooms (ui Data.room_loaded)) 1 = Some Data.random
  /\ R.same_selected (R.selectedRoom (ui Data.room_loaded))
       (Some ((R.rooms_gen (ui Data.room_loaded), 1), Data.random)) = false
  /\ R.messages (ui (R.step (R.ClickRoom 1) Data.room_loaded))
     = R.messages (ui Data.room_loaded).
Proof.
  assert (H1 : R.loading (ui Data.room_loaded) = false) by reflexivity.
  assert (H2 : nth_error (R.rooms (ui Data.room_loaded)) 1 = Some Data.random)
    by reflexivity.
  assert (H3 : R.same_selected (R.selectedRoom (ui Data.room_loaded))
                 (Some ((R.rooms_gen (ui Data.room_loaded), 1), Data.random)) = false)
    by reflexivity.
  destruct (room_click_selects_and_subscribes Data.room_loaded 1 Data.random
              H1 H2 H3) as [_ [Em _]].
  exact (conj H1 (conj H2 (conj H3 Em))).
Defined.
